(** * Risk scoring and adaptive escalation: a model of [workers/risk_worker.py]

    The development embeds the [RiskWorker] class of
    [apps/workers/workers/risk_worker.py] together with the three helpers of
    [apps/workers/shared] it calls ([get_redis_client],
    [get_clickhouse_client], [publish_message]).

    Conventions of the embedding:
    - Python numbers ([int] and [float]) are exact rationals ([Q]); equality
      of scores is [Qeq], written [==]. The scorer is given a second time on
      binary64 floats ([Binary64]) to evaluate the worked examples as Python
      does. The trend step, whose rule is a comparison of a difference of
      two doubles with 5 and -5, computes on binary64 floats: it takes the
      cohort average as the nearest double;
    - a [dict] that the code iterates over is the list of its items in
      insertion order; a [dict] that is only looked up is a [gmap];
    - [async] methods are computations in a state-and-exception monad over
      the [world]: the Redis key space, the NATS outbox, the ClickHouse
      query answers, the clock and the log. *)

From Stdlib Require Import QArith ZArith Lia Lqa PrimFloat SpecFloat FloatOps DecimalString.
From stdpp Require Import gmap strings list.

Local Open Scope Q_scope.

(** ** Python builtins on numbers *)

Module Py.

Definition ltb (a b : Q) : bool := negb (Qle_bool b a).

Definition geb (a b : Q) : bool := Qle_bool b a.

Definition gtb (a b : Q) : bool := ltb b a.

(** [max(a, b)] keeps its first argument unless the second is greater. *)
Definition max (a b : Q) : Q := if gtb b a then b else a.

(** [min(a, b)] keeps its first argument unless the second is smaller. *)
Definition min (a b : Q) : Q := if ltb b a then b else a.

(** [d.get(k, default)] on the items of a dict. *)
Fixpoint get {V : Type} (d : list (string * V)) (k : string) (default : V) : V :=
  match d with
  | [] => default
  | (k', v) :: d' => if String.eqb k' k then v else get d' k default
  end.

(** [statistics.mean] of a non-empty list. *)
Definition sum (l : list Q) : Q := fold_left Qplus l 0.

Definition mean (l : list Q) : Q := sum l / inject_Z (Z.of_nat (length l)).

End Py.

(** ** The scorer: [RiskWorker.__init__] tables, weighted score, level *)

Definition risk_weights : list (string * Q) :=
  [ ("click_rate"%string, 35 # 100);
    ("report_rate"%string, - (25 # 100));
    ("training_completion"%string, - (20 # 100));
    ("recent_incidents"%string, 15 # 100);
    ("time_to_report"%string, 10 # 100);
    ("repeat_offender"%string, 5 # 100) ].

Definition risk_thresholds : list (string * Q) :=
  [ ("low"%string, 25); ("medium"%string, 50);
    ("high"%string, 75); ("critical"%string, 90) ].

Definition threshold (name : string) : Q := Py.get risk_thresholds name 0.

(** One iteration of the loop over [factors.items()]. *)
Definition add_factor (total_score : Q) (item : string * Q) : Q :=
  let '(factor, value) := item in
  let weight := Py.get risk_weights factor 0 in
  let normalized_value := Py.min (Py.max value 0) 100 in
  total_score + normalized_value * weight.

Definition _calculate_weighted_risk_score (factors : list (string * Q)) : Q :=
  let total_score := fold_left add_factor factors 0 in
  Py.min (Py.max total_score 0) 100.

Definition _determine_risk_level (score : Q) : string :=
  if Py.geb score (threshold "critical") then "critical"
  else if Py.geb score (threshold "high") then "high"
  else if Py.geb score (threshold "medium") then "medium"
  else "low".

(** The factor map of the worked example. *)
Definition example_factors : list (string * Q) :=
  [ ("click_rate"%string, 100); ("report_rate"%string, 0);
    ("training_completion"%string, 0); ("recent_incidents"%string, 0);
    ("time_to_report"%string, 0); ("repeat_offender"%string, 0) ].

(** ** The scorer on binary64 floats

    The same two methods on IEEE 754 doubles, as Python evaluates them; used
    to check that the worked examples are not artefacts of exact arithmetic.
    A decimal literal denotes the nearest double, as in Python. *)

Module Binary64.

Definition max (a b : float) : float := if PrimFloat.ltb a b then b else a.

Definition min (a b : float) : float := if PrimFloat.ltb b a then b else a.

Definition risk_weights : list (string * float) :=
  [ ("click_rate"%string, 0.35%float);
    ("report_rate"%string, (-0.25)%float);
    ("training_completion"%string, (-0.20)%float);
    ("recent_incidents"%string, 0.15%float);
    ("time_to_report"%string, 0.10%float);
    ("repeat_offender"%string, 0.05%float) ].

Definition add_factor (total_score : float) (item : string * float) : float :=
  let '(factor, value) := item in
  let weight := Py.get risk_weights factor 0%float in
  let normalized_value := min (max value 0%float) 100%float in
  (total_score + normalized_value * weight)%float.

Definition _calculate_weighted_risk_score (factors : list (string * float)) : float :=
  let total_score := fold_left add_factor factors 0%float in
  min (max total_score 0%float) 100%float.

Definition _determine_risk_level (score : float) : string :=
  if PrimFloat.leb 90%float score then "critical"
  else if PrimFloat.leb 75%float score then "high"
  else if PrimFloat.leb 50%float score then "medium"
  else "low".

Definition factor_items (click_rate report_rate training_completion recent_incidents
                         time_to_report repeat_offender : float) : list (string * float) :=
  [ ("click_rate"%string, click_rate);
    ("report_rate"%string, report_rate);
    ("training_completion"%string, training_completion);
    ("recent_incidents"%string, recent_incidents);
    ("time_to_report"%string, time_to_report);
    ("repeat_offender"%string, repeat_offender) ].

(** The double an integer denotes, rounded to nearest even. *)
Definition of_Z (z : Z) : float := SF2Prim (binary_normalize prec emax z 0 false).

(** A rational as a double: the quotient of its numerator and denominator
    in lowest terms, which is the double nearest to it when both are below
    [2^53]. *)
Definition of_Q (q : Q) : float :=
  let r := Qred q in (of_Z (Qnum r) / of_Z (Zpos (Qden r)))%float.

End Binary64.

(** ** Data model *)

Module RiskScore.
Record t := mk {
  user_id : string;
  org_id : string;
  overall_score : Q;
  click_rate : Q;
  report_rate : Q;
  training_completion_rate : Q;
  recent_incidents : Q;
  risk_level : string;
  last_updated : Z;
  factors : list (string * Q)
}.
End RiskScore.

Module CohortRisk.
Record t := mk {
  cohort_id : string;
  org_id : string;
  average_risk_score : Q;
  high_risk_users : nat;
  total_users : nat;
  risk_trend : string;
  recommended_actions : list string;
  last_updated : Z
}.
End CohortRisk.

(** One value of the [metrics] dict built by [_get_user_metrics]; a row of
    the ClickHouse answer is an event type paired with such a value. *)
Module Metric.
Record t := mk { count : N; first_event : Z; last_event : Z }.
End Metric.

(** The [action_data] dict of [_execute_adaptive_action]. *)
Module ActionData.
Record t := mk {
  type : string;
  action : string;
  user_id : string;
  org_id : string;
  risk_score : Q;
  risk_level : string;
  timestamp : Z
}.
End ActionData.

(** The [campaign_data] dict of [trigger_adaptive_campaign]. *)
Module CampaignData.
Record t := mk {
  type : string;
  org_id : option string;
  target_users : list string;
  campaign_type : string;
  difficulty : string;
  priority : string;
  trigger_reason : string;
  auto_generated : bool
}.
End CampaignData.

(** Bodies published on the message bus by the adaptive actions. *)
Inductive message :=
| assign_urgent_training
    (user_id : string) (training_modules : list string) (priority : string)
| high_risk_user_alert
    (user_id : string) (risk_level : string) (recommended_actions : list string).

(** What a Redis string key holds: the [json.dumps] of one of the three
    dicts the worker stores, the empty string, or a text that [json.loads]
    rejects, given with the message of the [JSONDecodeError] (a
    [ValueError]) it raises. JSON text of another shape is not
    represented. *)
Inductive document :=
| user_risk_doc (risk_data : RiskScore.t)
| cohort_risk_doc (cohort_data : CohortRisk.t)
| action_doc (action_data : ActionData.t)
| empty_text
| not_json (message : string).

(** An entry of a Redis list, by what [float(score)] makes of its text: the
    double it denotes, or the message of the [ValueError] it raises. *)
Inductive entry :=
| numeric (value : float)
| not_numeric (message : string).

(** The same entry: the same double, or the same message. *)
Definition entry_eqb (a b : entry) : bool :=
  match a, b with
  | numeric x, numeric y => PrimFloat.eqb x y
  | not_numeric m, not_numeric n => String.eqb m n
  | _, _ => false
  end.

(** A Redis key holds a string with a time to live, a list or a sorted
    set. *)
Inductive rvalue :=
| RString (ttl : Z) (doc : document)
| RList (items : list entry)
| RZSet (scores : gmap string Q).

Inductive exc :=
| ValueError (msg : string)
| RuntimeError (msg : string)
| ResponseError (msg : string)
| QueryError (msg : string).

(** The lines [shared/message_bus.py] writes to its own logger:
    [published] is the debug line [Published message to <topic>: <data>]
    (with the body it prints, of either kind), [publish_failed] the error
    line [Failed to publish message to <topic>: <e>]. *)
Inductive bus_line :=
| published (topic : string) (data : message)
| published_campaign (topic : string) (data : CampaignData.t)
| publish_failed (topic : string) (e : exc).

Definition str (e : exc) : string :=
  match e with
  | ValueError m | RuntimeError m | ResponseError m | QueryError m => m
  end.

(** ** The world the worker runs in

    [shared/database.py] and [shared/message_bus.py] keep module-level
    clients that are [None] until initialised. The ClickHouse answer to the
    metrics query is a function of its three parameters; [None] is a failed
    query. [nats_publish_error] gives, by subject, the exception the NATS
    client raises when asked to publish, if any. [utcnow_at] lists the
    successive readings of the clock. [log] holds the lines of the worker's
    logger, [bus_log] those of the message bus. A time to live is stored
    with its value; expiry is not modelled. *)
Record world := mk_world {
  redis_client : bool;
  redis_db : gmap string rvalue;
  clickhouse_client : bool;
  clickhouse_execute : string -> string -> Z -> option (list (string * Metric.t));
  nats_client : bool;
  nats_publish_error : string -> option exc;
  nats_published : list (string * message);
  utcnow_at : nat -> Z;
  ticks : nat;
  log : list (string * string);
  bus_log : list bus_line
}.

Inductive outcome (A : Type) :=
| Return (a : A)
| Raise (e : exc).
Arguments Return {A} a.
Arguments Raise {A} e.

Definition M (A : Type) : Type := world -> outcome A * world.

#[export] Instance M_ret : MRet M := fun A a w => (Return a, w).

#[export] Instance M_bind : MBind M := fun A B f m w =>
  match m w with
  | (Return a, w') => f a w'
  | (Raise e, w') => (Raise e, w')
  end.

Definition raise {A : Type} (e : exc) : M A := fun w => (Raise e, w).

(** [try: body  except Exception as e: handler e] *)
Definition try_except {A : Type} (body : M A) (handler : exc -> M A) : M A :=
  fun w =>
    match body w with
    | (Return a, w') => (Return a, w')
    | (Raise e, w') => handler e w'
    end.

Definition set_redis_db (db : gmap string rvalue) (w : world) : world :=
  mk_world (redis_client w) db (clickhouse_client w) (clickhouse_execute w)
           (nats_client w) (nats_publish_error w) (nats_published w)
           (utcnow_at w) (ticks w) (log w) (bus_log w).

Definition set_nats_published (out : list (string * message)) (w : world) : world :=
  mk_world (redis_client w) (redis_db w) (clickhouse_client w) (clickhouse_execute w)
           (nats_client w) (nats_publish_error w) out
           (utcnow_at w) (ticks w) (log w) (bus_log w).

Definition set_ticks (n : nat) (w : world) : world :=
  mk_world (redis_client w) (redis_db w) (clickhouse_client w) (clickhouse_execute w)
           (nats_client w) (nats_publish_error w) (nats_published w)
           (utcnow_at w) n (log w) (bus_log w).

Definition set_log (l : list (string * string)) (w : world) : world :=
  mk_world (redis_client w) (redis_db w) (clickhouse_client w) (clickhouse_execute w)
           (nats_client w) (nats_publish_error w) (nats_published w)
           (utcnow_at w) (ticks w) l (bus_log w).

Definition set_bus_log (l : list bus_line) (w : world) : world :=
  mk_world (redis_client w) (redis_db w) (clickhouse_client w) (clickhouse_execute w)
           (nats_client w) (nats_publish_error w) (nats_published w)
           (utcnow_at w) (ticks w) (log w) l.

(** [datetime.utcnow()] *)
Definition utcnow : M Z :=
  fun w => (Return (utcnow_at w (ticks w)), set_ticks (S (ticks w)) w).

(** [logger.<level>(msg)] *)
Definition logger (level msg : string) : M unit :=
  fun w => (Return tt, set_log (log w ++ [(level, msg)]) w).

Definition days (n : Z) : Z := (n * 86400)%Z.

(** *** [shared/database.py] *)

Definition get_redis_client : M unit :=
  fun w => if redis_client w then (Return tt, w)
           else (Raise (RuntimeError "Redis client not initialized"), w).

Definition get_clickhouse_client : M unit :=
  fun w => if clickhouse_client w then (Return tt, w)
           else (Raise (RuntimeError "ClickHouse client not initialized"), w).

(** *** Redis commands used by the worker *)

Module redis.

Definition wrongtype : exc :=
  ResponseError "WRONGTYPE Operation against a key holding the wrong kind of value".

Definition setex (key : string) (ttl : Z) (doc : document) : M unit :=
  fun w => (Return tt, set_redis_db (<[key := RString ttl doc]> (redis_db w)) w).

Definition zadd (key : string) (member : string) (score : Q) : M unit :=
  fun w =>
    match redis_db w !! key with
    | None =>
        (Return tt, set_redis_db (<[key := RZSet {[member := score]}]> (redis_db w)) w)
    | Some (RZSet z) =>
        (Return tt, set_redis_db (<[key := RZSet (<[member := score]> z)]> (redis_db w)) w)
    | Some _ => (Raise wrongtype, w)
    end.

(** [lrange key 0 stop] *)
Definition lrange (key : string) (stop : nat) : M (list entry) :=
  fun w =>
    match redis_db w !! key with
    | None => (Return [], w)
    | Some (RList l) => (Return (take (S stop) l), w)
    | Some _ => (Raise wrongtype, w)
    end.

End redis.

(** *** [shared/message_bus.py] *)

Definition TOPICS : list (string * string) :=
  [ ("campaign_schedule", "campaign.schedule"); ("content_make", "content.make");
    ("deliver_send", "deliver.send"); ("event_ingest", "event.ingest");
    ("coach_send", "coach.send"); ("risk_update", "risk.update");
    ("export_make", "export.make") ]%string.

(** [publish_message] raises when the client is missing. Otherwise it asks
    the client to publish: the message joins the published ones and the
    debug line is logged, or, when the client raises, the error line is
    logged and the exception raised again. *)
Definition publish_message (topic : string) (data : message) : M unit :=
  fun w =>
    if nats_client w then
      match nats_publish_error w topic with
      | None =>
          (Return tt,
           set_bus_log (bus_log w ++ [published topic data])
                       (set_nats_published (nats_published w ++ [(topic, data)]) w))
      | Some e => (Raise e, set_bus_log (bus_log w ++ [publish_failed topic e]) w)
      end
    else (Raise (RuntimeError "NATS client not initialized"), w).

(** ** [RiskWorker]: reading the event store *)

Definition Qn (n : N) : Q := inject_Z (Z.of_N n).

(** [clickhouse.execute(query, {user_id, org_id, start_date})] *)
Definition clickhouse_query (user_id org_id : string) (start_date : Z)
  : M (list (string * Metric.t)) :=
  fun w =>
    match clickhouse_execute w user_id org_id start_date with
    | Some results => (Return results, w)
    | None => (Raise (QueryError "event store query failed"), w)
    end.

(** The loop [for row in results: metrics[event_type] = {...}]. *)
Definition build_metrics (results : list (string * Metric.t)) : gmap string Metric.t :=
  fold_left (fun metrics row => <[row.1 := row.2]> metrics) results ∅.

Definition _get_user_metrics (user_id org_id : string) : M (gmap string Metric.t) :=
  get_clickhouse_client ;;
  now ← utcnow ;
  let start_date := (now - days 90)%Z in
  try_except
    (results ← clickhouse_query user_id org_id start_date ;
     mret (build_metrics results))
    (fun e =>
       logger "error" ("Failed to get user metrics: " +:+ str e) ;;
       mret ∅).

(** ** [RiskWorker]: risk factors *)

(** [metrics.get(event_type, {}).get('count', 0)] *)
Definition count_of (metrics : gmap string Metric.t) (event_type : string) : N :=
  match metrics !! event_type with
  | Some m => Metric.count m
  | None => 0%N
  end.

Definition incident_types : list string :=
  [ "email_clicked"; "sms_clicked"; "landing_form_submitted" ]%string.

Definition _calculate_time_to_report (user_id org_id : string) : M Q :=
  mret 50.

Definition total_incidents_of (metrics : gmap string Metric.t) : N :=
  fold_left
    (fun total event_type =>
       match metrics !! event_type with
       | Some m => (total + Metric.count m)%N
       | None => total
       end)
    incident_types 0%N.

(** The step function at the end of [_calculate_repeat_offender_score]. *)
Definition repeat_offender_step (total_incidents : N) : Q :=
  if (5 <=? total_incidents)%N then 100
  else if (3 <=? total_incidents)%N then 75
  else if (1 <=? total_incidents)%N then 50
  else 0.

Definition _calculate_repeat_offender_score
    (user_id org_id : string) (metrics : gmap string Metric.t) : M Q :=
  let total_incidents := total_incidents_of metrics in
  mret (repeat_offender_step total_incidents).

(** The loop that sums the counts of the incident types whose last event is
    not older than the cutoff. *)
Definition recent_incidents_of (metrics : gmap string Metric.t) (recent_cutoff : Z) : N :=
  fold_left
    (fun recent event_type =>
       match metrics !! event_type with
       | Some m =>
           if (recent_cutoff <=? Metric.last_event m)%Z
           then (recent + Metric.count m)%N else recent
       | None => recent
       end)
    incident_types 0%N.

(** The items of the dict built by [_calculate_risk_factors]. *)
Definition factor_items (click_rate report_rate training_completion recent_incidents
                         time_to_report repeat_offender : Q) : list (string * Q) :=
  [ ("click_rate"%string, click_rate);
    ("report_rate"%string, report_rate);
    ("training_completion"%string, training_completion);
    ("recent_incidents"%string, recent_incidents);
    ("time_to_report"%string, time_to_report);
    ("repeat_offender"%string, repeat_offender) ].

Definition rate (part whole : N) : Q :=
  if (0 <? whole)%N then Qn part / Qn whole * 100 else 0.

Definition _calculate_risk_factors
    (user_id org_id : string) (metrics : gmap string Metric.t) : M (list (string * Q)) :=
  let total_sent := (count_of metrics "email_sent" + count_of metrics "sms_sent")%N in
  let total_clicked := (count_of metrics "email_clicked" + count_of metrics "sms_clicked")%N in
  let click_rate := rate total_clicked total_sent in
  let total_reported := (count_of metrics "email_reported" + count_of metrics "sms_reported")%N in
  let report_rate := rate total_reported total_sent in
  let training_started := count_of metrics "training_started" in
  let training_completed := count_of metrics "training_completed" in
  let training_completion := rate training_completed training_started in
  now ← utcnow ;
  let recent_cutoff := (now - days 30)%Z in
  let recent_incidents := recent_incidents_of metrics recent_cutoff in
  time_to_report ← _calculate_time_to_report user_id org_id ;
  repeat_offender ← _calculate_repeat_offender_score user_id org_id metrics ;
  mret (factor_items click_rate report_rate training_completion
                     (Qn recent_incidents) time_to_report repeat_offender).

(** ** [RiskWorker]: storing scores *)

Definition _store_user_risk_score (risk_score : RiskScore.t) : M unit :=
  get_redis_client ;;
  redis.setex ("user_risk:" +:+ RiskScore.user_id risk_score) 86400
              (user_risk_doc risk_score) ;;
  redis.zadd ("org_risk_scores:" +:+ RiskScore.org_id risk_score)
             (RiskScore.user_id risk_score) (RiskScore.overall_score risk_score).

Definition _store_cohort_risk (cohort_risk : CohortRisk.t) : M unit :=
  get_redis_client ;;
  redis.setex ("cohort_risk:" +:+ CohortRisk.cohort_id cohort_risk) 86400
              (cohort_risk_doc cohort_risk).

(** ** [RiskWorker]: recommendations *)

Definition _generate_user_recommendations (risk_score : RiskScore.t) : list string :=
  (if Py.gtb (RiskScore.click_rate risk_score) 20
   then ["Complete advanced phishing identification training"%string] else [])
  ++ (if Py.ltb (RiskScore.report_rate risk_score) 10
      then ["Learn how to properly report suspicious emails"%string] else [])
  ++ (if Py.ltb (RiskScore.training_completion_rate risk_score) 80
      then ["Complete pending security awareness training"%string] else [])
  ++ (if Py.gtb (RiskScore.recent_incidents risk_score) 2
      then ["Schedule one-on-one security coaching session"%string] else [])
  ++ (if String.eqb (RiskScore.risk_level risk_score) "high"
         || String.eqb (RiskScore.risk_level risk_score) "critical"
      then ["Mandatory security briefing with IT team"%string] else []).

Definition _generate_cohort_recommendations
    (avg_risk : Q) (high_risk_users total_users : nat) (trend : string) : list string :=
  let high_risk_percentage :=
    if (0 <? total_users)%nat
    then inject_Z (Z.of_nat high_risk_users) / inject_Z (Z.of_nat total_users) * 100
    else 0 in
  (if Py.gtb high_risk_percentage 25
   then ["Implement organization-wide security awareness campaign"%string] else [])
  ++ (if Py.gtb avg_risk 60
      then ["Increase phishing simulation frequency"%string] else [])
  ++ (if String.eqb trend "declining"
      then ["Review and update security training content"%string;
            "Conduct security culture assessment"%string] else [])
  ++ (if (10 <? high_risk_users)%nat
      then ["Create targeted training program for high-risk users"%string] else []).

Definition _generate_manager_recommendations (risk_score : RiskScore.t) : list string :=
  [ "User has " +:+ RiskScore.risk_level risk_score +:+ " security risk level";
    "Consider additional security training";
    "Monitor for suspicious email activity";
    "Provide coaching on security best practices";
    "Review user's access permissions if necessary" ]%string.

(** ** [RiskWorker]: adaptive actions *)

(** [for x in l: body x] *)
Fixpoint for_each {A : Type} (l : list A) (body : A -> M unit) : M unit :=
  match l with
  | [] => mret tt
  | x :: l' => body x ;; for_each l' body
  end.

Definition _execute_adaptive_action (risk_score : RiskScore.t) (action : string) : M unit :=
  now ← utcnow ;
  let action_data :=
    ActionData.mk "adaptive_action" action
                  (RiskScore.user_id risk_score) (RiskScore.org_id risk_score)
                  (RiskScore.overall_score risk_score) (RiskScore.risk_level risk_score)
                  now in
  (if String.eqb action "immediate_additional_training" then
     publish_message (Py.get TOPICS "coach_send" "")
       (assign_urgent_training (RiskScore.user_id risk_score)
          ["advanced_phishing_detection"; "incident_response"]%string "high")
   else if String.eqb action "manager_notification" then
     publish_message "notifications.manager"
       (high_risk_user_alert (RiskScore.user_id risk_score)
          (RiskScore.risk_level risk_score)
          (_generate_manager_recommendations risk_score))
   else if String.eqb action "enhanced_monitoring" then
     get_redis_client ;;
     redis.setex ("enhanced_monitoring:" +:+ RiskScore.user_id risk_score) 604800
                 (action_doc action_data)
   else mret tt) ;;
  logger "info" ("Executed adaptive action '" +:+ action +:+ "' for user "
                 +:+ RiskScore.user_id risk_score).

Definition critical_actions : list string :=
  [ "immediate_additional_training"; "manager_notification";
    "enhanced_monitoring"; "mandatory_security_briefing" ]%string.

Definition high_actions : list string :=
  [ "additional_training"; "increased_simulation_frequency"; "coaching_session" ]%string.

Definition actions_for (risk_level : string) : list string :=
  if String.eqb risk_level "critical" then critical_actions
  else if String.eqb risk_level "high" then high_actions
  else [].

Definition _trigger_adaptive_actions (risk_score : RiskScore.t) : M unit :=
  let actions := actions_for (RiskScore.risk_level risk_score) in
  for_each actions (fun action => _execute_adaptive_action risk_score action).

(** ** [RiskWorker]: user risk *)

Module Request.
(** The [data] dict of a request; a missing key reads as [None]. *)
Record t := mk {
  user_id : option string;
  org_id : option string;
  cohort_id : option string;
  user_ids : list string
}.
End Request.

Module UserRisk.
(** The dict returned by [calculate_user_risk]. *)
Record t := mk {
  success : bool;
  user_id : string;
  risk_score : Q;
  risk_level : string;
  factors : list (string * Q);
  recommendations : list string
}.
End UserRisk.

(** [not s] for a value that is [None] or a string. *)
Definition not_ (s : option string) : bool :=
  match s with
  | None => true
  | Some s => String.eqb s ""
  end.

(** The [RiskScore(...)] object built by [calculate_user_risk]. *)
Definition make_risk_score (user_id org_id : string) (risk_factors : list (string * Q))
    (overall_score : Q) (risk_level : string) (now : Z) : RiskScore.t :=
  RiskScore.mk user_id org_id overall_score
               (Py.get risk_factors "click_rate" 0)
               (Py.get risk_factors "report_rate" 0)
               (Py.get risk_factors "training_completion" 0)
               (Py.get risk_factors "recent_incidents" 0)
               risk_level now risk_factors.

(** The dict returned by [calculate_user_risk]. *)
Definition user_risk_result (risk_score : RiskScore.t) : UserRisk.t :=
  UserRisk.mk true (RiskScore.user_id risk_score) (RiskScore.overall_score risk_score)
              (RiskScore.risk_level risk_score) (RiskScore.factors risk_score)
              (_generate_user_recommendations risk_score).

Definition calculate_user_risk (data : Request.t) : M UserRisk.t :=
  if not_ (Request.user_id data) || not_ (Request.org_id data) then
    raise (ValueError "user_id and org_id are required")
  else
    let user_id := default ""%string (Request.user_id data) in
    let org_id := default ""%string (Request.org_id data) in
    user_metrics ← _get_user_metrics user_id org_id ;
    risk_factors ← _calculate_risk_factors user_id org_id user_metrics ;
    let overall_score := _calculate_weighted_risk_score risk_factors in
    let risk_level := _determine_risk_level overall_score in
    now ← utcnow ;
    let risk_score := make_risk_score user_id org_id risk_factors overall_score risk_level now in
    _store_user_risk_score risk_score ;;
    (if String.eqb risk_level "high" || String.eqb risk_level "critical"
     then _trigger_adaptive_actions risk_score else mret tt) ;;
    mret (user_risk_result risk_score).

(** ** [RiskWorker]: cohort risk and trend *)

(** [scores[-k]] for [1 <= k <= len(scores)]. *)
Definition item_from_end (scores : list float) (k : nat) : float :=
  nth (length scores - k) scores 0%float.

(** [[float(score) for score in history]]: the entries as doubles, in
    order; the first one that is not a number raises. *)
Fixpoint floats (history : list entry) : outcome (list float) :=
  match history with
  | [] => Return []
  | numeric value :: rest =>
      match floats rest with
      | Return scores => Return (value :: scores)
      | Raise e => Raise e
      end
  | not_numeric message :: _ => Raise (ValueError message)
  end.

Definition of_outcome {A : Type} (o : outcome A) : M A := fun w => (o, w).

(** The end of [_calculate_risk_trend]: the current average is appended to
    the converted scores and the last is compared with the third from the
    end, in double precision. *)
Definition trend_of (history : list float) (current_avg : float) : string :=
  let scores := history ++ [current_avg] in
  if (3 <=? length scores)%nat then
    let recent_trend := (item_from_end scores 1 - item_from_end scores 3)%float in
    if PrimFloat.ltb recent_trend (-5)%float then "improving"
    else if PrimFloat.ltb 5%float recent_trend then "declining"
    else "stable"
  else "stable".

Definition _calculate_risk_trend (cohort_id org_id : string) (current_avg : float)
  : M string :=
  get_redis_client ;;
  let historical_key := ("cohort_risk_history:" +:+ cohort_id)%string in
  history ← redis.lrange historical_key 4 ;
  if (length history <? 2)%nat then mret "stable"%string
  else
    scores ← of_outcome (floats history) ;
    mret (trend_of scores current_avg).

Inductive cohort_result :=
| CohortSuccess (cohort_id : string) (average_risk_score : Q)
                (high_risk_users total_users : nat) (risk_trend : string)
                (recommendations : list string)
| CohortFailure (error : string).

Definition success (r : cohort_result) : bool :=
  match r with
  | CohortSuccess _ _ _ _ _ _ => true
  | CohortFailure _ => false
  end.

(** The loop of [calculate_cohort_risk] over [user_ids]; a user whose
    calculation raises is logged and skipped. *)
Fixpoint cohort_loop (org_id : string) (user_ids : list string)
    (user_risk_scores : list Q) : M (list Q) :=
  match user_ids with
  | [] => mret user_risk_scores
  | user_id :: rest =>
      scores ← try_except
        (user_risk ← calculate_user_risk
                       (Request.mk (Some user_id) (Some org_id) None []) ;
         mret (user_risk_scores ++ [UserRisk.risk_score user_risk]))
        (fun e =>
           logger "warning" ("Failed to calculate risk for user " +:+ user_id
                             +:+ ": " +:+ str e) ;;
           mret user_risk_scores) ;
      cohort_loop org_id rest scores
  end.

Definition count_high_risk (user_risk_scores : list Q) : nat :=
  length (List.filter (fun score => Py.geb score (threshold "high")) user_risk_scores).

Definition calculate_cohort_risk (data : Request.t) : M cohort_result :=
  if not_ (Request.cohort_id data) || not_ (Request.org_id data) then
    raise (ValueError "cohort_id and org_id are required")
  else
    let cohort_id := default ""%string (Request.cohort_id data) in
    let org_id := default ""%string (Request.org_id data) in
    let user_ids := Request.user_ids data in
    user_risk_scores ← cohort_loop org_id user_ids [] ;
    match user_risk_scores with
    | [] => mret (CohortFailure "No valid user risk scores calculated")
    | _ :: _ =>
        let average_risk := Py.mean user_risk_scores in
        let high_risk_users := count_high_risk user_risk_scores in
        risk_trend ← _calculate_risk_trend cohort_id org_id
                                           (Binary64.of_Q average_risk) ;
        let recommendations :=
          _generate_cohort_recommendations average_risk high_risk_users
                                           (length user_ids) risk_trend in
        now ← utcnow ;
        let cohort_risk :=
          CohortRisk.mk cohort_id org_id average_risk high_risk_users
                        (length user_ids) risk_trend recommendations now in
        _store_cohort_risk cohort_risk ;;
        mret (CohortSuccess cohort_id average_risk high_risk_users
                            (length user_ids) risk_trend recommendations)
    end.


(** ** The runs in closed form

    What the methods compute, written as functions of the world they start
    in; the lemmas of the second part relate them to the methods. *)

(** The [metrics] dict [_get_user_metrics] returns once the client exists. *)
Definition metrics_seen (user_id org_id : string) (w : world) : gmap string Metric.t :=
  match clickhouse_execute w user_id org_id (utcnow_at w (ticks w) - days 90)%Z with
  | Some results => build_metrics results
  | None => ∅
  end.

(** The world [_get_user_metrics] leaves: one clock reading, and one error
    line when the query failed. *)
Definition after_metrics (user_id org_id : string) (w : world) : world :=
  match clickhouse_execute w user_id org_id (utcnow_at w (ticks w) - days 90)%Z with
  | Some _ => set_ticks (S (ticks w)) w
  | None =>
      set_log (log w ++ [("error"%string,
                          "Failed to get user metrics: event store query failed"%string)])
              (set_ticks (S (ticks w)) w)
  end.

(** The factors [_calculate_risk_factors] returns when the clock reads [now]. *)
Definition risk_factors_at (metrics : gmap string Metric.t) (now : Z) : list (string * Q) :=
  let total_sent := (count_of metrics "email_sent" + count_of metrics "sms_sent")%N in
  let total_clicked := (count_of metrics "email_clicked" + count_of metrics "sms_clicked")%N in
  let total_reported := (count_of metrics "email_reported" + count_of metrics "sms_reported")%N in
  factor_items (rate total_clicked total_sent) (rate total_reported total_sent)
               (rate (count_of metrics "training_completed")
                     (count_of metrics "training_started"))
               (Qn (recent_incidents_of metrics (now - days 30)))
               50 (repeat_offender_step (total_incidents_of metrics)).

(** The [RiskScore] object of a user evaluation from its factors. *)
Definition scored (user_id org_id : string) (risk_factors : list (string * Q)) (now : Z)
  : RiskScore.t :=
  make_risk_score user_id org_id risk_factors
                  (_calculate_weighted_risk_score risk_factors)
                  (_determine_risk_level (_calculate_weighted_risk_score risk_factors))
                  now.

(** The scores [cohort_loop] collects: those of the users whose calculation
    returned, in the order of [user_ids]. *)
Fixpoint succeeded_scores (org_id : string) (user_ids : list string) (w : world) : list Q :=
  match user_ids with
  | [] => []
  | user_id :: rest =>
      match calculate_user_risk (Request.mk (Some user_id) (Some org_id) None []) w with
      | (Return user_risk, w') =>
          UserRisk.risk_score user_risk :: succeeded_scores org_id rest w'
      | (Raise e, w') =>
          succeeded_scores org_id rest
            (logger "warning" ("Failed to calculate risk for user " +:+ user_id
                               +:+ ": " +:+ str e) w').2
      end
  end.

(** The world [cohort_loop] leaves. *)
Fixpoint after_loop (org_id : string) (user_ids : list string) (w : world) : world :=
  match user_ids with
  | [] => w
  | user_id :: rest =>
      match calculate_user_risk (Request.mk (Some user_id) (Some org_id) None []) w with
      | (Return _, w') => after_loop org_id rest w'
      | (Raise e, w') =>
          after_loop org_id rest
            (logger "warning" ("Failed to calculate risk for user " +:+ user_id
                               +:+ ": " +:+ str e) w').2
      end
  end.

(** Every per-user calculation of the loop raises. *)
Fixpoint every_user_fails (org_id : string) (user_ids : list string) (w : world) : Prop :=
  match user_ids with
  | [] => True
  | user_id :: rest =>
      exists e w',
        calculate_user_risk (Request.mk (Some user_id) (Some org_id) None []) w
        = (Raise e, w')
        /\ every_user_fails org_id rest
             (logger "warning" ("Failed to calculate risk for user " +:+ user_id
                                +:+ ": " +:+ str e) w').2
  end.

(** The store can take the score of a user of the organisation: the client
    exists and the organisation's key is free or holds a sorted set. *)
Definition accepts_scores (org_id : string) (w : world) : bool :=
  redis_client w
  && match redis_db w !! ("org_risk_scores:" +:+ org_id) with
     | None | Some (RZSet _) => true
     | Some _ => false
     end.

(** The factors computed from an empty [metrics] dict. *)
Definition failsoft_factors : list (string * Q) := factor_items 0 0 0 0 50 0.

(** Two factor maps with the same keys in the same order and equal values. *)
Definition same_factors (f1 f2 : list (string * Q)) : Prop :=
  Forall2 (fun a b => a.1 = b.1 /\ a.2 == b.2) f1 f2.

(** A [RiskScore] with its [last_updated] replaced. *)
Definition with_last_updated (t : Z) (rs : RiskScore.t) : RiskScore.t :=
  RiskScore.mk (RiskScore.user_id rs) (RiskScore.org_id rs) (RiskScore.overall_score rs)
               (RiskScore.click_rate rs) (RiskScore.report_rate rs)
               (RiskScore.training_completion_rate rs) (RiskScore.recent_incidents rs)
               (RiskScore.risk_level rs) t (RiskScore.factors rs).

(** The reading of the clock from which [_calculate_risk_factors] takes its
    thirty-day cutoff: the second reading of a user evaluation. *)
Definition cutoff_of (w : world) : Z := (utcnow_at w (S (ticks w)) - days 30)%Z.

(** What the store holds under the trend-history key of a cohort. *)
Definition history_of (cohort_id : string) (w : world) : option rvalue :=
  redis_db w !! ("cohort_risk_history:" +:+ cohort_id).

Definition keeps_history (w w' : world) : Prop :=
  forall cohort_id, history_of cohort_id w' = history_of cohort_id w.

(** A computation that leaves every trend history as it found it, whether
    it returns or raises. *)
Definition preserves_history {A : Type} (m : M A) : Prop :=
  forall w, keeps_history w (m w).2.

Definition not_history_key (key : string) : Prop :=
  forall cohort_id, key <> ("cohort_risk_history:" +:+ cohort_id)%string.

(** ** Sample worlds and requests *)

Definition sample_clock (n : nat) : Z := (1700000000 + Z.of_nat n)%Z.

(** Every client initialised, nothing stored, nothing published. *)
Definition fresh_world
    (answer : string -> string -> Z -> option (list (string * Metric.t))) : world :=
  mk_world true ∅ true answer true (fun _ => None) [] sample_clock 0 [] [].

Definition query_fails : string -> string -> Z -> option (list (string * Metric.t)) :=
  fun _ _ _ => None.

Definition user_request (user_id org_id : string) : Request.t :=
  Request.mk (Some user_id) (Some org_id) None [].

Definition cohort_request (cohort_id org_id : string) (user_ids : list string) : Request.t :=
  Request.mk None (Some org_id) (Some cohort_id) user_ids.

(** A store that already holds three averages for cohort [c1]. *)
Definition world_with_history : world :=
  set_redis_db {[ "cohort_risk_history:c1"%string :=
                    RList [numeric 60; numeric 58; numeric 55] ]}
               (fresh_world query_fails).

(** Ten mails sent and one click, 29 days before the sample clock starts. *)
Definition one_click : string -> string -> Z -> option (list (string * Metric.t)) :=
  fun _ _ _ =>
    Some [ ("email_sent"%string, Metric.mk 10 1697000000 1697494400);
           ("email_clicked"%string, Metric.mk 1 1697494400 1697494400) ].

(** The same store and the same events, two days later. *)
Definition two_days_later (w : world) : world :=
  mk_world (redis_client w) (redis_db w) (clickhouse_client w) (clickhouse_execute w)
           (nats_client w) (nats_publish_error w) (nats_published w)
           (fun n => (utcnow_at w n + days 2)%Z) (ticks w) (log w) (bus_log w).

(** The averages 60, 50, 55 stored for cohort [c1]. *)
Definition world_with_dip : world :=
  set_redis_db {[ "cohort_risk_history:c1"%string :=
                    RList [numeric 60; numeric 50; numeric 55] ]}
               (fresh_world query_fails).

(** Six averages stored for cohort [c2]. *)
Definition world_with_long_history : world :=
  set_redis_db {[ "cohort_risk_history:c2"%string :=
                    RList [numeric 60; numeric 58; numeric 55;
                           numeric 70; numeric 40; numeric 47] ]}
               (fresh_world query_fails).

(** The same events seen from a worker that has run for a while: scores of
    other users are stored, lines were logged and the clock was read before. *)
Definition busy_world : world :=
  mk_world true
           {[ "org_risk_scores:acme"%string := RZSet {[ "bob"%string := 40 ]} ]}
           true one_click true (fun _ => None) [] sample_clock 7
           [("info"%string, "Risk worker started"%string)] [].

(** * Further definitions

    The rest of [RiskWorker]: the recommendation engine, the adaptive
    campaign trigger and the request handler, with the closed forms and
    orderings used to state their properties. *)

(** ** Closed forms of the scorer *)

(** The value the scorer uses for a name: the dict's value clamped to
    [0,100]; a missing name reads 0. *)
Definition clamped (factors : list (string * Q)) (name : string) : Q :=
  Py.min (Py.max (Py.get factors name 0) 0) 100.

(** The weighted sum over the six names of the weight table. *)
Definition weighted_sum (factors : list (string * Q)) : Q :=
  (35 # 100) * clamped factors "click_rate"
  + - (25 # 100) * clamped factors "report_rate"
  + - (20 # 100) * clamped factors "training_completion"
  + (15 # 100) * clamped factors "recent_incidents"
  + (10 # 100) * clamped factors "time_to_report"
  + (5 # 100) * clamped factors "repeat_offender".

(** The four levels in increasing order of risk. *)
Definition level_rank (risk_level : string) : nat :=
  if String.eqb risk_level "critical" then 3
  else if String.eqb risk_level "high" then 2
  else if String.eqb risk_level "medium" then 1
  else 0.

(** ** Closed forms of a user evaluation *)

(** The [RiskScore] object a user evaluation builds in world [w]: the
    factors come from the metrics seen, the cutoff from the second reading
    of the clock and [last_updated] from the third. *)
Definition risk_score_in (user_id org_id : string) (w : world) : RiskScore.t :=
  scored user_id org_id
         (risk_factors_at (metrics_seen user_id org_id w) (utcnow_at w (S (ticks w))))
         (utcnow_at w (S (S (ticks w)))).

(** The members and scores of an organisation's ranking; empty when the key
    is free or holds something else. *)
Definition org_scores (org_id : string) (w : world) : gmap string Q :=
  match redis_db w !! ("org_risk_scores:" +:+ org_id) with
  | Some (RZSet z) => z
  | _ => ∅
  end.

(** The first four recommendations of [_generate_user_recommendations], in
    the order the rules are evaluated. *)
Definition plain_user_recommendations : list string :=
  [ "Complete advanced phishing identification training";
    "Learn how to properly report suspicious emails";
    "Complete pending security awareness training";
    "Schedule one-on-one security coaching session" ]%string.

(** ** Closed forms of a cohort computation *)

(** The recommendations of [_generate_cohort_recommendations] that do not
    depend on the number of high-risk users, in rule order. *)
Definition plain_cohort_recommendations : list string :=
  [ "Increase phishing simulation frequency";
    "Review and update security training content";
    "Conduct security culture assessment" ]%string.

(** The entries the trend step reads: at most the first five of the list
    under the history key, none when the key is free. *)
Definition history_read (cohort_id : string) (w : world) : list entry :=
  match history_of cohort_id w with
  | Some (RList l) => take 5 l
  | _ => []
  end.

(** The trend step can read the history of a cohort: the key is free or
    holds a list. *)
Definition history_readable (cohort_id : string) (w : world) : bool :=
  match history_of cohort_id w with
  | None | Some (RList _) => true
  | Some _ => false
  end.

(** What the trend step makes of the entries read: [stable] with fewer
    than two of them, otherwise the error of the first that is not a number
    or the trend of the converted scores. *)
Definition trend_read (history : list entry) (current_avg : float) : outcome string :=
  if (length history <? 2)%nat then Return "stable"%string
  else
    match floats history with
    | Return scores => Return (trend_of scores current_avg)
    | Raise e => Raise e
    end.

(** The trend step can use what it reads: fewer than two entries, or
    numbers only. *)
Definition history_usable (cohort_id : string) (w : world) : bool :=
  let history := history_read cohort_id w in
  (length history <? 2)%nat
  || match floats history with
     | Return _ => true
     | Raise _ => false
     end.

(** ** Sample metrics *)


(** Six clicks on four mails. *)
Definition more_clicks_than_sends : gmap string Metric.t :=
  build_metrics [ ("email_sent"%string, Metric.mk 4 1690000000 1699999000);
                  ("email_clicked"%string, Metric.mk 6 1690000000 1699999000) ].

(** An answer with two rows for the same event type. *)
Definition repeated_rows : string -> string -> Z -> option (list (string * Metric.t)) :=
  fun _ _ _ =>
    Some [ ("email_clicked"%string, Metric.mk 1 1697000000 1697000000);
           ("email_clicked"%string, Metric.mk 2 1698000000 1699000000) ].

(** A store whose ranking key for [acme] holds a list: a score cannot be
    added to it. *)
Definition world_with_bad_ranking : world :=
  set_redis_db {[ "org_risk_scores:acme"%string := RList [numeric 1] ]}
               (fresh_world one_click).

(** A store whose history key for [c1] holds a sorted set: the trend step
    cannot read it as a list. *)
Definition world_with_bad_history : world :=
  set_redis_db {[ "cohort_risk_history:c1"%string := RZSet {[ "x"%string := 1 ]} ]}
               (fresh_world one_click).

(** ** [RiskWorker]: recommendations from a stored cohort snapshot *)

(** [f"{v}"] of a value read with [data.get]: [None] prints as [None]. *)
Definition fstr (v : option string) : string := default "None"%string v.

(** [redis.get key]: the text under the key, [None] when the key is free,
    the WRONGTYPE error when it holds a list or a sorted set. *)
Definition redis_get (key : string) : M (option document) :=
  fun w =>
    match redis_db w !! key with
    | None => (Return None, w)
    | Some (RString _ doc) => (Return (Some doc), w)
    | Some _ => (Raise redis.wrongtype, w)
    end.

(** The dict [json.loads] gives for a stored document, read with
    [.get(key, default)]: of the three dicts the worker stores only a
    cohort snapshot has the four keys the recommenders read. *)
Module Loaded.

Definition average_risk_score (cohort_risk : document) : Q :=
  match cohort_risk with
  | cohort_risk_doc c => CohortRisk.average_risk_score c
  | _ => 0
  end.

Definition high_risk_users (cohort_risk : document) : nat :=
  match cohort_risk with
  | cohort_risk_doc c => CohortRisk.high_risk_users c
  | _ => 0%nat
  end.

Definition total_users (cohort_risk : document) : nat :=
  match cohort_risk with
  | cohort_risk_doc c => CohortRisk.total_users c
  | _ => 0%nat
  end.

Definition recommended_actions (cohort_risk : document) : list string :=
  match cohort_risk with
  | cohort_risk_doc c => CohortRisk.recommended_actions c
  | _ => []
  end.

End Loaded.

Definition _recommend_campaign_frequency (cohort_risk : document) : string :=
  let avg_risk := Loaded.average_risk_score cohort_risk in
  if Py.geb avg_risk 70 then "weekly"
  else if Py.geb avg_risk 50 then "bi-weekly"
  else if Py.geb avg_risk 30 then "monthly"
  else "quarterly".

Definition _recommend_difficulty_level (cohort_risk : document) : string :=
  let avg_risk := Loaded.average_risk_score cohort_risk in
  if Py.geb avg_risk 60 then "beginner"
  else if Py.geb avg_risk 40 then "intermediate"
  else "advanced".

(** The products [total_users * 0.3] and [total_users * 0.1] are exact. *)
Definition _recommend_target_users (cohort_risk : document) : list string :=
  let high_risk_users := inject_Z (Z.of_nat (Loaded.high_risk_users cohort_risk)) in
  let total_users := inject_Z (Z.of_nat (Loaded.total_users cohort_risk)) in
  if Py.gtb high_risk_users (total_users * (3 # 10)) then ["high_risk_users_only"%string]
  else if Py.gtb high_risk_users (total_users * (1 # 10))
       then ["high_risk_users"; "random_sample"]%string
  else ["all_users"%string].

(** [str.lower] on ASCII text. *)
Definition lower_ascii (c : Ascii.ascii) : Ascii.ascii :=
  let n := Ascii.nat_of_ascii c in
  if ((65 <=? n) && (n <=? 90))%nat then Ascii.ascii_of_nat (n + 32) else c.

Fixpoint lower (s : string) : string :=
  match s with
  | EmptyString => EmptyString
  | String c rest => String (lower_ascii c) (lower rest)
  end.

(** [needle in s] *)
Fixpoint contains (needle s : string) : bool :=
  String.prefix needle s
  || match s with
     | EmptyString => false
     | String _ rest => contains needle rest
     end.

(** One round of the loop of [_recommend_training_focus]. *)
Definition focus_step (focus_areas : list string) (rec : string) : list string :=
  if contains "training" (lower rec) then
    if contains "phishing" (lower rec) then focus_areas ++ ["phishing_identification"%string]
    else if contains "reporting" (lower rec)
         then focus_areas ++ ["incident_reporting"%string]
    else focus_areas ++ ["general_security_awareness"%string]
  else focus_areas.

Definition _recommend_training_focus (cohort_risk : document) : list string :=
  let recommendations := Loaded.recommended_actions cohort_risk in
  let focus_areas := fold_left focus_step recommendations [] in
  match focus_areas with
  | [] => ["general_security_awareness"%string]
  | _ :: _ => focus_areas
  end.

Module Recommendations.
Record t := mk {
  campaign_frequency : string;
  difficulty_level : string;
  target_users : list string;
  training_focus : list string
}.
End Recommendations.

Inductive recommendations_result :=
| RecommendationsSuccess (recommendations : Recommendations.t)
                         (cohort_risk_summary : document)
| RecommendationsFailure (error : string).

Definition get_risk_recommendations (data : Request.t) : M recommendations_result :=
  let cohort_id := Request.cohort_id data in
  get_redis_client ;;
  cohort_data ← redis_get ("cohort_risk:" +:+ fstr cohort_id) ;
  match cohort_data with
  | None | Some empty_text =>
      mret (RecommendationsFailure "Cohort risk data not found")
  | Some (not_json message) => raise (ValueError message)
  | Some cohort_risk =>
      let recommendations :=
        Recommendations.mk (_recommend_campaign_frequency cohort_risk)
                           (_recommend_difficulty_level cohort_risk)
                           (_recommend_target_users cohort_risk)
                           (_recommend_training_focus cohort_risk) in
      mret (RecommendationsSuccess recommendations cohort_risk)
  end.

(** The rank of a campaign frequency, from rarest to most frequent, and of
    a difficulty, from hardest to easiest. *)
Definition frequency_rank (frequency : string) : nat :=
  if String.eqb frequency "weekly" then 3
  else if String.eqb frequency "bi-weekly" then 2
  else if String.eqb frequency "monthly" then 1
  else 0.

Definition difficulty_rank (difficulty : string) : nat :=
  if String.eqb difficulty "beginner" then 2
  else if String.eqb difficulty "intermediate" then 1
  else 0.

Definition focus_names : list string :=
  [ "phishing_identification"; "incident_reporting"; "general_security_awareness" ]%string.

(** ** [RiskWorker]: adaptive campaigns and the request handler

    The handler and the campaign trigger read two more keys of [data],
    publish a body of their own and answer on the message that carried the
    request. The worker's counters, the campaign bodies published and the
    replies sent are kept in a [service] state around the world of the
    calculations. *)

Module RiskRequest.
(** The [data] dict as the handler sees it: [body] holds the keys the
    calculations read. *)
Record t := mk {
  type : option string;
  trigger_reason : option string;
  body : Request.t
}.
End RiskRequest.

Inductive campaign_result :=
| CampaignTriggered (message : string) (target_users : nat) (campaign_type : string)
| CampaignNotTriggered (message : string).

(** What the worker answers to a request. *)
Inductive response :=
| UserRiskResponse (result : UserRisk.t)
| CohortRiskResponse (result : cohort_result)
| RecommendationsResponse (result : recommendations_result)
| CampaignResponse (result : campaign_result)
| ErrorResponse (error : string).

(** The message a request arrived in: its reply subject, empty when no
    answer is expected, and what [msg.respond] does when called. *)
Module Msg.
Record t := mk {
  reply : string;
  respond_raises : option exc
}.
End Msg.

Record service := mk_service {
  base : world;
  campaigns_published : list (string * CampaignData.t);
  replies : list (string * response);
  processed_count : nat;
  error_count : nat
}.

Definition SM (A : Type) : Type := service -> outcome A * service.

#[export] Instance SM_ret : MRet SM := fun A a s => (Return a, s).

#[export] Instance SM_bind : MBind SM := fun A B f m s =>
  match m s with
  | (Return a, s') => f a s'
  | (Raise e, s') => (Raise e, s')
  end.

Definition set_base (w : world) (s : service) : service :=
  mk_service w (campaigns_published s) (replies s) (processed_count s) (error_count s).

(** A calculation of the worker run inside the service. *)
Definition lift {A : Type} (m : M A) : SM A :=
  fun s => let (o, w') := m (base s) in (o, set_base w' s).

Definition try_except_service {A : Type} (body : SM A) (handler : exc -> SM A) : SM A :=
  fun s =>
    match body s with
    | (Return a, s') => (Return a, s')
    | (Raise e, s') => handler e s'
    end.

(** [publish_message] for a campaign body. *)
Definition publish_campaign (topic : string) (data : CampaignData.t) : SM unit :=
  fun s =>
    if nats_client (base s) then
      match nats_publish_error (base s) topic with
      | None =>
          (Return tt,
           mk_service (set_bus_log (bus_log (base s) ++ [published_campaign topic data])
                                   (base s))
                      (campaigns_published s ++ [(topic, data)])
                      (replies s) (processed_count s) (error_count s))
      | Some e =>
          (Raise e,
           set_base (set_bus_log (bus_log (base s) ++ [publish_failed topic e]) (base s))
                    s)
      end
    else (Raise (RuntimeError "NATS client not initialized"), s).

(** [msg.respond(result)] *)
Definition respond (msg : Msg.t) (result : response) : SM unit :=
  fun s =>
    match Msg.respond_raises msg with
    | Some e => (Raise e, s)
    | None =>
        (Return tt,
         mk_service (base s) (campaigns_published s)
                    (replies s ++ [(Msg.reply msg, result)])
                    (processed_count s) (error_count s))
    end.

Definition count_processed : SM unit :=
  fun s => (Return tt,
            mk_service (base s) (campaigns_published s) (replies s)
                       (S (processed_count s)) (error_count s)).

Definition count_error : SM unit :=
  fun s => (Return tt,
            mk_service (base s) (campaigns_published s) (replies s)
                       (processed_count s) (S (error_count s))).

(** *** [zrevrangebyscore]

    The members of a sorted set whose score lies between [min] and [max],
    from the highest score to the lowest; members with the same score come
    in reverse lexicographical order. *)
Definition in_score_range (min max : Q) (entry : string * Q) : bool :=
  Py.geb entry.2 min && Qle_bool entry.2 max.

Definition ranks_before (a b : string * Q) : bool :=
  Py.gtb a.2 b.2 || (Qeq_bool a.2 b.2 && String.ltb b.1 a.1).

Fixpoint rank_insert (a : string * Q) (l : list (string * Q)) : list (string * Q) :=
  match l with
  | [] => [a]
  | b :: rest => if ranks_before a b then a :: l else b :: rank_insert a rest
  end.

Definition ranked (z : gmap string Q) : list (string * Q) :=
  foldr rank_insert [] (map_to_list z).

Definition members_in_range (z : gmap string Q) (max min : Q) : list string :=
  map fst (List.filter (in_score_range min max) (ranked z)).

Definition zrevrangebyscore (key : string) (max min : Q) : M (list string) :=
  fun w =>
    match redis_db w !! key with
    | None => (Return [], w)
    | Some (RZSet z) => (Return (members_in_range z max min), w)
    | Some _ => (Raise redis.wrongtype, w)
    end.

(** [f"{n}"] of a length. *)
Definition fnat (n : nat) : string := NilZero.string_of_uint (Nat.to_uint n).

Definition trigger_adaptive_campaign (data : RiskRequest.t) : SM campaign_result :=
  let org_id := Request.org_id (RiskRequest.body data) in
  let trigger_reason :=
    default "high_risk_detected"%string (RiskRequest.trigger_reason data) in
  lift get_redis_client ;;
  high_risk_users ← lift (zrevrangebyscore ("org_risk_scores:" +:+ fstr org_id) 100 75) ;
  match high_risk_users with
  | [] => mret (CampaignNotTriggered "No high-risk users found")
  | _ :: _ =>
      let campaign_data :=
        CampaignData.mk "create_adaptive_campaign" org_id high_risk_users
                        "email" "beginner" "high" trigger_reason true in
      publish_campaign (Py.get TOPICS "campaign_schedule" "") campaign_data ;;
      mret (CampaignTriggered
              ("Adaptive campaign triggered for " +:+ fnat (length high_risk_users)
               +:+ " high-risk users")
              (length high_risk_users) "email")
  end.

(** The body of the [try] of [handle_risk_request]. *)
Definition dispatch (data : RiskRequest.t) : SM response :=
  let request_type := RiskRequest.type data in
  if bool_decide (request_type = Some "calculate_user_risk"%string) then
    result ← lift (calculate_user_risk (RiskRequest.body data)) ;
    mret (UserRiskResponse result)
  else if bool_decide (request_type = Some "calculate_cohort_risk"%string) then
    result ← lift (calculate_cohort_risk (RiskRequest.body data)) ;
    mret (CohortRiskResponse result)
  else if bool_decide (request_type = Some "get_risk_recommendations"%string) then
    result ← lift (get_risk_recommendations (RiskRequest.body data)) ;
    mret (RecommendationsResponse result)
  else if bool_decide (request_type = Some "trigger_adaptive_campaign"%string) then
    result ← trigger_adaptive_campaign data ;
    mret (CampaignResponse result)
  else
    lift (raise (ValueError ("Unknown risk request type: " +:+ fstr request_type))).

Definition truthy (s : string) : bool := negb (String.eqb s "").

Definition handle_risk_request (data : RiskRequest.t) (msg : Msg.t) : SM unit :=
  try_except_service
    (result ← dispatch data ;
     (if truthy (Msg.reply msg) then respond msg result else mret tt) ;;
     count_processed)
    (fun e =>
       lift (logger "error" ("Error handling risk request: " +:+ str e)) ;;
       count_error ;;
       (if truthy (Msg.reply msg) then respond msg (ErrorResponse (str e)) else mret tt)).

(** The members a campaign trigger finds for an organisation. *)
Definition high_risk_members (org_id : option string) (w : world) : list string :=
  members_in_range (org_scores (fstr org_id) w) 100 75.

(** Every score stored in a sorted set is at most [bound]. *)
Definition scores_capped (bound : Q) (w : world) : Prop :=
  forall key z member score,
    redis_db w !! key = Some (RZSet z) -> z !! member = Some score -> score <= bound.

(** A service that has handled nothing yet. *)
Definition fresh_service (w : world) : service := mk_service w [] [] 0 0.

(** A ranking with one member on each side of the range and two inside. *)
Definition mixed_ranking : gmap string Q :=
  {[ "alice"%string := 80; "bob"%string := 40; "carol"%string := 120;
     "dave"%string := 75 ]}.

Definition world_with_ranking : world :=
  set_redis_db {[ "org_risk_scores:acme"%string := RZSet mixed_ranking ]}
               (fresh_world one_click).

(** A history for [c1] whose second entry is not a number. *)
Definition world_with_text_history : world :=
  set_redis_db
    {[ "cohort_risk_history:c1"%string :=
         RList [numeric 60;
                not_numeric "could not convert string to float: 'n/a'";
                numeric 55] ]}
    (fresh_world one_click).
(** * Properties *)

(** ** Comparisons and clamping *)

Lemma Qle_bool_false (a b : Q) : Qle_bool a b = false -> b < a.
Proof.
  intros H. apply Qnot_le_lt. intros Hle.
  apply Qle_bool_iff in Hle. congruence.
Qed.

Ltac case_cmp :=
  repeat match goal with
  | |- context [Qle_bool ?a ?b] =>
      let E := fresh "E" in
      destruct (Qle_bool a b) eqn:E;
      [apply Qle_bool_iff in E | apply Qle_bool_false in E]
  end.

Lemma ltb_spec (a b : Q) : Py.ltb a b = true <-> a < b.
Proof.
  unfold Py.ltb. split.
  - intros H. apply Qle_bool_false. now apply negb_true_iff.
  - intros H. apply negb_true_iff. destruct (Qle_bool b a) eqn:E; [|reflexivity].
    apply Qle_bool_iff in E. lra.
Qed.

Lemma clamp_range (x : Q) : 0 <= Py.min (Py.max x 0) 100 <= 100.
Proof.
  unfold Py.min, Py.max, Py.gtb, Py.ltb. case_cmp; simpl in *; lra.
Qed.

#[export] Instance clamp_proper :
  Proper (Qeq ==> Qeq) (fun x => Py.min (Py.max x 0) 100).
Proof.
  intros x y Hxy. unfold Py.min, Py.max, Py.gtb, Py.ltb. case_cmp; simpl in *; lra.
Qed.

(** ** The scorer *)

Lemma level_cases (score : Q) :
  (90 <= score /\ _determine_risk_level score = "critical"%string)
  \/ (75 <= score < 90 /\ _determine_risk_level score = "high"%string)
  \/ (50 <= score < 75 /\ _determine_risk_level score = "medium"%string)
  \/ (score < 50 /\ _determine_risk_level score = "low"%string).
Proof.
  unfold _determine_risk_level, Py.geb, threshold. simpl.
  case_cmp; simpl in *; intuition lra.
Qed.

Lemma level_below_high (score : Q) :
  score < 75 ->
  (String.eqb (_determine_risk_level score) "high"
   || String.eqb (_determine_risk_level score) "critical") = false.
Proof.
  intros H.
  destruct (level_cases score) as [[? E] | [[? E] | [[? E] | [? E]]]];
    rewrite E; try reflexivity; lra.
Qed.

(** With the six factors of the worker the positive weights add up to 0.65:
    whatever the factor values are, the score stays at or below 65. *)
Lemma six_factor_score_le_65 (a b c d e f : Q) :
  _calculate_weighted_risk_score (factor_items a b c d e f) <= 65.
Proof.
  unfold _calculate_weighted_risk_score, factor_items. simpl.
  pose proof (clamp_range a) as Ha. pose proof (clamp_range b) as Hb.
  pose proof (clamp_range c) as Hc. pose proof (clamp_range d) as Hd.
  pose proof (clamp_range e) as He. pose proof (clamp_range f) as Hf.
  set (a' := Py.min (Py.max a 0) 100) in *.
  set (b' := Py.min (Py.max b 0) 100) in *.
  set (c' := Py.min (Py.max c 0) 100) in *.
  set (d' := Py.min (Py.max d 0) 100) in *.
  set (e' := Py.min (Py.max e 0) 100) in *.
  set (f' := Py.min (Py.max f 0) 100) in *.
  unfold Py.min, Py.max, Py.gtb, Py.ltb. case_cmp; simpl in *; lra.
Qed.

(** C1, as stated, does not hold: the score of the example is 35, and 35 is
    below the [medium] threshold of 50, so the level is not [medium]. *)
Lemma C1_example_level_not_medium :
  ~ (_calculate_weighted_risk_score example_factors == 35
     /\ _determine_risk_level (_calculate_weighted_risk_score example_factors)
        = "medium"%string).
Proof. intros [_ H]. vm_compute in H. discriminate H. Qed.

(** C1, amended: for the factor map with [click_rate] 100 and the five other
    factors 0 the weighted risk score equals 35, and the risk level
    determined from that score is [low]. *)
Theorem C1_example_score_35_level_low :
  _calculate_weighted_risk_score example_factors == 35
  /\ _determine_risk_level (_calculate_weighted_risk_score example_factors)
     = "low"%string.
Proof. split; [vm_compute | vm_compute]; reflexivity. Qed.

(** C7: for every factor map the weighted risk score lies in [0,100]. *)
Theorem C7_score_in_range (factors : list (string * Q)) :
  0 <= _calculate_weighted_risk_score factors
  /\ _calculate_weighted_risk_score factors <= 100.
Proof.
  unfold _calculate_weighted_risk_score. apply clamp_range.
Qed.

(** The worked examples on doubles: 100 * 0.35 rounds to 35.0 and
    50.0 * 0.10 to 5.0, and both scores are [low]. *)
Example binary64_example_score :
  Binary64._calculate_weighted_risk_score
    (Binary64.factor_items 100 0 0 0 0 0) = 35%float
  /\ Binary64._determine_risk_level 35%float = "low"%string.
Proof. split; vm_compute; reflexivity. Qed.

Example binary64_failsoft_score :
  Binary64._calculate_weighted_risk_score
    (Binary64.factor_items 0 0 0 0 50 0) = 5%float
  /\ Binary64._determine_risk_level 5%float = "low"%string.
Proof. split; vm_compute; reflexivity. Qed.

(** A factor that is not a number stays out of every range: on doubles a
    NaN factor gives a NaN score. *)
Example binary64_nan_factor :
  PrimFloat.is_nan
    (Binary64._calculate_weighted_risk_score
       (Binary64.factor_items PrimFloat.nan 0 0 0 0 0)) = true.
Proof. vm_compute. reflexivity. Qed.

(** ** Runs of the monadic methods *)

Lemma get_user_metrics_run (user_id org_id : string) (w : world) :
  clickhouse_client w = true ->
  _get_user_metrics user_id org_id w
  = (Return (metrics_seen user_id org_id w), after_metrics user_id org_id w).
Proof.
  intros H.
  unfold _get_user_metrics, metrics_seen, after_metrics, mbind, M_bind,
    get_clickhouse_client, try_except, clickhouse_query, utcnow.
  rewrite H. simpl.
  destruct (clickhouse_execute w user_id org_id _); reflexivity.
Qed.

Lemma get_user_metrics_no_client (user_id org_id : string) (w : world) :
  clickhouse_client w = false ->
  _get_user_metrics user_id org_id w
  = (Raise (RuntimeError "ClickHouse client not initialized"), w).
Proof.
  intros H. unfold _get_user_metrics, mbind, M_bind, get_clickhouse_client.
  now rewrite H.
Qed.

Lemma calculate_risk_factors_run (user_id org_id : string)
    (metrics : gmap string Metric.t) (w : world) :
  _calculate_risk_factors user_id org_id metrics w
  = (Return (risk_factors_at metrics (utcnow_at w (ticks w))),
     set_ticks (S (ticks w)) w).
Proof. reflexivity. Qed.

Lemma risk_factors_score_le_65 (metrics : gmap string Metric.t) (now : Z) :
  _calculate_weighted_risk_score (risk_factors_at metrics now) <= 65.
Proof. apply six_factor_score_le_65. Qed.

Lemma risk_factors_no_escalation (metrics : gmap string Metric.t) (now : Z) :
  (String.eqb (_determine_risk_level
                 (_calculate_weighted_risk_score (risk_factors_at metrics now))) "high"
   || String.eqb (_determine_risk_level
                    (_calculate_weighted_risk_score (risk_factors_at metrics now)))
                 "critical") = false.
Proof.
  apply level_below_high.
  pose proof (risk_factors_score_le_65 metrics now). lra.
Qed.

Lemma after_metrics_ticks (user_id org_id : string) (w : world) :
  ticks (after_metrics user_id org_id w) = S (ticks w).
Proof. unfold after_metrics. now destruct (clickhouse_execute _ _ _ _). Qed.

Lemma after_metrics_clock (user_id org_id : string) (w : world) :
  utcnow_at (after_metrics user_id org_id w) = utcnow_at w.
Proof. unfold after_metrics. now destruct (clickhouse_execute _ _ _ _). Qed.

Lemma after_metrics_redis (user_id org_id : string) (w : world) :
  redis_db (after_metrics user_id org_id w) = redis_db w
  /\ redis_client (after_metrics user_id org_id w) = redis_client w.
Proof. unfold after_metrics. now destruct (clickhouse_execute _ _ _ _). Qed.

Lemma after_metrics_nats (user_id org_id : string) (w : world) :
  nats_published (after_metrics user_id org_id w) = nats_published w.
Proof. unfold after_metrics. now destruct (clickhouse_execute _ _ _ _). Qed.

(** The world in which [calculate_user_risk] stores the score: the metrics
    were read and the clock was read three times. The level is never [high]
    or [critical], so the dispatcher is not entered. *)
Lemma calculate_user_risk_run (data : Request.t) (user_id org_id : string) (w : world) :
  Request.user_id data = Some user_id -> Request.org_id data = Some org_id ->
  user_id <> ""%string -> org_id <> ""%string -> clickhouse_client w = true ->
  calculate_user_risk data w
  = let risk_score :=
      scored user_id org_id
             (risk_factors_at (metrics_seen user_id org_id w) (utcnow_at w (S (ticks w))))
             (utcnow_at w (S (S (ticks w)))) in
    match _store_user_risk_score risk_score
            (set_ticks (S (S (S (ticks w)))) (after_metrics user_id org_id w)) with
    | (Return _, w') => (Return (user_risk_result risk_score), w')
    | (Raise e, w') => (Raise e, w')
    end.
Proof.
  intros Eu Eo Hu Ho Hc.
  apply String.eqb_neq in Hu. apply String.eqb_neq in Ho.
  unfold calculate_user_risk. rewrite Eu, Eo.
  cbn [not_ default from_option id].
  rewrite Hu, Ho. cbn [orb].
  unfold mbind at 1, M_bind at 1. rewrite (get_user_metrics_run _ _ _ Hc).
  unfold mbind at 1, M_bind at 1. rewrite calculate_risk_factors_run.
  rewrite after_metrics_ticks, after_metrics_clock.
  unfold mbind at 1, M_bind at 1, utcnow at 1.
  cbn [ticks utcnow_at set_ticks redis_client].
  rewrite after_metrics_clock.
  rewrite risk_factors_no_escalation.
  unfold scored, mbind, M_bind, mret, M_ret.
  destruct (_store_user_risk_score _ _) as [[[]|e] w']; reflexivity.
Qed.

(** ** Inversion of the monad *)

Lemma bind_Return_inv {A B : Type} (m : M A) (f : A -> M B) (w w' : world) (b : B) :
  (m ≫= f) w = (Return b, w') ->
  exists a w1, m w = (Return a, w1) /\ f a w1 = (Return b, w').
Proof.
  unfold mbind, M_bind. destruct (m w) as [[a|e] w1]; intros H.
  - eauto.
  - discriminate H.
Qed.

Lemma run_pair {A : Type} (p : outcome A * world) (a : A) :
  p.1 = Return a -> p = (Return a, p.2).
Proof. destruct p as [o w]. cbn [fst snd]. now intros ->. Qed.

(** When [calculate_user_risk] returns, the request named both identifiers
    and the ClickHouse client existed. *)
Lemma calculate_user_risk_returns_inv (data : Request.t) (w w' : world) (r : UserRisk.t) :
  calculate_user_risk data w = (Return r, w') ->
  exists user_id org_id,
    Request.user_id data = Some user_id /\ Request.org_id data = Some org_id
    /\ user_id <> ""%string /\ org_id <> ""%string /\ clickhouse_client w = true.
Proof.
  unfold calculate_user_risk.
  destruct (Request.user_id data) as [u|]; [|discriminate].
  destruct (Request.org_id data) as [o|];
    [|cbn [not_]; rewrite orb_true_r; discriminate].
  cbn [not_ default from_option id].
  destruct (String.eqb_spec u "") as [|Hu]; [discriminate|].
  destruct (String.eqb_spec o "") as [|Ho]; [discriminate|].
  cbn [orb]. intros H.
  destruct (clickhouse_client w) eqn:Hc.
  - exists u, o. auto.
  - unfold mbind at 1, M_bind at 1 in H.
    rewrite (get_user_metrics_no_client _ _ _ Hc) in H. discriminate H.
Qed.

(** ** Keys of the store *)

Lemma user_risk_not_history (user_id : string) :
  not_history_key ("user_risk:" +:+ user_id).
Proof. intros c H. discriminate H. Qed.

Lemma org_scores_not_history (org_id : string) :
  not_history_key ("org_risk_scores:" +:+ org_id).
Proof. intros c H. discriminate H. Qed.

Lemma monitoring_not_history (user_id : string) :
  not_history_key ("enhanced_monitoring:" +:+ user_id).
Proof. intros c H. discriminate H. Qed.

Lemma cohort_risk_not_history (cohort_id : string) :
  not_history_key ("cohort_risk:" +:+ cohort_id).
Proof. intros c H. discriminate H. Qed.

Lemma org_scores_not_user_risk (org_id user_id : string) :
  ("user_risk:" +:+ user_id)%string <> ("org_risk_scores:" +:+ org_id)%string.
Proof. intros H. discriminate H. Qed.

(** ** Nothing writes a trend history

    The frame property is proved method by method, from the commands up. *)

Create HintDb frame.

Lemma keeps_history_refl (w : world) : keeps_history w w.
Proof. intros c. reflexivity. Qed.

Lemma keeps_history_trans (w1 w2 w3 : world) :
  keeps_history w1 w2 -> keeps_history w2 w3 -> keeps_history w1 w3.
Proof. intros H12 H23 c. rewrite H23. apply H12. Qed.

Lemma preserves_ret {A : Type} (a : A) : preserves_history (mret a : M A).
Proof. intros w. apply keeps_history_refl. Qed.

Lemma preserves_raise {A : Type} (e : exc) : preserves_history (raise e : M A).
Proof. intros w. apply keeps_history_refl. Qed.

Lemma preserves_bind {A B : Type} (m : M A) (f : A -> M B) :
  preserves_history m -> (forall a, preserves_history (f a)) ->
  preserves_history (m ≫= f).
Proof.
  intros Hm Hf w. specialize (Hm w). unfold mbind, M_bind.
  destruct (m w) as [[a|e] w1]; cbn [snd] in *.
  - eapply keeps_history_trans; [exact Hm | apply Hf].
  - exact Hm.
Qed.

Lemma preserves_try {A : Type} (body : M A) (handler : exc -> M A) :
  preserves_history body -> (forall e, preserves_history (handler e)) ->
  preserves_history (try_except body handler).
Proof.
  intros Hb Hh w. specialize (Hb w). unfold try_except.
  destruct (body w) as [[a|e] w1]; cbn [snd] in *.
  - exact Hb.
  - eapply keeps_history_trans; [exact Hb | apply Hh].
Qed.

Lemma preserves_if {A : Type} (b : bool) (m1 m2 : M A) :
  preserves_history m1 -> preserves_history m2 ->
  preserves_history (if b then m1 else m2).
Proof. now destruct b. Qed.

Lemma preserves_utcnow : preserves_history utcnow.
Proof. intros w c. reflexivity. Qed.

Lemma preserves_logger (level msg : string) : preserves_history (logger level msg).
Proof. intros w c. reflexivity. Qed.

Lemma preserves_get_redis_client : preserves_history get_redis_client.
Proof. intros w c. unfold get_redis_client. now destruct (redis_client w). Qed.

Lemma preserves_get_clickhouse_client : preserves_history get_clickhouse_client.
Proof. intros w c. unfold get_clickhouse_client. now destruct (clickhouse_client w). Qed.

Lemma preserves_clickhouse_query (user_id org_id : string) (start_date : Z) :
  preserves_history (clickhouse_query user_id org_id start_date).
Proof.
  intros w c. unfold clickhouse_query. now destruct (clickhouse_execute w _ _ _).
Qed.

Lemma preserves_publish (topic : string) (data : message) :
  preserves_history (publish_message topic data).
Proof.
  intros w c. unfold publish_message.
  destruct (nats_client w); [|reflexivity].
  now destruct (nats_publish_error w topic).
Qed.

Lemma preserves_of_outcome {A : Type} (o : outcome A) : preserves_history (of_outcome o).
Proof. intros w. apply keeps_history_refl. Qed.

Lemma preserves_setex (key : string) (ttl : Z) (doc : document) :
  not_history_key key -> preserves_history (redis.setex key ttl doc).
Proof.
  intros Hk w c. unfold redis.setex, history_of. cbn [snd redis_db set_redis_db].
  apply lookup_insert_ne, Hk.
Qed.

Lemma preserves_zadd (key member : string) (score : Q) :
  not_history_key key -> preserves_history (redis.zadd key member score).
Proof.
  intros Hk w c. unfold redis.zadd, history_of.
  destruct (redis_db w !! key) as [[| |z]|]; cbn [snd redis_db set_redis_db];
    try reflexivity; apply lookup_insert_ne, Hk.
Qed.

Lemma preserves_lrange (key : string) (stop : nat) :
  preserves_history (redis.lrange key stop).
Proof.
  intros w c. unfold redis.lrange.
  now destruct (redis_db w !! key) as [[| |]|].
Qed.

#[export] Hint Resolve preserves_ret preserves_raise preserves_utcnow preserves_logger
  preserves_get_redis_client preserves_get_clickhouse_client preserves_clickhouse_query
  preserves_publish preserves_lrange preserves_setex preserves_zadd
  user_risk_not_history org_scores_not_history monitoring_not_history
  cohort_risk_not_history : frame.

Ltac frame :=
  repeat first
    [ apply preserves_bind; [| intros ?]
    | apply preserves_try; [| intros ?]
    | apply preserves_if
    | solve [auto with frame] ].

Lemma preserves_get_user_metrics (user_id org_id : string) :
  preserves_history (_get_user_metrics user_id org_id).
Proof. unfold _get_user_metrics. frame. Qed.

Lemma preserves_calculate_risk_factors (user_id org_id : string)
    (metrics : gmap string Metric.t) :
  preserves_history (_calculate_risk_factors user_id org_id metrics).
Proof.
  unfold _calculate_risk_factors, _calculate_time_to_report,
    _calculate_repeat_offender_score. frame.
Qed.

Lemma preserves_store_user_risk_score (risk_score : RiskScore.t) :
  preserves_history (_store_user_risk_score risk_score).
Proof. unfold _store_user_risk_score. frame. Qed.

Lemma preserves_store_cohort_risk (cohort_risk : CohortRisk.t) :
  preserves_history (_store_cohort_risk cohort_risk).
Proof. unfold _store_cohort_risk. frame. Qed.

Lemma preserves_execute_adaptive_action (risk_score : RiskScore.t) (action : string) :
  preserves_history (_execute_adaptive_action risk_score action).
Proof. unfold _execute_adaptive_action. frame. Qed.

Lemma preserves_for_each {A : Type} (l : list A) (body : A -> M unit) :
  (forall x, preserves_history (body x)) -> preserves_history (for_each l body).
Proof.
  intros Hb. induction l as [|x l IH]; cbn [for_each].
  - apply preserves_ret.
  - apply preserves_bind; [apply Hb | intros _; exact IH].
Qed.

Lemma preserves_trigger_adaptive_actions (risk_score : RiskScore.t) :
  preserves_history (_trigger_adaptive_actions risk_score).
Proof.
  unfold _trigger_adaptive_actions. apply preserves_for_each.
  intros action. apply preserves_execute_adaptive_action.
Qed.

#[export] Hint Resolve preserves_get_user_metrics preserves_calculate_risk_factors
  preserves_store_user_risk_score preserves_store_cohort_risk
  preserves_trigger_adaptive_actions : frame.

Lemma preserves_calculate_user_risk (data : Request.t) :
  preserves_history (calculate_user_risk data).
Proof. unfold calculate_user_risk. frame. Qed.

#[export] Hint Resolve preserves_calculate_user_risk : frame.

Lemma preserves_cohort_loop (org_id : string) (user_ids : list string) (acc : list Q) :
  preserves_history (cohort_loop org_id user_ids acc).
Proof.
  revert acc. induction user_ids as [|user_id rest IH]; intros acc; cbn [cohort_loop].
  - apply preserves_ret.
  - apply preserves_bind; [frame | intros scores; apply IH].
Qed.

Lemma preserves_calculate_risk_trend (cohort_id org_id : string) (current_avg : float) :
  preserves_history (_calculate_risk_trend cohort_id org_id current_avg).
Proof.
  unfold _calculate_risk_trend.
  apply preserves_bind; [apply preserves_get_redis_client|]. intros _.
  apply preserves_bind; [apply preserves_lrange|]. intros history.
  apply preserves_if; [apply preserves_ret|].
  apply preserves_bind; [apply preserves_of_outcome|]. intros scores.
  apply preserves_ret.
Qed.

#[export] Hint Resolve preserves_cohort_loop preserves_calculate_risk_trend : frame.

Lemma preserves_calculate_cohort_risk (data : Request.t) :
  preserves_history (calculate_cohort_risk data).
Proof.
  unfold calculate_cohort_risk. apply preserves_if; [frame|].
  apply preserves_bind; [frame | intros [|score scores]; frame].
Qed.

(** ** Trend *)

Lemma calculate_risk_trend_run (cohort_id org_id : string) (current_avg : float)
    (w : world) :
  redis_client w = true ->
  _calculate_risk_trend cohort_id org_id current_avg w
  = match history_of cohort_id w with
    | None => (trend_read [] current_avg, w)
    | Some (RList l) => (trend_read (take 5 l) current_avg, w)
    | Some _ => (Raise redis.wrongtype, w)
    end.
Proof.
  intros H.
  unfold _calculate_risk_trend, mbind, M_bind, get_redis_client, redis.lrange,
    history_of, of_outcome, trend_read, mret, M_ret.
  rewrite H. destruct (redis_db w !! _) as [[|l|]|]; try reflexivity.
  destruct (length (take 5 l) <? 2)%nat; [reflexivity|].
  now destruct (floats (take 5 l)).
Qed.

Lemma item_from_end_last (l : list float) (x : float) : item_from_end (l ++ [x]) 1 = x.
Proof.
  unfold item_from_end. rewrite length_app. cbn [length].
  replace (length l + 1 - 1)%nat with (length l + 0)%nat by lia.
  rewrite app_nth2_plus. reflexivity.
Qed.

Lemma item_from_end_snoc (l : list float) (x : float) (k : nat) :
  (1 <= k <= length l)%nat ->
  item_from_end (l ++ [x]) (S k) = item_from_end l k.
Proof.
  intros Hk. unfold item_from_end. rewrite length_app. cbn [length].
  replace (length l + 1 - S k)%nat with (length l - k)%nat by lia.
  apply app_nth1. lia.
Qed.

Lemma floats_length (history : list entry) (scores : list float) :
  floats history = Return scores -> length scores = length history.
Proof.
  revert scores. induction history as [|[value|message] rest IH]; intros scores;
    cbn [floats].
  - now intros [= <-].
  - destruct (floats rest) as [rest'|e]; [|discriminate].
    intros [= <-]. cbn [length]. f_equal. now apply IH.
  - discriminate.
Qed.

(** C4, as stated, does not hold: with the averages 60, 58, 55 stored for
    cohort [c1], a successful computation for that cohort (one user, average
    5) leaves exactly 60, 58, 55 in the store; the new average is not there. *)
Lemma C4_history_not_appended :
  match (calculate_cohort_risk (cohort_request "c1" "acme" ["alice"%string])
                               world_with_history).1 with
  | Return (CohortSuccess _ average_risk_score _ _ _ _) =>
      average_risk_score == 5
      /\ Forall (fun stored =>
                   entry_eqb stored (numeric (Binary64.of_Q average_risk_score)) = false)
                [numeric 60; numeric 58; numeric 55]
  | _ => False
  end
  /\ history_of "c1" (calculate_cohort_risk (cohort_request "c1" "acme" ["alice"%string])
                                            world_with_history).2
     = Some (RList [numeric 60; numeric 58; numeric 55]).
Proof.
  split.
  - vm_compute. split; [reflexivity|]. repeat constructor.
  - rewrite (preserves_calculate_cohort_risk _ world_with_history "c1"). reflexivity.
Qed.

(** C4, amended: a cohort risk computation never modifies a stored trend
    history, whether it returns or raises: it appends nothing and evicts
    nothing. The trend step only reads the stored list, at most its five
    entries at positions 0 to 4, and appends the new average to its own
    local copy for the comparison. *)
Theorem C4_history_read_only (data : Request.t) (w : world) :
  (forall cohort_id,
      history_of cohort_id (calculate_cohort_risk data w).2 = history_of cohort_id w)
  /\ (forall cohort_id org_id current_avg l w0,
         redis_client w0 = true ->
         history_of cohort_id w0 = Some (RList l) ->
         _calculate_risk_trend cohort_id org_id current_avg w0
         = (trend_read (take 5 l) current_avg, w0)).
Proof.
  split.
  - apply preserves_calculate_cohort_risk.
  - intros c o avg l w0 Hr Hl.
    rewrite (calculate_risk_trend_run _ _ _ _ Hr), Hl. reflexivity.
Qed.

(** C5, as stated, does not hold: for the stored history 60, 50, 55 and the
    current average 48 the value at [history[-3]] is 60, a decrease of 12,
    yet the code answers [stable]: it compares 48 with 50. *)
Lemma C5_not_third_from_last :
  item_from_end [60; 50; 55]%float 3 = 60%float
  /\ PrimFloat.ltb (48 - item_from_end [60; 50; 55]%float 3)%float (-5)%float = true
  /\ _calculate_risk_trend "c1" "acme" 48%float world_with_dip
     = (Return "stable"%string, world_with_dip).
Proof. repeat split; vm_compute; reflexivity. Qed.

(** C5, amended: with at least two values read from the stored history
    (three points with the current average) the trend compares the current
    average with the second-to-last value read, which is [scores[-3]] once
    the current average is appended. The values read are the first five
    entries of the stored list, converted to doubles, so that with five or
    more entries stored the comparison is with the fourth. When the
    difference, current average minus that value in double precision, is
    below -5 the trend is [improving], when it is above 5 [declining],
    anything else [stable]. For the stored history 60, 58, 55 and the
    current average 48 the result is [improving] (48 against 58). *)
Theorem C5_trend_against_second_to_last
    (cohort_id org_id : string) (current_avg : float) (w : world)
    (stored : list entry) (history : list float) :
  redis_client w = true ->
  history_of cohort_id w = Some (RList stored) ->
  floats (take 5 stored) = Return history ->
  (2 <= length history)%nat ->
  _calculate_risk_trend cohort_id org_id current_avg w
  = (Return (let recent_trend := (current_avg - item_from_end history 2)%float in
             if PrimFloat.ltb recent_trend (-5)%float then "improving"%string
             else if PrimFloat.ltb 5%float recent_trend then "declining"%string
             else "stable"%string), w)
  /\ (_calculate_risk_trend "c1" "acme" 48%float world_with_history).1
     = Return "improving"%string.
Proof.
  intros Hr Hs Hf Hlen. split; [|vm_compute; reflexivity].
  rewrite (calculate_risk_trend_run _ _ _ _ Hr), Hs. unfold trend_read.
  rewrite <- (floats_length _ _ Hf).
  destruct (Nat.ltb_spec (length history) 2) as [Hlt|_]; [lia|].
  rewrite Hf. unfold trend_of. cbv zeta.
  rewrite length_app. cbn [length].
  destruct (Nat.leb_spec 3 (length history + 1)) as [_|Hlt]; [|lia].
  rewrite item_from_end_last, item_from_end_snoc by lia.
  reflexivity.
Qed.

(** Six averages are stored for [c2]: the five first are read and 48 is
    compared with the fourth, 70. *)
Lemma C5_trend_witness :
  _calculate_risk_trend "c2" "acme" 48%float world_with_long_history
  = (Return "improving"%string, world_with_long_history).
Proof.
  assert (Hr : redis_client world_with_long_history = true) by reflexivity.
  assert (Hs : history_of "c2" world_with_long_history
               = Some (RList [numeric 60; numeric 58; numeric 55;
                              numeric 70; numeric 40; numeric 47]))
    by (vm_compute; reflexivity).
  assert (Hf : floats (take 5 [numeric 60; numeric 58; numeric 55;
                               numeric 70; numeric 40; numeric 47])
               = Return [60; 58; 55; 70; 40]%float) by reflexivity.
  assert (Hl : (2 <= length [60; 58; 55; 70; 40]%float)%nat) by (cbn [length]; lia).
  rewrite (proj1 (C5_trend_against_second_to_last
                    "c2" "acme" 48%float world_with_long_history _ _ Hr Hs Hf Hl)).
  f_equal.
Defined.

(** The rule is a rule on doubles: 5.3 against a stored 10.3 is [improving],
    the difference being -5.000000000000001 in double precision. *)
Example trend_on_doubles :
  trend_read [numeric 10.3; numeric 0] 5.3%float = Return "improving"%string.
Proof. vm_compute. reflexivity. Qed.

(** ** Storing a user score *)

Lemma store_user_risk_score_returns (risk_score : RiskScore.t) (w : world) :
  accepts_scores (RiskScore.org_id risk_score) w = true ->
  exists w', _store_user_risk_score risk_score w = (Return tt, w').
Proof.
  unfold accepts_scores. intros H. apply andb_true_iff in H as [Hc Hk].
  unfold _store_user_risk_score, mbind, M_bind, get_redis_client, redis.setex, redis.zadd.
  rewrite Hc. cbn [redis_db set_redis_db].
  rewrite lookup_insert_ne by apply org_scores_not_user_risk.
  destruct (redis_db w !! _) as [[| |z]|]; try discriminate Hk; eauto.
Qed.

Lemma store_user_risk_score_stored (risk_score : RiskScore.t) (w w' : world) :
  _store_user_risk_score risk_score w = (Return tt, w') ->
  redis_db w' !! ("user_risk:" +:+ RiskScore.user_id risk_score)
  = Some (RString 86400 (user_risk_doc risk_score)).
Proof.
  unfold _store_user_risk_score, mbind, M_bind, get_redis_client, redis.setex, redis.zadd.
  destruct (redis_client w); [|discriminate].
  cbn [redis_db set_redis_db].
  rewrite lookup_insert_ne by apply org_scores_not_user_risk.
  destruct (redis_db w !! _) as [[| |z]|]; intros H; try discriminate H;
    injection H as <-; cbn [redis_db set_redis_db];
    (rewrite lookup_insert_ne by (apply not_eq_sym, org_scores_not_user_risk));
    apply lookup_insert_eq.
Qed.

Lemma store_user_risk_score_nats (risk_score : RiskScore.t) (w : world) :
  nats_published (_store_user_risk_score risk_score w).2 = nats_published w.
Proof.
  unfold _store_user_risk_score, mbind, M_bind, get_redis_client, redis.setex, redis.zadd.
  destruct (redis_client w); [|reflexivity].
  cbn [redis_db set_redis_db].
  now destruct (_ !! _) as [[| |z]|].
Qed.

(** ** A user evaluation never escalates

    The positive weights add up to 0.65, so the score of a user evaluation is
    at most 65: its level is [low] or [medium], the dispatcher is never
    entered and nothing is published. *)
Lemma calculate_user_risk_never_escalates (data : Request.t) (w w' : world)
    (r : UserRisk.t) :
  calculate_user_risk data w = (Return r, w') ->
  UserRisk.risk_score r <= 65
  /\ (UserRisk.risk_level r = "low"%string \/ UserRisk.risk_level r = "medium"%string)
  /\ nats_published w' = nats_published w.
Proof.
  intros H.
  destruct (calculate_user_risk_returns_inv _ _ _ _ H)
    as (u & o & Eu & Eo & Hu & Ho & Hc).
  rewrite (calculate_user_risk_run _ _ _ _ Eu Eo Hu Ho Hc) in H. cbv zeta in H.
  pose proof (store_user_risk_score_nats
                (scored u o (risk_factors_at (metrics_seen u o w) (utcnow_at w (S (ticks w))))
                        (utcnow_at w (S (S (ticks w)))))
                (set_ticks (S (S (S (ticks w)))) (after_metrics u o w))) as Hn.
  destruct (_store_user_risk_score _ _) as [[[]|e] w1]; [|discriminate H].
  injection H as <- <-.
  cbn [user_risk_result scored make_risk_score UserRisk.risk_score UserRisk.risk_level
       RiskScore.overall_score RiskScore.risk_level].
  pose proof (risk_factors_score_le_65 (metrics_seen u o w) (utcnow_at w (S (ticks w))))
    as Hle.
  split; [exact Hle|]. split.
  - destruct (level_cases (_calculate_weighted_risk_score
                (risk_factors_at (metrics_seen u o w) (utcnow_at w (S (ticks w))))))
      as [[? E] | [[? E] | [[? E] | [? E]]]]; try lra; auto.
  - cbn [snd] in Hn. rewrite Hn. cbn [nats_published set_ticks].
    apply after_metrics_nats.
Qed.

(** ** A failed query *)

Lemma risk_factors_at_empty (now : Z) : risk_factors_at ∅ now = failsoft_factors.
Proof. reflexivity. Qed.

(** C2, as stated, does not hold: with the event store failing, the
    evaluation of a user returns, but its [time_to_report] factor is 50 and
    its score is 5, not 0. *)
Lemma C2_failed_query_score_not_zero :
  match (calculate_user_risk (user_request "alice" "acme") (fresh_world query_fails)).1 with
  | Return r =>
      Py.get (UserRisk.factors r) "time_to_report" 0 == 50
      /\ UserRisk.risk_score r == 5
      /\ ~ UserRisk.risk_score r == 0
  | Raise _ => False
  end.
Proof. vm_compute. repeat split; try reflexivity. intros H. discriminate H. Qed.

(** C2, amended: whenever the event store query fails, the metrics reader
    returns the empty dict without propagating the error (it logs it), the
    factors computed from it are all zero except [time_to_report], which is
    the neutral 50, so the overall score is 5 and the level [low]; when the
    store accepts the score the evaluation returns it. *)
Theorem C2_failed_query_scores_5 (user_id org_id : string) (w : world) :
  user_id <> ""%string -> org_id <> ""%string ->
  clickhouse_client w = true ->
  clickhouse_execute w user_id org_id (utcnow_at w (ticks w) - days 90)%Z = None ->
  _get_user_metrics user_id org_id w
  = (Return ∅,
     set_log (log w ++ [("error"%string,
                         "Failed to get user metrics: event store query failed"%string)])
             (set_ticks (S (ticks w)) w))
  /\ (forall w1, (_calculate_risk_factors user_id org_id ∅ w1).1 = Return failsoft_factors)
  /\ _calculate_weighted_risk_score failsoft_factors == 5
  /\ _determine_risk_level (_calculate_weighted_risk_score failsoft_factors) = "low"%string
  /\ (accepts_scores org_id w = true ->
      exists w',
        calculate_user_risk (user_request user_id org_id) w
        = (Return (user_risk_result
                     (scored user_id org_id failsoft_factors
                             (utcnow_at w (S (S (ticks w)))))), w')).
Proof.
  intros Hu Ho Hc Hq. split; [|split; [|split; [|split]]].
  - rewrite (get_user_metrics_run _ _ _ Hc).
    unfold metrics_seen, after_metrics. now rewrite Hq.
  - intros w1. reflexivity.
  - vm_compute. reflexivity.
  - vm_compute. reflexivity.
  - intros Ha.
    rewrite (calculate_user_risk_run (user_request user_id org_id) user_id org_id w
               eq_refl eq_refl Hu Ho Hc).
    cbv zeta. unfold metrics_seen. rewrite Hq, risk_factors_at_empty.
    destruct (store_user_risk_score_returns
                (scored user_id org_id failsoft_factors (utcnow_at w (S (S (ticks w)))))
                (set_ticks (S (S (S (ticks w)))) (after_metrics user_id org_id w)))
      as [w' Hw'].
    + unfold accepts_scores in *. cbn [redis_client redis_db set_ticks].
      destruct (after_metrics_redis user_id org_id w) as [-> ->]. exact Ha.
    + rewrite Hw'. eauto.
Qed.

(** The evaluation of [alice] in a fresh world whose event store fails. *)
Lemma C2_failed_query_witness :
  exists w',
    calculate_user_risk (user_request "alice" "acme") (fresh_world query_fails)
    = (Return (user_risk_result
                 (scored "alice" "acme" failsoft_factors 1700000002)), w').
Proof.
  apply (C2_failed_query_scores_5 "alice" "acme" (fresh_world query_fails));
    try reflexivity; intros H; discriminate H.
Defined.

(** ** The cohort loop *)

Lemma cohort_loop_run (org_id : string) (user_ids : list string) (acc : list Q)
    (w : world) :
  cohort_loop org_id user_ids acc w
  = (Return (acc ++ succeeded_scores org_id user_ids w), after_loop org_id user_ids w).
Proof.
  revert acc w. induction user_ids as [|user_id rest IH]; intros acc w.
  - cbn [cohort_loop succeeded_scores after_loop]. now rewrite app_nil_r.
  - cbn [cohort_loop succeeded_scores after_loop].
    unfold mbind at 1, M_bind at 1, try_except.
    unfold mbind at 1, M_bind at 1.
    destruct (calculate_user_risk _ w) as [[r|e] w1].
    + cbn [mret M_ret]. rewrite IH, <- app_assoc. reflexivity.
    + unfold mbind at 1, M_bind at 1. cbn [logger mret M_ret snd]. apply IH.
Qed.

Lemma every_user_fails_no_scores (org_id : string) (user_ids : list string) (w : world) :
  every_user_fails org_id user_ids w -> succeeded_scores org_id user_ids w = [].
Proof.
  revert w. induction user_ids as [|user_id rest IH]; intros w H.
  - reflexivity.
  - cbn [every_user_fails] in H. destruct H as (e & w1 & Hrun & Hrest).
    cbn [succeeded_scores]. rewrite Hrun. apply IH, Hrest.
Qed.

Lemma succeeded_scores_length (org_id : string) (user_ids : list string) (w : world) :
  (length (succeeded_scores org_id user_ids w) <= length user_ids)%nat.
Proof.
  revert w. induction user_ids as [|user_id rest IH]; intros w.
  - reflexivity.
  - cbn [succeeded_scores length].
    destruct (calculate_user_risk _ w) as [[r|e] w1].
    + cbn [length]. specialize (IH w1). lia.
    + match goal with |- (length (succeeded_scores _ _ ?w2) <= _)%nat =>
        specialize (IH w2) end. lia.
Qed.

(** C8: a cohort calculation in which no user yields a score, because
    [user_ids] is empty or because every per-user calculation raises, never
    reports an average: with both identifiers given it returns the failure
    result [No valid user risk scores calculated] (success is false), and
    without them it raises the validation error. *)
Theorem C8_no_scores_explicit_failure (data : Request.t) (w : world) :
  Request.user_ids data = []
  \/ every_user_fails (default ""%string (Request.org_id data)) (Request.user_ids data) w ->
  (not_ (Request.cohort_id data) || not_ (Request.org_id data) = false ->
   calculate_cohort_risk data w
   = (Return (CohortFailure "No valid user risk scores calculated"),
      after_loop (default ""%string (Request.org_id data)) (Request.user_ids data) w))
  /\ (not_ (Request.cohort_id data) || not_ (Request.org_id data) = true ->
      calculate_cohort_risk data w
      = (Raise (ValueError "cohort_id and org_id are required"), w))
  /\ (forall r w', calculate_cohort_risk data w = (Return r, w') -> success r = false).
Proof.
  intros Hfail.
  assert (Hnone : succeeded_scores (default ""%string (Request.org_id data))
                                   (Request.user_ids data) w = []).
  { destruct Hfail as [-> | H]; [reflexivity | now apply every_user_fails_no_scores]. }
  assert (Hgiven : not_ (Request.cohort_id data) || not_ (Request.org_id data) = false ->
                   calculate_cohort_risk data w
                   = (Return (CohortFailure "No valid user risk scores calculated"),
                      after_loop (default ""%string (Request.org_id data))
                                 (Request.user_ids data) w)).
  { intros Hids. unfold calculate_cohort_risk. rewrite Hids.
    unfold mbind at 1, M_bind at 1. rewrite cohort_loop_run, Hnone. reflexivity. }
  split; [exact Hgiven|]. split.
  - intros Hids. unfold calculate_cohort_risk. now rewrite Hids.
  - intros r w' Hrun.
    destruct (not_ (Request.cohort_id data) || not_ (Request.org_id data)) eqn:Hids.
    + unfold calculate_cohort_risk in Hrun. rewrite Hids in Hrun. discriminate Hrun.
    + rewrite (Hgiven eq_refl) in Hrun. now injection Hrun as <- _.
Qed.

(** The empty cohort, and the cohort of two empty identifiers, whose
    calculations both raise the validation error. *)
Lemma C8_explicit_failure_witness :
  (calculate_cohort_risk (cohort_request "c1" "acme" []) (fresh_world query_fails)).1
  = Return (CohortFailure "No valid user risk scores calculated")
  /\ (calculate_cohort_risk (cohort_request "c1" "acme" [""; ""]%string)
                            (fresh_world query_fails)).1
     = Return (CohortFailure "No valid user risk scores calculated").
Proof.
  split.
  - rewrite (proj1 (C8_no_scores_explicit_failure
                      (cohort_request "c1" "acme" []) (fresh_world query_fails)
                      (or_introl eq_refl)) eq_refl).
    reflexivity.
  - rewrite (proj1 (C8_no_scores_explicit_failure
                      (cohort_request "c1" "acme" [""; ""]%string)
                      (fresh_world query_fails)
                      (or_intror
                         (ex_intro _ (ValueError "user_id and org_id are required")
                            (ex_intro _ _ (conj eq_refl
                               (ex_intro _ (ValueError "user_id and org_id are required")
                                  (ex_intro _ _ (conj eq_refl I)))))))) eq_refl).
    reflexivity.
Defined.

(** C10: in every successful cohort result [total_users] is the length of
    the requested [user_ids], failed users included, while
    [average_risk_score] is the mean and [high_risk_users] the count over the
    scores of the users whose calculation returned; so the average need not
    be the sum of those scores divided by [total_users]: for the cohort of
    [alice] and an empty identifier the average is 5 and the sum over
    [total_users] is 5/2. *)
Theorem C10_total_counts_requested_users :
  (forall data w cohort_id average_risk_score high_risk_users total_users
          risk_trend recommendations w',
      calculate_cohort_risk data w
      = (Return (CohortSuccess cohort_id average_risk_score high_risk_users total_users
                               risk_trend recommendations), w') ->
      total_users = length (Request.user_ids data)
      /\ average_risk_score
         = Py.mean (succeeded_scores (default ""%string (Request.org_id data))
                                     (Request.user_ids data) w)
      /\ high_risk_users
         = count_high_risk (succeeded_scores (default ""%string (Request.org_id data))
                                             (Request.user_ids data) w)
      /\ (0 < length (succeeded_scores (default ""%string (Request.org_id data))
                                       (Request.user_ids data) w)
          <= length (Request.user_ids data))%nat)
  /\ match (calculate_cohort_risk (cohort_request "c1" "acme" ["alice"; ""]%string)
                                  (fresh_world query_fails)).1 with
     | Return (CohortSuccess _ average_risk_score _ total_users _ _) =>
         total_users = 2%nat
         /\ average_risk_score == 5
         /\ Py.sum (succeeded_scores "acme" ["alice"; ""]%string (fresh_world query_fails))
            / inject_Z (Z.of_nat total_users) == 5 / 2
         /\ ~ average_risk_score
              == Py.sum (succeeded_scores "acme" ["alice"; ""]%string
                                          (fresh_world query_fails))
                 / inject_Z (Z.of_nat total_users)
     | _ => False
     end.
Proof.
  split.
  - intros data w c avg high total trend recs w' Hrun.
    unfold calculate_cohort_risk in Hrun.
    destruct (not_ (Request.cohort_id data) || not_ (Request.org_id data));
      [discriminate Hrun|].
    unfold mbind at 1, M_bind at 1 in Hrun. rewrite cohort_loop_run in Hrun.
    cbn [app] in Hrun.
    pose proof (succeeded_scores_length (default ""%string (Request.org_id data))
                                        (Request.user_ids data) w) as Hlen.
    destruct (succeeded_scores _ _ w) as [|score scores] eqn:Hs;
      [discriminate Hrun|].
    apply bind_Return_inv in Hrun as (trend' & w1 & _ & Hrun).
    apply bind_Return_inv in Hrun as (now & w2 & _ & Hrun).
    apply bind_Return_inv in Hrun as ([] & w3 & _ & Hrun).
    injection Hrun as <- <- <- <- <- <- <-.
    cbn [length] in *. repeat split; lia.
  - vm_compute. repeat split; try reflexivity. intros H. discriminate H.
Qed.

(** ** Determinism *)

Lemma add_factor_compat (t1 t2 : Q) (a b : string * Q) :
  t1 == t2 -> a.1 = b.1 -> a.2 == b.2 -> add_factor t1 a == add_factor t2 b.
Proof.
  destruct a as [k v], b as [k' v']. cbn [fst snd]. intros Ht <- Hv.
  unfold add_factor.
  pose proof (clamp_proper v v' Hv) as Hc. cbv beta in Hc.
  rewrite Ht, Hc. reflexivity.
Qed.

Lemma fold_add_factor_compat (f1 f2 : list (string * Q)) :
  same_factors f1 f2 ->
  forall t1 t2, t1 == t2 -> fold_left add_factor f1 t1 == fold_left add_factor f2 t2.
Proof.
  induction 1 as [|a b f1 f2 [Hk Hv] _ IH]; intros t1 t2 Ht; cbn [fold_left].
  - exact Ht.
  - apply IH. now apply add_factor_compat.
Qed.

Lemma weighted_score_compat (f1 f2 : list (string * Q)) :
  same_factors f1 f2 ->
  _calculate_weighted_risk_score f1 == _calculate_weighted_risk_score f2.
Proof.
  intros H. unfold _calculate_weighted_risk_score.
  apply clamp_proper. apply fold_add_factor_compat; [exact H | reflexivity].
Qed.

Lemma risk_level_compat (s1 s2 : Q) :
  s1 == s2 -> _determine_risk_level s1 = _determine_risk_level s2.
Proof.
  intros H.
  destruct (level_cases s1) as [[? E1] | [[? E1] | [[? E1] | [? E1]]]];
    destruct (level_cases s2) as [[? E2] | [[? E2] | [[? E2] | [? E2]]]];
    rewrite E1, E2; try reflexivity; lra.
Qed.

Lemma risk_factors_at_recent (metrics : gmap string Metric.t) (now1 now2 : Z) :
  recent_incidents_of metrics (now1 - days 30) = recent_incidents_of metrics (now2 - days 30) ->
  risk_factors_at metrics now1 = risk_factors_at metrics now2.
Proof. intros H. unfold risk_factors_at. now rewrite H. Qed.

Lemma user_risk_result_time (rs : RiskScore.t) (t : Z) :
  user_risk_result (with_last_updated t rs) = user_risk_result rs.
Proof. destruct rs. reflexivity. Qed.

Lemma with_last_updated_twice (rs : RiskScore.t) (t1 t2 : Z) :
  with_last_updated t1 (with_last_updated t2 rs) = with_last_updated t1 rs.
Proof. destruct rs. reflexivity. Qed.

Lemma scored_time (user_id org_id : string) (f : list (string * Q)) (t1 t2 : Z) :
  scored user_id org_id f t1 = with_last_updated t1 (scored user_id org_id f t2).
Proof. reflexivity. Qed.

(** C9, as stated, does not hold: one click 29 days old is a recent incident
    today and is not two days later; the two evaluations see the same
    metrics and store different scores. *)
Lemma C9_same_metrics_different_scores :
  metrics_seen "alice" "acme" (fresh_world one_click)
  = metrics_seen "alice" "acme" (two_days_later (fresh_world one_click))
  /\ match (calculate_user_risk (user_request "alice" "acme") (fresh_world one_click)).1,
           (calculate_user_risk (user_request "alice" "acme")
                                (two_days_later (fresh_world one_click))).1 with
     | Return r1, Return r2 =>
         UserRisk.risk_score r1 == 1115 # 100
         /\ UserRisk.risk_score r2 == 11
         /\ ~ UserRisk.risk_score r1 == UserRisk.risk_score r2
     | _, _ => False
     end.
Proof.
  split; [vm_compute; reflexivity|].
  vm_compute. repeat split; try reflexivity. intros H. discriminate H.
Qed.

(** C9, amended: the scorer is deterministic: factor maps with the same keys
    and equal values get equal scores and the same level. Two user
    evaluations that see the same event metrics, and for which the same
    incident counts fall within the thirty days before their clock
    readings, return the same result and store the same [RiskScore] up to
    [last_updated], whatever the two stores, logs and clocks are otherwise. *)
Theorem C9_scoring_deterministic :
  (forall f1 f2,
      same_factors f1 f2 ->
      _calculate_weighted_risk_score f1 == _calculate_weighted_risk_score f2
      /\ _determine_risk_level (_calculate_weighted_risk_score f1)
         = _determine_risk_level (_calculate_weighted_risk_score f2))
  /\ (forall user_id org_id w1 w2 r1 r2 w1' w2',
         metrics_seen user_id org_id w1 = metrics_seen user_id org_id w2 ->
         recent_incidents_of (metrics_seen user_id org_id w1) (cutoff_of w1)
         = recent_incidents_of (metrics_seen user_id org_id w2) (cutoff_of w2) ->
         calculate_user_risk (user_request user_id org_id) w1 = (Return r1, w1') ->
         calculate_user_risk (user_request user_id org_id) w2 = (Return r2, w2') ->
         r1 = r2
         /\ exists rs1 rs2,
              redis_db w1' !! ("user_risk:" +:+ user_id)
              = Some (RString 86400 (user_risk_doc rs1))
              /\ redis_db w2' !! ("user_risk:" +:+ user_id)
                 = Some (RString 86400 (user_risk_doc rs2))
              /\ with_last_updated 0 rs1 = with_last_updated 0 rs2).
Proof.
  split.
  - intros f1 f2 H. pose proof (weighted_score_compat f1 f2 H) as Hs.
    split; [exact Hs | now apply risk_level_compat].
  - intros u o w1 w2 r1 r2 w1' w2' Hm Hrecent H1 H2.
    destruct (calculate_user_risk_returns_inv _ _ _ _ H1)
      as (u1 & o1 & Eu & Eo & Hu & Ho & Hc1).
    injection Eu as <-. injection Eo as <-.
    destruct (calculate_user_risk_returns_inv _ _ _ _ H2) as (_ & _ & _ & _ & _ & _ & Hc2).
    rewrite (calculate_user_risk_run (user_request u o) u o w1 eq_refl eq_refl Hu Ho Hc1)
      in H1.
    rewrite (calculate_user_risk_run (user_request u o) u o w2 eq_refl eq_refl Hu Ho Hc2)
      in H2.
    cbv zeta in H1, H2.
    assert (Hf : risk_factors_at (metrics_seen u o w1) (utcnow_at w1 (S (ticks w1)))
                 = risk_factors_at (metrics_seen u o w2) (utcnow_at w2 (S (ticks w2)))).
    { rewrite <- Hm in *. apply risk_factors_at_recent. exact Hrecent. }
    rewrite Hf in H1.
    set (f := risk_factors_at (metrics_seen u o w2) (utcnow_at w2 (S (ticks w2)))) in *.
    destruct (_store_user_risk_score _ _) as [[[]|e1] v1] eqn:S1 in H1; [|discriminate H1].
    destruct (_store_user_risk_score _ _) as [[[]|e2] v2] eqn:S2 in H2; [|discriminate H2].
    injection H1 as <- <-. injection H2 as <- <-.
    split.
    { rewrite (scored_time u o f (utcnow_at w1 (S (S (ticks w1))))
                           (utcnow_at w2 (S (S (ticks w2))))).
      apply user_risk_result_time. }
    exists (scored u o f (utcnow_at w1 (S (S (ticks w1))))),
           (scored u o f (utcnow_at w2 (S (S (ticks w2))))).
    split; [|split].
    + apply (store_user_risk_score_stored _ _ _ S1).
    + apply (store_user_risk_score_stored _ _ _ S2).
    + rewrite (scored_time u o f (utcnow_at w1 (S (S (ticks w1))))
                           (utcnow_at w2 (S (S (ticks w2))))).
      apply with_last_updated_twice.
Qed.

(** Two evaluations of [alice] over the same events, one from an empty store
    and one from a store in use seven clock readings later, return the same
    result. *)
Lemma C9_determinism_witness :
  exists r1 r2,
    (calculate_user_risk (user_request "alice" "acme") (fresh_world one_click)).1
    = Return r1
    /\ (calculate_user_risk (user_request "alice" "acme") busy_world).1 = Return r2
    /\ r1 = r2.
Proof.
  eexists _, _. split; [|split].
  - vm_compute. reflexivity.
  - vm_compute. reflexivity.
  - eapply (proj2 C9_scoring_deterministic "alice" "acme"
                  (fresh_world one_click) busy_world).
    + vm_compute. reflexivity.
    + vm_compute. reflexivity.
    + apply run_pair. vm_compute. reflexivity.
    + apply run_pair. vm_compute. reflexivity.
Defined.

(** * Further properties *)

(** ** The scorer as a function of the dict *)

Lemma get_absent {V : Type} (d : list (string * V)) (k : string) (default : V) :
  k ∉ d.*1 -> Py.get d k default = default.
Proof.
  induction d as [|[k' v] d IH]; intros Hk; cbn [Py.get].
  - reflexivity.
  - cbn [fmap list_fmap fst] in Hk. apply not_elem_of_cons in Hk as [Hne Hk].
    destruct (String.eqb_spec k' k) as [->|_]; [congruence|]. now apply IH.
Qed.

Lemma clamp_zero : Py.min (Py.max 0 0) 100 = 0.
Proof. reflexivity. Qed.

Lemma fold_add_factor_weighted_sum (factors : list (string * Q)) :
  NoDup factors.*1 ->
  forall acc, fold_left add_factor factors acc == acc + weighted_sum factors.
Proof.
  induction factors as [|[k v] f IH]; intros Hnd acc.
  - cbn [fold_left]. unfold weighted_sum, clamped. cbn [Py.get].
    rewrite clamp_zero. lra.
  - cbn [fmap list_fmap fst] in Hnd. apply NoDup_cons in Hnd as [Hk Hnd].
    cbn [fold_left]. rewrite (IH Hnd).
    unfold add_factor, weighted_sum, clamped. cbn [Py.get risk_weights].
    destruct (String.eqb_spec "click_rate" k) as [<-|H1].
    { rewrite (get_absent f "click_rate" 0 Hk), clamp_zero.
      cbn [String.eqb Ascii.eqb Bool.eqb]. lra. }
    destruct (String.eqb_spec "report_rate" k) as [<-|H2].
    { rewrite (get_absent f "report_rate" 0 Hk), clamp_zero.
      cbn [String.eqb Ascii.eqb Bool.eqb]. lra. }
    destruct (String.eqb_spec "training_completion" k) as [<-|H3].
    { rewrite (get_absent f "training_completion" 0 Hk), clamp_zero.
      cbn [String.eqb Ascii.eqb Bool.eqb]. lra. }
    destruct (String.eqb_spec "recent_incidents" k) as [<-|H4].
    { rewrite (get_absent f "recent_incidents" 0 Hk), clamp_zero.
      cbn [String.eqb Ascii.eqb Bool.eqb]. lra. }
    destruct (String.eqb_spec "time_to_report" k) as [<-|H5].
    { rewrite (get_absent f "time_to_report" 0 Hk), clamp_zero.
      cbn [String.eqb Ascii.eqb Bool.eqb]. lra. }
    destruct (String.eqb_spec "repeat_offender" k) as [<-|H6].
    { rewrite (get_absent f "repeat_offender" 0 Hk), clamp_zero.
      cbn [String.eqb Ascii.eqb Bool.eqb]. lra. }
    rewrite !(String.eqb_sym k).
    apply not_eq_sym, String.eqb_neq in H1, H2, H3, H4, H5, H6.
    rewrite !(String.eqb_sym _ k), H1, H2, H3, H4, H5, H6. lra.
Qed.

Lemma clamp_monotone (x y : Q) :
  x <= y -> Py.min (Py.max x 0) 100 <= Py.min (Py.max y 0) 100.
Proof.
  intros H. unfold Py.min, Py.max, Py.gtb, Py.ltb. case_cmp; simpl in *; lra.
Qed.

(** X1: for a factor dict (distinct names) the score is the clamped weighted
    sum over the six names of the weight table, each read from the dict,
    clamped to [0,100], and taken as 0 when the name is missing; names
    outside the table do not count. *)
Theorem X1_score_reads_six_names (factors : list (string * Q)) :
  NoDup factors.*1 ->
  _calculate_weighted_risk_score factors
  == Py.min (Py.max (weighted_sum factors) 0) 100.
Proof.
  intros Hnd. unfold _calculate_weighted_risk_score.
  apply clamp_proper. rewrite (fold_add_factor_weighted_sum factors Hnd 0). lra.
Qed.

(** The example dict plus a name the table does not know. *)
Lemma X1_score_reads_six_names_witness :
  _calculate_weighted_risk_score (example_factors ++ [("shoe_size"%string, 44)])
  == Py.min (Py.max (weighted_sum (example_factors ++ [("shoe_size"%string, 44)])) 0) 100.
Proof.
  apply (X1_score_reads_six_names (example_factors ++ [("shoe_size"%string, 44)])).
  apply (bool_decide_unpack _). vm_compute. exact I.
Defined.

(** X2: whatever a factor dict holds, its score is at most 65, because the
    positive weights add up to 0.65; so the scorer never yields the level
    [high] or [critical]. *)
Theorem X2_score_at_most_65 (factors : list (string * Q)) :
  NoDup factors.*1 ->
  _calculate_weighted_risk_score factors <= 65
  /\ (_determine_risk_level (_calculate_weighted_risk_score factors) = "low"%string
      \/ _determine_risk_level (_calculate_weighted_risk_score factors) = "medium"%string).
Proof.
  intros Hnd.
  assert (Hle : _calculate_weighted_risk_score factors <= 65).
  { unfold _calculate_weighted_risk_score.
    pose proof (fold_add_factor_weighted_sum factors Hnd 0) as Hsum.
    unfold weighted_sum, clamped in Hsum.
    pose proof (clamp_range (Py.get factors "click_rate" 0)).
    pose proof (clamp_range (Py.get factors "report_rate" 0)).
    pose proof (clamp_range (Py.get factors "training_completion" 0)).
    pose proof (clamp_range (Py.get factors "recent_incidents" 0)).
    pose proof (clamp_range (Py.get factors "time_to_report" 0)).
    pose proof (clamp_range (Py.get factors "repeat_offender" 0)).
    assert (Hfold : fold_left add_factor factors 0 <= 65) by lra.
    revert Hfold. generalize (fold_left add_factor factors 0). intros t Ht.
    unfold Py.min, Py.max, Py.gtb, Py.ltb. case_cmp; simpl in *; lra. }
  split; [exact Hle|].
  destruct (level_cases (_calculate_weighted_risk_score factors))
    as [[? E] | [[? E] | [[? E] | [? E]]]]; try lra; auto.
Qed.

(** Every factor at its worst: the score is exactly the ceiling of 65. *)
Lemma X2_score_at_most_65_witness :
  _calculate_weighted_risk_score (factor_items 100 0 0 100 100 100) <= 65.
Proof.
  apply (X2_score_at_most_65 (factor_items 100 0 0 100 100 100)).
  apply (bool_decide_unpack _). vm_compute. exact I.
Defined.

(** X3: the level never drops when the score rises: the four levels are
    ordered [low], [medium], [high], [critical] along the score. *)
Theorem X3_level_monotone (score1 score2 : Q) :
  score1 <= score2 ->
  (level_rank (_determine_risk_level score1)
   <= level_rank (_determine_risk_level score2))%nat.
Proof.
  intros H.
  destruct (level_cases score1) as [[? E1] | [[? E1] | [[? E1] | [? E1]]]];
    destruct (level_cases score2) as [[? E2] | [[? E2] | [[? E2] | [? E2]]]];
    rewrite E1, E2; cbn; try lia; lra.
Qed.

Lemma X3_level_monotone_witness :
  (level_rank (_determine_risk_level 49) <= level_rank (_determine_risk_level 50))%nat.
Proof. apply (X3_level_monotone 49 50). lra. Defined.

(** X4: on the six factors of the worker the score is monotone: more
    clicks, more recent incidents, a slower report or more repeated
    incidents never lower it, and a higher report rate or training
    completion never raise it. *)
Theorem X4_score_monotone (a b c d e f a' b' c' d' e' f' : Q) :
  a <= a' -> b' <= b -> c' <= c -> d <= d' -> e <= e' -> f <= f' ->
  _calculate_weighted_risk_score (factor_items a b c d e f)
  <= _calculate_weighted_risk_score (factor_items a' b' c' d' e' f').
Proof.
  intros Ha Hb Hc Hd He Hf.
  unfold _calculate_weighted_risk_score, factor_items.
  cbn [fold_left add_factor Py.get risk_weights String.eqb Ascii.eqb Bool.eqb].
  apply clamp_monotone.
  pose proof (clamp_monotone _ _ Ha). pose proof (clamp_monotone _ _ Hb).
  pose proof (clamp_monotone _ _ Hc). pose proof (clamp_monotone _ _ Hd).
  pose proof (clamp_monotone _ _ He). pose proof (clamp_monotone _ _ Hf).
  lra.
Qed.

Lemma X4_score_monotone_witness :
  _calculate_weighted_risk_score (factor_items 10 50 80 0 50 0)
  <= _calculate_weighted_risk_score (factor_items 30 20 40 2 50 50).
Proof.
  apply (X4_score_monotone 10 50 80 0 50 0 30 20 40 2 50 50); lra.
Defined.

(** ** Risk factors *)

Lemma Qn_nonneg (n : N) : 0 <= Qn n.
Proof. unfold Qn, Qle. cbn. lia. Qed.

Lemma rate_nonneg (part whole : N) : 0 <= rate part whole.
Proof.
  unfold rate. destruct (N.ltb_spec 0 whole) as [Hw|_]; [|lra].
  destruct whole as [|w]; [lia|]. destruct part as [|p]; unfold Qn, Qle; cbn; lia.
Qed.

Lemma rate_zero_whole (part : N) : rate part 0 = 0.
Proof. reflexivity. Qed.

Lemma rate_le_100 (part whole : N) :
  (0 < whole)%N -> (rate part whole <= 100 <-> (part <= whole)%N).
Proof.
  intros Hw. unfold rate. destruct (N.ltb_spec 0 whole) as [_|H]; [|lia].
  destruct whole as [|w]; [lia|]. destruct part as [|p]; unfold Qn, Qle; cbn; lia.
Qed.

Lemma repeat_offender_step_range (n : N) :
  0 <= repeat_offender_step n
  /\ (repeat_offender_step n == 0 <-> n = 0%N)
  /\ ((0 < n)%N -> 50 <= repeat_offender_step n).
Proof.
  unfold repeat_offender_step.
  destruct (N.leb_spec 5 n); [|destruct (N.leb_spec 3 n); [|destruct (N.leb_spec 1 n)]];
    (split; [lra|split; [split; [intros H'; try discriminate H'; lia | intros ->; try lia; reflexivity] | intros; try lra; lia]]).
Qed.

Lemma recent_le_total (metrics : gmap string Metric.t) (recent_cutoff : Z) :
  (recent_incidents_of metrics recent_cutoff <= total_incidents_of metrics)%N.
Proof.
  unfold recent_incidents_of, total_incidents_of, incident_types. cbn [fold_left].
  destruct (metrics !! "email_clicked"%string) as [m1|];
    destruct (metrics !! "sms_clicked"%string) as [m2|];
    destruct (metrics !! "landing_form_submitted"%string) as [m3|];
    repeat match goal with |- context [(?a <=? ?b)%Z] => destruct (a <=? b)%Z end;
    lia.
Qed.

Lemma Qn_le (a b : N) : (a <= b)%N -> Qn a <= Qn b.
Proof. intros H. unfold Qn, Qle. cbn. lia. Qed.

Lemma Qn_pos (a : N) : 0 < Qn a -> (0 < a)%N.
Proof. unfold Qn, Qlt. cbn. lia. Qed.

(** X5: whatever the metrics are, the factor calculator returns its six
    factors, none of them negative, and [time_to_report] is always the
    neutral 50. *)
Theorem X5_factors_nonnegative (user_id org_id : string)
    (metrics : gmap string Metric.t) (w : world) :
  exists factors,
    (_calculate_risk_factors user_id org_id metrics w).1 = Return factors
    /\ factors.*1 = [ "click_rate"; "report_rate"; "training_completion";
                      "recent_incidents"; "time_to_report"; "repeat_offender" ]%string
    /\ Forall (fun item => 0 <= item.2) factors
    /\ Py.get factors "time_to_report" 0 == 50.
Proof.
  eexists. rewrite calculate_risk_factors_run. cbn [fst].
  split; [reflexivity|]. split; [reflexivity|]. split; [|reflexivity].
  unfold risk_factors_at, factor_items.
  repeat (apply Forall_cons; split); cbn [snd];
    try apply rate_nonneg; try apply Qn_nonneg; try lra.
  - apply repeat_offender_step_range.
  - apply Forall_nil. exact I.
Qed.

Lemma calculate_risk_factors_inv (user_id org_id : string)
    (metrics : gmap string Metric.t) (w w' : world) (factors : list (string * Q)) :
  _calculate_risk_factors user_id org_id metrics w = (Return factors, w') ->
  factors = risk_factors_at metrics (utcnow_at w (ticks w)).
Proof. rewrite calculate_risk_factors_run. now intros [= <- _]. Qed.



(** X7: the click rate is a percentage only when the clicks do not outnumber
    the sends: with something sent, [click_rate] is at most 100 exactly when
    clicked <= sent; the same holds for the report rate. *)
Theorem X7_rate_is_percentage_iff (user_id org_id : string)
    (metrics : gmap string Metric.t) (w w' : world) (factors : list (string * Q)) :
  _calculate_risk_factors user_id org_id metrics w = (Return factors, w') ->
  (0 < count_of metrics "email_sent" + count_of metrics "sms_sent")%N ->
  (Py.get factors "click_rate" 0 <= 100
   <-> (count_of metrics "email_clicked" + count_of metrics "sms_clicked"
        <= count_of metrics "email_sent" + count_of metrics "sms_sent")%N)
  /\ (Py.get factors "report_rate" 0 <= 100
      <-> (count_of metrics "email_reported" + count_of metrics "sms_reported"
           <= count_of metrics "email_sent" + count_of metrics "sms_sent")%N).
Proof.
  intros Hrun Hsent. apply calculate_risk_factors_inv in Hrun as ->.
  unfold risk_factors_at, factor_items.
  cbn [Py.get String.eqb Ascii.eqb Bool.eqb].
  split; now apply rate_le_100.
Qed.

(** Six clicks on four mails: the click rate is 150, and 6 <= 4 is false. *)
Lemma X7_rate_is_percentage_witness :
  Py.get (risk_factors_at more_clicks_than_sends 1700000000) "click_rate" 0 <= 100
  <-> (count_of more_clicks_than_sends "email_clicked"
       + count_of more_clicks_than_sends "sms_clicked"
       <= count_of more_clicks_than_sends "email_sent"
          + count_of more_clicks_than_sends "sms_sent")%N.
Proof.
  apply (X7_rate_is_percentage_iff "alice" "acme" more_clicks_than_sends
           (fresh_world query_fails) _ _
           (calculate_risk_factors_run "alice" "acme" more_clicks_than_sends
              (fresh_world query_fails))).
  vm_compute. reflexivity.
Defined.

(** X8: the recent incidents never exceed the incidents counted for the
    repeat-offender score; that score is 0 exactly when no incident was
    recorded, and at least 50 as soon as one incident is recent. *)
Theorem X8_incident_factors_agree (user_id org_id : string)
    (metrics : gmap string Metric.t) (w w' : world) (factors : list (string * Q)) :
  _calculate_risk_factors user_id org_id metrics w = (Return factors, w') ->
  Py.get factors "recent_incidents" 0 <= Qn (total_incidents_of metrics)
  /\ (Py.get factors "repeat_offender" 0 == 0 <-> total_incidents_of metrics = 0%N)
  /\ (0 < Py.get factors "recent_incidents" 0 ->
      50 <= Py.get factors "repeat_offender" 0).
Proof.
  intros Hrun. apply calculate_risk_factors_inv in Hrun as ->.
  unfold risk_factors_at, factor_items.
  cbn [Py.get String.eqb Ascii.eqb Bool.eqb].
  pose proof (recent_le_total metrics (utcnow_at w (ticks w) - days 30)) as Hle.
  split; [now apply Qn_le|]. split.
  - apply repeat_offender_step_range.
  - intros Hpos. apply Qn_pos in Hpos.
    apply repeat_offender_step_range. lia.
Qed.

Lemma X8_incident_factors_witness :
  Py.get (risk_factors_at more_clicks_than_sends 1700000000) "recent_incidents" 0
  <= Qn (total_incidents_of more_clicks_than_sends).
Proof.
  apply (X8_incident_factors_agree "alice" "acme" more_clicks_than_sends
           (fresh_world query_fails) _ _
           (calculate_risk_factors_run "alice" "acme" more_clicks_than_sends
              (fresh_world query_fails))).
Defined.

(** ** The metrics dict *)

Lemma fold_insert_absent (rows : list (string * Metric.t)) (acc : gmap string Metric.t)
    (event_type : string) :
  event_type ∉ rows.*1 ->
  fold_left (fun metrics row => <[row.1 := row.2]> metrics) rows acc !! event_type
  = acc !! event_type.
Proof.
  revert acc. induction rows as [|[e m] rows IH]; intros acc Hk; cbn [fold_left].
  - reflexivity.
  - cbn [fmap list_fmap fst] in Hk. apply not_elem_of_cons in Hk as [Hne Hk].
    rewrite (IH _ Hk). cbn [fst snd]. now apply lookup_insert_ne.
Qed.

(** X9: the metrics reader keeps, for each event type, the last row the
    query returned for it, and has no entry for a type without a row; a
    successful query logs nothing. *)
Theorem X9_metrics_last_row_wins (user_id org_id : string) (w : world)
    (rows1 rows2 : list (string * Metric.t)) (event_type : string) (m : Metric.t) :
  clickhouse_client w = true ->
  clickhouse_execute w user_id org_id (utcnow_at w (ticks w) - days 90)%Z
  = Some (rows1 ++ (event_type, m) :: rows2) ->
  event_type ∉ rows2.*1 ->
  exists metrics w',
    _get_user_metrics user_id org_id w = (Return metrics, w')
    /\ metrics !! event_type = Some m
    /\ (forall other, other ∉ (rows1 ++ (event_type, m) :: rows2).*1 ->
                      metrics !! other = None)
    /\ log w' = log w.
Proof.
  intros Hc Hq Hlast. eexists _, _.
  rewrite (get_user_metrics_run _ _ _ Hc). split; [reflexivity|].
  unfold metrics_seen, after_metrics. rewrite Hq. split; [|split; [|reflexivity]].
  - unfold build_metrics. rewrite fold_left_app. cbn [fold_left fst snd].
    rewrite (fold_insert_absent _ _ _ Hlast). apply lookup_insert_eq.
  - intros other Hother. unfold build_metrics.
    rewrite (fold_insert_absent _ _ _ Hother). apply lookup_empty.
Qed.

(** Two rows for the same event type: the second one is kept. *)
Lemma X9_metrics_last_row_witness :
  exists metrics w',
    _get_user_metrics "alice" "acme" (fresh_world repeated_rows) = (Return metrics, w')
    /\ metrics !! "email_clicked"%string = Some (Metric.mk 2 1698000000 1699000000).
Proof.
  destruct (X9_metrics_last_row_wins "alice" "acme" (fresh_world repeated_rows)
              [("email_clicked"%string, Metric.mk 1 1697000000 1697000000)] []
              "email_clicked" (Metric.mk 2 1698000000 1699000000)
              eq_refl eq_refl (not_elem_of_nil _))
    as (metrics & w' & Hrun & Hlookup & _).
  exists metrics, w'. split; [exact Hrun | exact Hlookup].
Defined.

(** ** A user evaluation, case by case *)

Lemma raise_pair {A : Type} (p : outcome A * world) (e : exc) :
  p.1 = Raise e -> p = (Raise e, p.2).
Proof. destruct p as [o w]. cbn [fst snd]. now intros ->. Qed.

Lemma not_false_inv (s : option string) :
  not_ s = false -> exists v, s = Some v /\ v <> ""%string.
Proof.
  destruct s as [v|]; [|discriminate]. cbn [not_]. intros H.
  exists v. split; [reflexivity|]. now apply String.eqb_neq.
Qed.

Lemma calculate_user_risk_invalid (data : Request.t) (w : world) :
  not_ (Request.user_id data) || not_ (Request.org_id data) = true ->
  calculate_user_risk data w
  = (Raise (ValueError "user_id and org_id are required"), w).
Proof. intros H. unfold calculate_user_risk. now rewrite H. Qed.

Lemma calculate_user_risk_no_clickhouse (data : Request.t) (w : world) :
  not_ (Request.user_id data) || not_ (Request.org_id data) = false ->
  clickhouse_client w = false ->
  calculate_user_risk data w
  = (Raise (RuntimeError "ClickHouse client not initialized"), w).
Proof.
  intros H Hc. unfold calculate_user_risk. rewrite H.
  unfold mbind at 1, M_bind at 1. now rewrite (get_user_metrics_no_client _ _ _ Hc).
Qed.

(** The world in which the score is stored and the score object stored. *)
Lemma calculate_user_risk_valid (data : Request.t) (w : world) :
  not_ (Request.user_id data) || not_ (Request.org_id data) = false ->
  clickhouse_client w = true ->
  exists user_id org_id,
    Request.user_id data = Some user_id /\ Request.org_id data = Some org_id
    /\ calculate_user_risk data w
       = match _store_user_risk_score (risk_score_in user_id org_id w)
                 (set_ticks (S (S (S (ticks w)))) (after_metrics user_id org_id w)) with
         | (Return _, w') => (Return (user_risk_result (risk_score_in user_id org_id w)), w')
         | (Raise e, w') => (Raise e, w')
         end.
Proof.
  intros H Hc. apply orb_false_iff in H as [Hu Ho].
  apply not_false_inv in Hu as (u & Eu & Hu). apply not_false_inv in Ho as (o & Eo & Ho).
  exists u, o. split; [exact Eu|]. split; [exact Eo|].
  apply (calculate_user_risk_run data u o w Eu Eo Hu Ho Hc).
Qed.

Lemma store_user_risk_score_no_redis (risk_score : RiskScore.t) (w : world) :
  redis_client w = false ->
  _store_user_risk_score risk_score w
  = (Raise (RuntimeError "Redis client not initialized"), w).
Proof.
  intros H. unfold _store_user_risk_score, mbind, M_bind, get_redis_client.
  now rewrite H.
Qed.

Lemma store_user_risk_score_wrongtype (risk_score : RiskScore.t) (w : world) :
  redis_client w = true ->
  accepts_scores (RiskScore.org_id risk_score) w = false ->
  exists w', _store_user_risk_score risk_score w = (Raise redis.wrongtype, w').
Proof.
  intros Hc Ha. unfold accepts_scores in Ha. rewrite Hc in Ha. cbn [andb] in Ha.
  unfold _store_user_risk_score, mbind, M_bind, get_redis_client, redis.setex, redis.zadd.
  rewrite Hc. cbn [redis_db set_redis_db].
  rewrite lookup_insert_ne by apply org_scores_not_user_risk.
  destruct (redis_db w !! _) as [[| |z]|]; try discriminate Ha; eauto.
Qed.

(** What [_store_user_risk_score] leaves outside its two keys. *)
Lemma store_user_risk_score_frame (risk_score : RiskScore.t) (w : world) (key : string) :
  key <> ("user_risk:" +:+ RiskScore.user_id risk_score)%string ->
  key <> ("org_risk_scores:" +:+ RiskScore.org_id risk_score)%string ->
  redis_db (_store_user_risk_score risk_score w).2 !! key = redis_db w !! key.
Proof.
  intros H1 H2.
  unfold _store_user_risk_score, mbind, M_bind, get_redis_client, redis.setex, redis.zadd.
  destruct (redis_client w); [|reflexivity].
  cbn [redis_db set_redis_db].
  match goal with
  | |- context [match ?x with _ => _ end] => destruct x as [[| |z]|]
  end; cbn [snd redis_db set_redis_db];
    rewrite ?lookup_insert_ne by congruence; reflexivity.
Qed.

Lemma accepts_scores_at_store (org_id user_id org_id' : string) (n : nat) (w : world) :
  accepts_scores org_id (set_ticks n (after_metrics user_id org_id' w))
  = accepts_scores org_id w.
Proof.
  unfold accepts_scores. cbn [redis_client redis_db set_ticks].
  now destruct (after_metrics_redis user_id org_id' w) as [-> ->].
Qed.

Lemma redis_client_at_store (user_id org_id : string) (n : nat) (w : world) :
  redis_client (set_ticks n (after_metrics user_id org_id w)) = redis_client w
  /\ redis_db (set_ticks n (after_metrics user_id org_id w)) = redis_db w
  /\ nats_published (set_ticks n (after_metrics user_id org_id w)) = nats_published w.
Proof.
  cbn [redis_client redis_db nats_published set_ticks].
  destruct (after_metrics_redis user_id org_id w) as [-> ->].
  now rewrite after_metrics_nats.
Qed.

Lemma org_scores_at_store (org_id user_id org_id' : string) (n : nat) (w : world) :
  org_scores org_id (set_ticks n (after_metrics user_id org_id' w)) = org_scores org_id w.
Proof.
  unfold org_scores. cbn [redis_db set_ticks].
  now destruct (after_metrics_redis user_id org_id' w) as [-> _].
Qed.

Lemma store_user_risk_score_zset (risk_score : RiskScore.t) (w w' : world) :
  _store_user_risk_score risk_score w = (Return tt, w') ->
  org_scores (RiskScore.org_id risk_score) w'
  = <[RiskScore.user_id risk_score := RiskScore.overall_score risk_score]>
      (org_scores (RiskScore.org_id risk_score) w)
  /\ redis_db w' !! ("org_risk_scores:" +:+ RiskScore.org_id risk_score)
     = Some (RZSet (org_scores (RiskScore.org_id risk_score) w')).
Proof.
  unfold _store_user_risk_score, mbind, M_bind, get_redis_client, redis.setex, redis.zadd,
    org_scores.
  destruct (redis_client w); [|discriminate].
  cbn [redis_db set_redis_db].
  rewrite lookup_insert_ne by apply org_scores_not_user_risk.
  destruct (redis_db w !! _) as [[| |z]|]; intros H; try discriminate H;
    injection H as <-; cbn [redis_db set_redis_db]; rewrite lookup_insert_eq;
    split; reflexivity.
Qed.

(** X10: a user evaluation returns exactly when both identifiers are given,
    the ClickHouse and Redis clients exist and the organisation's ranking key
    can take a score; a failing query does not stop it. *)
Theorem X10_user_risk_returns_iff (data : Request.t) (w : world) :
  (exists r w', calculate_user_risk data w = (Return r, w'))
  <-> (not_ (Request.user_id data) || not_ (Request.org_id data) = false
       /\ clickhouse_client w = true
       /\ accepts_scores (default ""%string (Request.org_id data)) w = true).
Proof.
  split.
  - intros (r & w' & Hrun).
    destruct (not_ (Request.user_id data) || not_ (Request.org_id data)) eqn:Hids.
    { rewrite (calculate_user_risk_invalid _ _ Hids) in Hrun. discriminate Hrun. }
    destruct (clickhouse_client w) eqn:Hc.
    2:{ rewrite (calculate_user_risk_no_clickhouse _ _ Hids Hc) in Hrun.
        discriminate Hrun. }
    split; [reflexivity|]. split; [reflexivity|].
    destruct (calculate_user_risk_valid _ _ Hids Hc) as (u & o & Eu & Eo & Hv).
    rewrite Hv in Hrun. rewrite Eo. cbn [default from_option id].
    destruct (accepts_scores o w) eqn:Ha; [reflexivity|].
    rewrite <- (accepts_scores_at_store o u o (S (S (S (ticks w))))) in Ha.
    destruct (redis_client (set_ticks (S (S (S (ticks w)))) (after_metrics u o w))) eqn:Hr.
    + destruct (store_user_risk_score_wrongtype (risk_score_in u o w) _ Hr Ha)
        as [w1 Hw1].
      rewrite Hw1 in Hrun. discriminate Hrun.
    + rewrite (store_user_risk_score_no_redis _ _ Hr) in Hrun. discriminate Hrun.
  - intros (Hids & Hc & Ha).
    destruct (calculate_user_risk_valid _ _ Hids Hc) as (u & o & Eu & Eo & Hv).
    rewrite Eo in Ha. cbn [default from_option id] in Ha.
    rewrite <- (accepts_scores_at_store o u o (S (S (S (ticks w))))) in Ha.
    destruct (store_user_risk_score_returns (risk_score_in u o w) _ Ha) as [w1 Hw1].
    rewrite Hv, Hw1. eauto.
Qed.

Lemma store_user_risk_score_raise (risk_score : RiskScore.t) (w w' : world) (e : exc) :
  _store_user_risk_score risk_score w = (Raise e, w') ->
  nats_published w' = nats_published w
  /\ org_scores (RiskScore.org_id risk_score) w'
     = org_scores (RiskScore.org_id risk_score) w.
Proof.
  unfold _store_user_risk_score, mbind, M_bind, get_redis_client, redis.setex, redis.zadd,
    org_scores.
  destruct (redis_client w); [|now intros [= _ <-]].
  cbn [redis_db set_redis_db].
  rewrite lookup_insert_ne by apply org_scores_not_user_risk.
  destruct (redis_db w !! ("org_risk_scores:" +:+ _)%string) as [[| |z]|] eqn:Hk;
    intros H; try discriminate H; injection H as _ <-;
    cbn [redis_db set_redis_db nats_published];
    (rewrite lookup_insert_ne by apply org_scores_not_user_risk);
    rewrite Hk; auto.
Qed.

(** X11: a user evaluation that raises publishes nothing and leaves the
    organisation's ranking as it was; without identifiers or without the
    ClickHouse client it leaves the whole world as it was. *)
Theorem X11_failed_user_risk_effects (data : Request.t) (w w' : world) (e : exc) :
  calculate_user_risk data w = (Raise e, w') ->
  nats_published w' = nats_published w
  /\ org_scores (default ""%string (Request.org_id data)) w'
     = org_scores (default ""%string (Request.org_id data)) w
  /\ (not_ (Request.user_id data) || not_ (Request.org_id data) = true ->
      e = ValueError "user_id and org_id are required" /\ w' = w)
  /\ (not_ (Request.user_id data) || not_ (Request.org_id data) = false ->
      clickhouse_client w = false ->
      e = RuntimeError "ClickHouse client not initialized" /\ w' = w).
Proof.
  intros Hrun.
  destruct (not_ (Request.user_id data) || not_ (Request.org_id data)) eqn:Hids.
  { rewrite (calculate_user_risk_invalid _ _ Hids) in Hrun. injection Hrun as <- <-.
    repeat split; auto; discriminate. }
  destruct (clickhouse_client w) eqn:Hc.
  2:{ rewrite (calculate_user_risk_no_clickhouse _ _ Hids Hc) in Hrun.
      injection Hrun as <- <-. repeat split; auto; discriminate. }
  destruct (calculate_user_risk_valid _ _ Hids Hc) as (u & o & Eu & Eo & Hv).
  rewrite Hv in Hrun. rewrite Eo. cbn [default from_option id].
  destruct (redis_client_at_store u o (S (S (S (ticks w)))) w) as (_ & Hdb & Hnp).
  destruct (_store_user_risk_score _ _) as [[[]|e1] w1] eqn:Hs in Hrun;
    [discriminate Hrun|]. injection Hrun as <- <-.
  apply store_user_risk_score_raise in Hs as [Hn Ho].
  cbn [RiskScore.org_id risk_score_in scored make_risk_score] in Ho.
  rewrite Hn, Hnp, Ho, org_scores_at_store.
  repeat split; auto; discriminate.
Qed.

(** The ranking key of [acme] holds a list: the evaluation of [alice] raises
    and the published messages are as before. *)
Lemma X11_failed_user_risk_witness :
  nats_published
    (calculate_user_risk (user_request "alice" "acme") world_with_bad_ranking).2
  = nats_published world_with_bad_ranking.
Proof.
  eapply (X11_failed_user_risk_effects (user_request "alice" "acme")
            world_with_bad_ranking _ redis.wrongtype).
  apply raise_pair. vm_compute. reflexivity.
Defined.

(** X12: a user evaluation writes at most two keys of the store, the
    user's score and the organisation's ranking: every other key, trend
    histories and monitoring flags included, and the published messages
    stay as they were, whether it returns or raises. *)
Theorem X12_user_risk_writes_two_keys (data : Request.t) (w : world) (key : string) :
  key <> ("user_risk:" +:+ default ""%string (Request.user_id data))%string ->
  key <> ("org_risk_scores:" +:+ default ""%string (Request.org_id data))%string ->
  redis_db (calculate_user_risk data w).2 !! key = redis_db w !! key
  /\ nats_published (calculate_user_risk data w).2 = nats_published w.
Proof.
  intros H1 H2.
  destruct (not_ (Request.user_id data) || not_ (Request.org_id data)) eqn:Hids.
  { rewrite (calculate_user_risk_invalid _ _ Hids). auto. }
  destruct (clickhouse_client w) eqn:Hc.
  2:{ rewrite (calculate_user_risk_no_clickhouse _ _ Hids Hc). auto. }
  destruct (calculate_user_risk_valid _ _ Hids Hc) as (u & o & Eu & Eo & Hv).
  rewrite Hv. rewrite Eu, Eo in *. cbn [default from_option id] in *.
  destruct (redis_client_at_store u o (S (S (S (ticks w)))) w) as (_ & Hdb & Hnp).
  pose proof (store_user_risk_score_frame (risk_score_in u o w)
                (set_ticks (S (S (S (ticks w)))) (after_metrics u o w)) key H1 H2) as Hf.
  pose proof (store_user_risk_score_nats (risk_score_in u o w)
                (set_ticks (S (S (S (ticks w)))) (after_metrics u o w))) as Hn.
  rewrite Hdb in Hf. rewrite Hnp in Hn.
  destruct (_store_user_risk_score _ _) as [[[]|e1] w1]; cbn [snd] in *; auto.
Qed.

(** The evaluation of [alice] leaves the trend history of [c1] alone. *)
Lemma X12_user_risk_writes_two_keys_witness :
  redis_db (calculate_user_risk (user_request "alice" "acme") world_with_history).2
  !! "cohort_risk_history:c1"%string
  = redis_db world_with_history !! "cohort_risk_history:c1"%string.
Proof.
  assert (H1 : ("cohort_risk_history:c1" : string)
               <> ("user_risk:" +:+ default ""%string
                                    (Request.user_id (user_request "alice" "acme")))%string)
    by (intros H; discriminate H).
  assert (H2 : ("cohort_risk_history:c1" : string)
               <> ("org_risk_scores:" +:+ default ""%string
                                    (Request.org_id (user_request "alice" "acme")))%string)
    by (intros H; discriminate H).
  pose proof (X12_user_risk_writes_two_keys (user_request "alice" "acme")
                world_with_history "cohort_risk_history:c1" H1 H2) as [H _].
  exact H.
Defined.

Lemma scored_eq (user_id org_id : string) (f : list (string * Q)) (t : Z) :
  scored user_id org_id f t
  = RiskScore.mk user_id org_id (_calculate_weighted_risk_score f)
                 (Py.get f "click_rate" 0) (Py.get f "report_rate" 0)
                 (Py.get f "training_completion" 0) (Py.get f "recent_incidents" 0)
                 (_determine_risk_level (_calculate_weighted_risk_score f)) t f.
Proof. reflexivity. Qed.

Lemma result_of_scored (user_id org_id : string) (f : list (string * Q)) (t : Z) :
  user_risk_result (scored user_id org_id f t)
  = UserRisk.mk true user_id (_calculate_weighted_risk_score f)
                (_determine_risk_level (_calculate_weighted_risk_score f)) f
                (_generate_user_recommendations (scored user_id org_id f t)).
Proof. reflexivity. Qed.

(** The shape of every returned user evaluation. *)
Lemma calculate_user_risk_return_form (data : Request.t) (w w' : world) (r : UserRisk.t) :
  calculate_user_risk data w = (Return r, w') ->
  exists user_id org_id,
    Request.user_id data = Some user_id /\ Request.org_id data = Some org_id
    /\ r = user_risk_result (risk_score_in user_id org_id w)
    /\ _store_user_risk_score (risk_score_in user_id org_id w)
         (set_ticks (S (S (S (ticks w)))) (after_metrics user_id org_id w))
       = (Return tt, w').
Proof.
  intros Hrun.
  destruct (calculate_user_risk_returns_inv _ _ _ _ Hrun)
    as (u & o & Eu & Eo & Hu & Ho & Hc).
  exists u, o. split; [exact Eu|]. split; [exact Eo|].
  rewrite (calculate_user_risk_run _ _ _ _ Eu Eo Hu Ho Hc) in Hrun. cbv zeta in Hrun.
  fold (risk_score_in u o w) in Hrun.
  destruct (_store_user_risk_score _ _) as [[[]|e1] w1]; [|discriminate Hrun].
  injection Hrun as <- <-. split; reflexivity.
Qed.

Lemma risk_score_in_eq (user_id org_id : string) (w : world) :
  risk_score_in user_id org_id w
  = scored user_id org_id
           (risk_factors_at (metrics_seen user_id org_id w) (utcnow_at w (S (ticks w))))
           (utcnow_at w (S (S (ticks w)))).
Proof. reflexivity. Qed.

(** X13: every result a user evaluation returns is consistent: the score is
    the weighted score of the reported factors and lies between 0 and 65,
    the level is the level of that score, hence [low] or [medium], and
    [success] is set. *)
Theorem X13_user_risk_result_consistent (data : Request.t) (w w' : world)
    (r : UserRisk.t) :
  calculate_user_risk data w = (Return r, w') ->
  UserRisk.success r = true
  /\ Request.user_id data = Some (UserRisk.user_id r)
  /\ UserRisk.risk_score r = _calculate_weighted_risk_score (UserRisk.factors r)
  /\ UserRisk.risk_level r = _determine_risk_level (UserRisk.risk_score r)
  /\ 0 <= UserRisk.risk_score r <= 65
  /\ (UserRisk.risk_level r = "low"%string \/ UserRisk.risk_level r = "medium"%string).
Proof.
  intros Hrun.
  destruct (calculate_user_risk_returns_inv _ _ _ _ Hrun)
    as (u & o & Eu & Eo & Hu & Ho & Hc).
  rewrite (calculate_user_risk_run _ _ _ _ Eu Eo Hu Ho Hc) in Hrun. cbv zeta in Hrun.
  rewrite result_of_scored in Hrun.
  destruct (_store_user_risk_score _ _) as [[[]|e1] w1]; [|discriminate Hrun].
  injection Hrun as Hr _. subst r.
  cbn [UserRisk.risk_level UserRisk.risk_score UserRisk.factors UserRisk.success
       UserRisk.user_id].
  set (f := risk_factors_at (metrics_seen u o w) (utcnow_at w (S (ticks w)))).
  assert (Hle : _calculate_weighted_risk_score f <= 65)
    by apply risk_factors_score_le_65.
  assert (H0 : 0 <= _calculate_weighted_risk_score f)
    by (unfold _calculate_weighted_risk_score; apply clamp_range).
  repeat (split; [first [reflexivity | exact Eu | exact H0 | exact Hle]|]).
  destruct (level_cases (_calculate_weighted_risk_score f))
    as [[? E] | [[? E] | [[? E] | [? E]]]]; try lra; auto.
Qed.

(** The evaluation of [alice] after one click: score 11.15, level [low]. *)
Lemma X13_user_risk_result_witness :
  exists r,
    (calculate_user_risk (user_request "alice" "acme") (fresh_world one_click)).1
    = Return r
    /\ UserRisk.risk_level r = _determine_risk_level (UserRisk.risk_score r)
    /\ 0 <= UserRisk.risk_score r <= 65.
Proof.
  assert (Hrun : exists r,
             (calculate_user_risk (user_request "alice" "acme")
                                  (fresh_world one_click)).1 = Return r).
  { eexists. vm_compute. reflexivity. }
  destruct Hrun as [r Hr]. exists r. split; [exact Hr|].
  apply run_pair in Hr.
  destruct (X13_user_risk_result_consistent _ _ _ _ Hr) as (_ & _ & _ & Hl & Hs & _).
  split; [exact Hl | exact Hs].
Defined.

Lemma user_risk_result_fields (rs : RiskScore.t) :
  UserRisk.user_id (user_risk_result rs) = RiskScore.user_id rs
  /\ UserRisk.risk_score (user_risk_result rs) = RiskScore.overall_score rs
  /\ UserRisk.risk_level (user_risk_result rs) = RiskScore.risk_level rs
  /\ UserRisk.factors (user_risk_result rs) = RiskScore.factors rs.
Proof. repeat split. Qed.

Lemma risk_score_in_ids (user_id org_id : string) (w : world) :
  RiskScore.user_id (risk_score_in user_id org_id w) = user_id
  /\ RiskScore.org_id (risk_score_in user_id org_id w) = org_id
  /\ RiskScore.last_updated (risk_score_in user_id org_id w)
     = utcnow_at w (S (S (ticks w))).
Proof. repeat split. Qed.

(** X14: what a returned user evaluation leaves in the store: under
    [user_risk:<user>] the score object with a time to live of 24 hours,
    carrying the returned score, level and factors and the third clock
    reading as [last_updated]; in the organisation's ranking the user with
    the returned score, every other member as before. *)
Theorem X14_user_risk_stored (data : Request.t) (w w' : world) (r : UserRisk.t) :
  calculate_user_risk data w = (Return r, w') ->
  exists rs,
    redis_db w' !! ("user_risk:" +:+ UserRisk.user_id r)
    = Some (RString 86400 (user_risk_doc rs))
    /\ RiskScore.user_id rs = UserRisk.user_id r
    /\ Request.org_id data = Some (RiskScore.org_id rs)
    /\ RiskScore.overall_score rs = UserRisk.risk_score r
    /\ RiskScore.risk_level rs = UserRisk.risk_level r
    /\ RiskScore.factors rs = UserRisk.factors r
    /\ RiskScore.last_updated rs = utcnow_at w (S (S (ticks w)))
    /\ org_scores (RiskScore.org_id rs) w'
       = <[UserRisk.user_id r := UserRisk.risk_score r]>
           (org_scores (RiskScore.org_id rs) w).
Proof.
  intros Hrun.
  destruct (calculate_user_risk_return_form _ _ _ _ Hrun) as (u & o & Eu & Eo & -> & Hs).
  pose proof (store_user_risk_score_stored _ _ _ Hs) as Hdoc.
  destruct (store_user_risk_score_zset _ _ _ Hs) as [Hz _].
  rewrite org_scores_at_store in Hz.
  destruct (user_risk_result_fields (risk_score_in u o w)) as (-> & -> & -> & ->).
  exists (risk_score_in u o w).
  destruct (risk_score_in_ids u o w) as (Hu' & Ho' & Ht).
  split; [exact Hdoc|]. split; [reflexivity|].
  split; [rewrite Ho'; exact Eo|].
  split; [reflexivity|]. split; [reflexivity|]. split; [reflexivity|].
  split; [exact Ht | exact Hz].
Qed.

(** The evaluation of [alice] on top of the ranking that holds [bob]. *)
Lemma X14_user_risk_stored_witness :
  exists r w' rs,
    calculate_user_risk (user_request "alice" "acme") busy_world = (Return r, w')
    /\ redis_db w' !! ("user_risk:" +:+ UserRisk.user_id r)
       = Some (RString 86400 (user_risk_doc rs))
    /\ RiskScore.overall_score rs = UserRisk.risk_score r.
Proof.
  assert (Hrun : exists r,
             (calculate_user_risk (user_request "alice" "acme") busy_world).1 = Return r).
  { eexists. vm_compute. reflexivity. }
  destruct Hrun as [r Hr]. apply run_pair in Hr.
  destruct (X14_user_risk_stored _ _ _ _ Hr) as (rs & Hdoc & _ & _ & Hscore & _).
  exists r, (calculate_user_risk (user_request "alice" "acme") busy_world).2, rs.
  split; [exact Hr|]. split; [exact Hdoc | exact Hscore].
Defined.

(** X15: the recommendations of a returned user evaluation are among the
    first four, in rule order; the mandatory briefing with the IT team,
    reserved to the levels [high] and [critical], is never among them. *)
Theorem X15_user_recommendations (data : Request.t) (w w' : world) (r : UserRisk.t) :
  calculate_user_risk data w = (Return r, w') ->
  sublist (UserRisk.recommendations r) plain_user_recommendations
  /\ "Mandatory security briefing with IT team"%string ∉ UserRisk.recommendations r.
Proof.
  intros Hrun.
  destruct (calculate_user_risk_return_form _ _ _ _ Hrun) as (u & o & Eu & Eo & -> & _).
  rewrite risk_score_in_eq, result_of_scored. cbn [UserRisk.recommendations].
  unfold _generate_user_recommendations.
  rewrite scored_eq. cbn [RiskScore.click_rate RiskScore.report_rate
       RiskScore.training_completion_rate RiskScore.recent_incidents RiskScore.risk_level].
  rewrite risk_factors_no_escalation.
  assert (Hsub : forall b1 b2 b3 b4 : bool,
             sublist
               ((if b1 then ["Complete advanced phishing identification training"%string]
                 else [])
                ++ (if b2 then ["Learn how to properly report suspicious emails"%string]
                    else [])
                ++ (if b3 then ["Complete pending security awareness training"%string]
                    else [])
                ++ (if b4 then ["Schedule one-on-one security coaching session"%string]
                    else [])
                ++ [])
               plain_user_recommendations).
  { intros [] [] [] []; cbn [app]; unfold plain_user_recommendations;
      repeat first [apply sublist_nil | apply sublist_skip | apply sublist_cons]. }
  split; [apply Hsub|].
  intros Hin. eapply elem_of_sublist in Hin; [|apply Hsub].
  unfold plain_user_recommendations in Hin.
  repeat (apply elem_of_cons in Hin as [Hin|Hin]; [discriminate Hin|]).
  now apply elem_of_nil in Hin.
Qed.

(** The evaluation of [alice] after one click recommends no briefing. *)
Lemma X15_user_recommendations_witness :
  exists r,
    (calculate_user_risk (user_request "alice" "acme") (fresh_world one_click)).1
    = Return r
    /\ "Mandatory security briefing with IT team"%string ∉ UserRisk.recommendations r.
Proof.
  assert (Hrun : exists r,
             (calculate_user_risk (user_request "alice" "acme")
                                  (fresh_world one_click)).1 = Return r).
  { eexists. vm_compute. reflexivity. }
  destruct Hrun as [r Hr]. exists r. split; [exact Hr|].
  apply run_pair in Hr.
  destruct (X15_user_recommendations _ _ _ _ Hr) as [_ H]. exact H.
Defined.

(** ** Cohort results *)

Lemma returned_score_range (data : Request.t) (w w' : world) (r : UserRisk.t) :
  calculate_user_risk data w = (Return r, w') -> 0 <= UserRisk.risk_score r <= 65.
Proof.
  intros Hrun.
  destruct (calculate_user_risk_never_escalates _ _ _ _ Hrun) as (Hle & _ & _).
  split; [|exact Hle].
  destruct (calculate_user_risk_return_form _ _ _ _ Hrun) as (u & o & _ & _ & -> & _).
  destruct (user_risk_result_fields (risk_score_in u o w)) as (_ & -> & _ & _).
  rewrite risk_score_in_eq, scored_eq. cbn [RiskScore.overall_score].
  unfold _calculate_weighted_risk_score. apply clamp_range.
Qed.

Lemma succeeded_scores_range (org_id : string) (user_ids : list string) (w : world) :
  Forall (fun score => 0 <= score <= 65) (succeeded_scores org_id user_ids w).
Proof.
  revert w. induction user_ids as [|user_id rest IH]; intros w; cbn [succeeded_scores].
  - apply Forall_nil. exact I.
  - destruct (calculate_user_risk _ w) as [[r|e] w1] eqn:Hrun.
    + apply Forall_cons. split; [|apply IH].
      apply (returned_score_range _ _ _ _ Hrun).
    + apply IH.
Qed.

Lemma inject_nat_succ (n : nat) :
  inject_Z (Z.of_nat (S n)) == inject_Z (Z.of_nat n) + 1.
Proof. rewrite Nat2Z.inj_succ. unfold Z.succ. rewrite inject_Z_plus. reflexivity. Qed.

Lemma fold_Qplus_bounds (a b : Q) (l : list Q) :
  Forall (fun s => a <= s <= b) l ->
  forall acc,
    acc + inject_Z (Z.of_nat (length l)) * a <= fold_left Qplus l acc
    /\ fold_left Qplus l acc <= acc + inject_Z (Z.of_nat (length l)) * b.
Proof.
  induction 1 as [|x l [Hxa Hxb] _ IH]; intros acc.
  - cbn [fold_left length]. change (inject_Z (Z.of_nat 0)) with 0. split; lra.
  - cbn [fold_left length]. destruct (IH (acc + x)) as [IH1 IH2].
    rewrite inject_nat_succ. split; lra.
Qed.

Lemma mean_bounds (a b : Q) (l : list Q) :
  l <> [] -> Forall (fun s => a <= s <= b) l -> a <= Py.mean l <= b.
Proof.
  intros Hne Hall. unfold Py.mean, Py.sum.
  destruct (fold_Qplus_bounds a b l Hall 0) as [H1 H2].
  assert (Hn : 0 < inject_Z (Z.of_nat (length l))).
  { destruct l as [|x l]; [congruence|]. cbn [length].
    rewrite inject_nat_succ.
    assert (0 <= inject_Z (Z.of_nat (length l))).
    { change 0 with (inject_Z 0). rewrite <- Zle_Qle. lia. }
    lra. }
  split.
  - apply Qle_shift_div_l; [exact Hn | lra].
  - apply Qle_shift_div_r; [exact Hn | lra].
Qed.

Lemma count_high_risk_none (l : list Q) :
  Forall (fun s => 0 <= s <= 65) l -> count_high_risk l = 0%nat.
Proof.
  unfold count_high_risk. induction 1 as [|x l [_ Hx] _ IH]; cbn [List.filter].
  - reflexivity.
  - unfold Py.geb, threshold. cbn [Py.get risk_thresholds String.eqb Ascii.eqb Bool.eqb].
    destruct (Qle_bool 75 x) eqn:E; [apply Qle_bool_iff in E; lra | exact IH].
Qed.

Lemma calculate_risk_trend_inv (cohort_id org_id : string) (current_avg : float)
    (w w1 : world) (trend : string) :
  _calculate_risk_trend cohort_id org_id current_avg w = (Return trend, w1) ->
  w1 = w /\ redis_client w = true
  /\ trend_read (history_read cohort_id w) current_avg = Return trend.
Proof.
  intros Hrun. destruct (redis_client w) eqn:Hr.
  - rewrite (calculate_risk_trend_run _ _ _ _ Hr) in Hrun. unfold history_read.
    destruct (history_of cohort_id w) as [[|l|]|]; try discriminate Hrun;
      injection Hrun as Ht <-;
      (split; [reflexivity|]); (split; [reflexivity|]);
      first [exact Ht | now rewrite <- Ht].
  - unfold _calculate_risk_trend, mbind, M_bind, get_redis_client in Hrun.
    rewrite Hr in Hrun. discriminate Hrun.
Qed.

Lemma store_cohort_risk_inv (cohort_risk : CohortRisk.t) (w w' : world) :
  _store_cohort_risk cohort_risk w = (Return tt, w') ->
  w' = set_redis_db (<[("cohort_risk:" +:+ CohortRisk.cohort_id cohort_risk)%string :=
                         RString 86400 (cohort_risk_doc cohort_risk)]> (redis_db w)) w.
Proof.
  unfold _store_cohort_risk, mbind, M_bind, get_redis_client, redis.setex.
  destruct (redis_client w); [|discriminate]. now intros [= <-].
Qed.

(** The shape of every successful cohort result. *)
Lemma cohort_success_form (data : Request.t) (w w' : world)
    (cohort_id : string) (average_risk_score : Q) (high_risk_users total_users : nat)
    (risk_trend : string) (recommendations : list string) :
  calculate_cohort_risk data w
  = (Return (CohortSuccess cohort_id average_risk_score high_risk_users total_users
                           risk_trend recommendations), w') ->
  exists org_id scores wl,
    Request.cohort_id data = Some cohort_id /\ Request.org_id data = Some org_id
    /\ scores = succeeded_scores org_id (Request.user_ids data) w
    /\ wl = after_loop org_id (Request.user_ids data) w
    /\ scores <> []
    /\ average_risk_score = Py.mean scores
    /\ high_risk_users = count_high_risk scores
    /\ total_users = length (Request.user_ids data)
    /\ recommendations
       = _generate_cohort_recommendations average_risk_score high_risk_users
                                          total_users risk_trend
    /\ redis_client wl = true
    /\ trend_read (history_read cohort_id wl) (Binary64.of_Q average_risk_score)
       = Return risk_trend
    /\ w' = set_redis_db
              (<[("cohort_risk:" +:+ cohort_id)%string :=
                   RString 86400
                     (cohort_risk_doc
                        (CohortRisk.mk cohort_id org_id average_risk_score high_risk_users
                                       total_users risk_trend recommendations
                                       (utcnow_at wl (ticks wl))))]> (redis_db wl))
              (set_ticks (S (ticks wl)) wl).
Proof.
  intros Hrun. unfold calculate_cohort_risk in Hrun.
  destruct (not_ (Request.cohort_id data) || not_ (Request.org_id data)) eqn:Hids;
    [discriminate Hrun|].
  apply orb_false_iff in Hids as [Hc Ho].
  apply not_false_inv in Hc as (c & Ec & _). apply not_false_inv in Ho as (o & Eo & _).
  rewrite Ec, Eo in Hrun. cbn [default from_option id] in Hrun.
  unfold mbind at 1, M_bind at 1 in Hrun. rewrite cohort_loop_run in Hrun.
  cbn [app] in Hrun.
  destruct (succeeded_scores o (Request.user_ids data) w) as [|score scores] eqn:Hs;
    [discriminate Hrun|].
  apply bind_Return_inv in Hrun as (trend' & w1 & Htrend & Hrun).
  apply calculate_risk_trend_inv in Htrend as (-> & Hredis & Htrend).
  apply bind_Return_inv in Hrun as (now & w2 & Hnow & Hrun).
  unfold utcnow in Hnow. injection Hnow as <- <-.
  apply bind_Return_inv in Hrun as ([] & w3 & Hstore & Hrun).
  apply store_cohort_risk_inv in Hstore.
  unfold mret, M_ret in Hrun.
  injection Hrun as <- <- <- <- <- <- <-.
  exists o, (score :: scores), (after_loop o (Request.user_ids data) w).
  cbn [CohortRisk.cohort_id redis_db set_ticks] in Hstore.
  repeat (split; [first [reflexivity | assumption | (symmetry; assumption) | discriminate]|]).
  exact Hstore.
Qed.

(** What the loop over the users leaves alone. *)
Lemma store_user_risk_score_client (risk_score : RiskScore.t) (w : world) :
  redis_client (_store_user_risk_score risk_score w).2 = redis_client w.
Proof.
  unfold _store_user_risk_score, mbind, M_bind, get_redis_client, redis.setex, redis.zadd.
  destruct (redis_client w) eqn:Hc; [|exact Hc].
  cbn [redis_db set_redis_db].
  match goal with
  | |- context [match ?x with _ => _ end] => destruct x as [[| |z]|]
  end; cbn [snd redis_client set_redis_db]; exact Hc.
Qed.

Lemma calculate_user_risk_clients (data : Request.t) (w : world) :
  redis_client (calculate_user_risk data w).2 = redis_client w
  /\ nats_published (calculate_user_risk data w).2 = nats_published w.
Proof.
  destruct (not_ (Request.user_id data) || not_ (Request.org_id data)) eqn:Hids.
  { rewrite (calculate_user_risk_invalid _ _ Hids). auto. }
  destruct (clickhouse_client w) eqn:Hc.
  2:{ rewrite (calculate_user_risk_no_clickhouse _ _ Hids Hc). auto. }
  destruct (calculate_user_risk_valid _ _ Hids Hc) as (u & o & Eu & Eo & Hv).
  rewrite Hv.
  destruct (redis_client_at_store u o (S (S (S (ticks w)))) w) as (Hcl & _ & Hnp).
  pose proof (store_user_risk_score_client (risk_score_in u o w)
                (set_ticks (S (S (S (ticks w)))) (after_metrics u o w))) as Hs.
  pose proof (store_user_risk_score_nats (risk_score_in u o w)
                (set_ticks (S (S (S (ticks w)))) (after_metrics u o w))) as Hn.
  rewrite Hcl in Hs. rewrite Hnp in Hn.
  destruct (_store_user_risk_score _ _) as [[[]|e1] w1]; cbn [snd] in *; auto.
Qed.

Lemma calculate_user_risk_returns_redis (data : Request.t) (w w' : world) (r : UserRisk.t) :
  calculate_user_risk data w = (Return r, w') -> redis_client w = true.
Proof.
  intros Hrun.
  destruct (not_ (Request.user_id data) || not_ (Request.org_id data)) eqn:Hids.
  { rewrite (calculate_user_risk_invalid _ _ Hids) in Hrun. discriminate Hrun. }
  destruct (clickhouse_client w) eqn:Hc.
  2:{ rewrite (calculate_user_risk_no_clickhouse _ _ Hids Hc) in Hrun.
      discriminate Hrun. }
  destruct (calculate_user_risk_valid _ _ Hids Hc) as (u & o & Eu & Eo & Hv).
  rewrite Hv in Hrun.
  destruct (redis_client_at_store u o (S (S (S (ticks w)))) w) as (Hcl & _ & _).
  destruct (redis_client w) eqn:Hr; [reflexivity|].
  rewrite (store_user_risk_score_no_redis _ _ Hcl) in Hrun. discriminate Hrun.
Qed.

Lemma after_loop_clients (org_id : string) (user_ids : list string) (w : world) :
  redis_client (after_loop org_id user_ids w) = redis_client w
  /\ nats_published (after_loop org_id user_ids w) = nats_published w.
Proof.
  revert w. induction user_ids as [|user_id rest IH]; intros w; cbn [after_loop].
  - auto.
  - destruct (calculate_user_risk_clients
                (Request.mk (Some user_id) (Some org_id) None []) w) as [Hc Hn].
    destruct (calculate_user_risk _ w) as [[r|e] w1]; cbn [snd] in Hc, Hn.
    + destruct (IH w1) as [-> ->]. auto.
    + match goal with |- context [after_loop _ _ ?w2] => destruct (IH w2) as [-> ->] end.
      cbn [logger snd redis_client nats_published set_log]. auto.
Qed.

Lemma succeeded_scores_redis (org_id : string) (user_ids : list string) (w : world) :
  succeeded_scores org_id user_ids w <> [] -> redis_client w = true.
Proof.
  revert w. induction user_ids as [|user_id rest IH]; intros w; cbn [succeeded_scores].
  - congruence.
  - destruct (calculate_user_risk_clients
                (Request.mk (Some user_id) (Some org_id) None []) w) as [Hc _].
    destruct (calculate_user_risk _ w) as [[r|e] w1] eqn:Hrun; cbn [snd] in Hc.
    + intros _. apply (calculate_user_risk_returns_redis _ _ _ _ Hrun).
    + intros H. apply IH in H.
      cbn [logger snd redis_client set_log] in H. congruence.
Qed.

Lemma after_loop_history (cohort_id org_id : string) (user_ids : list string) (w : world) :
  history_of cohort_id (after_loop org_id user_ids w) = history_of cohort_id w.
Proof.
  pose proof (preserves_cohort_loop org_id user_ids [] w cohort_id) as H.
  rewrite cohort_loop_run in H. exact H.
Qed.

Lemma after_loop_history_read (cohort_id org_id : string) (user_ids : list string)
    (w : world) :
  history_read cohort_id (after_loop org_id user_ids w) = history_read cohort_id w.
Proof. unfold history_read. now rewrite after_loop_history. Qed.

(** Without high-risk users two of the four rules cannot fire. *)
Lemma cohort_recommendations_no_high (avg_risk : Q) (total_users : nat) (trend : string) :
  _generate_cohort_recommendations avg_risk 0 total_users trend
  = (if Py.gtb avg_risk 60
     then ["Increase phishing simulation frequency"%string] else [])
    ++ (if String.eqb trend "declining"
        then ["Review and update security training content"%string;
              "Conduct security culture assessment"%string] else []).
Proof.
  unfold _generate_cohort_recommendations.
  assert (H : Py.gtb (if (0 <? total_users)%nat
                      then inject_Z (Z.of_nat 0) / inject_Z (Z.of_nat total_users) * 100
                      else 0) 25 = false).
  { apply not_true_iff_false. intros H. apply ltb_spec in H.
    destruct (0 <? total_users)%nat; [|lra].
    change (inject_Z (Z.of_nat 0)) with 0 in H.
    assert (E : 0 / inject_Z (Z.of_nat total_users) * 100 == 0).
    { unfold Qdiv. ring. }
    rewrite E in H. lra. }
  rewrite H. cbn [Nat.ltb Nat.leb app]. now rewrite app_nil_r.
Qed.

(** Bounds and recommendations of a successful cohort result. *)
Lemma cohort_success_bounds (data : Request.t) (w w' : world)
    (cohort_id : string) (average_risk_score : Q) (high_risk_users total_users : nat)
    (risk_trend : string) (recommendations : list string) :
  calculate_cohort_risk data w
  = (Return (CohortSuccess cohort_id average_risk_score high_risk_users total_users
                           risk_trend recommendations), w') ->
  0 <= average_risk_score <= 65 /\ high_risk_users = 0%nat /\ (1 <= total_users)%nat
  /\ recommendations
     = (if Py.gtb average_risk_score 60
        then ["Increase phishing simulation frequency"%string] else [])
       ++ (if String.eqb risk_trend "declining"
           then ["Review and update security training content"%string;
                 "Conduct security culture assessment"%string] else [])
  /\ trend_read (history_read cohort_id w) (Binary64.of_Q average_risk_score)
     = Return risk_trend.
Proof.
  intros Hrun.
  destruct (cohort_success_form _ _ _ _ _ _ _ _ _ Hrun)
    as (o & scores & wl & _ & _ & Hs & Hwl & Hne & Havg & Hhigh & Htotal & Hrecs
        & _ & Htrend & _).
  pose proof (succeeded_scores_range o (Request.user_ids data) w) as Hrange.
  pose proof (succeeded_scores_length o (Request.user_ids data) w) as Hlen.
  rewrite <- Hs in Hrange, Hlen.
  assert (Hzero : high_risk_users = 0%nat).
  { rewrite Hhigh. now apply count_high_risk_none. }
  split; [rewrite Havg; now apply mean_bounds|].
  split; [exact Hzero|].
  split; [rewrite Htotal; destruct scores; [congruence | cbn [length] in Hlen; lia]|].
  split.
  - rewrite Hrecs, Hzero. apply cohort_recommendations_no_high.
  - rewrite <- Htrend, Hwl. now rewrite after_loop_history_read.
Qed.

(** X16: every successful cohort result reports an average between 0 and
    65, no high-risk user and at least one user: the per-user scores stay
    below the [high] threshold of 75, so the count of users at or above it
    is always 0. *)
Theorem X16_cohort_result_bounds (data : Request.t) (w w' : world)
    (cohort_id : string) (average_risk_score : Q) (high_risk_users total_users : nat)
    (risk_trend : string) (recommendations : list string) :
  calculate_cohort_risk data w
  = (Return (CohortSuccess cohort_id average_risk_score high_risk_users total_users
                           risk_trend recommendations), w') ->
  0 <= average_risk_score <= 65 /\ high_risk_users = 0%nat /\ (1 <= total_users)%nat.
Proof.
  intros Hrun.
  destruct (cohort_success_bounds _ _ _ _ _ _ _ _ _ Hrun) as (Ha & Hh & Ht & _).
  auto.
Qed.

(** The cohort of [alice] and [bob] in the busy world. *)
Lemma X16_cohort_result_witness :
  exists cohort_id average_risk_score high_risk_users total_users risk_trend
         recommendations,
    (calculate_cohort_risk (cohort_request "c1" "acme" ["alice"; "bob"]%string)
                           busy_world).1
    = Return (CohortSuccess cohort_id average_risk_score high_risk_users total_users
                            risk_trend recommendations)
    /\ 0 <= average_risk_score <= 65 /\ high_risk_users = 0%nat.
Proof.
  assert (Hrun : exists c a h t tr rs,
             (calculate_cohort_risk (cohort_request "c1" "acme" ["alice"; "bob"]%string)
                                    busy_world).1
             = Return (CohortSuccess c a h t tr rs)).
  { do 6 eexists. vm_compute. reflexivity. }
  destruct Hrun as (c & a & h & t & tr & rs & Hr).
  exists c, a, h, t, tr, rs. split; [exact Hr|].
  apply run_pair in Hr.
  destruct (X16_cohort_result_bounds _ _ _ _ _ _ _ _ _ Hr) as (Ha & Hh & _).
  split; [exact Ha | exact Hh].
Defined.

(** X17: the recommendations of a successful cohort result are among three,
    in rule order: more frequent simulations exactly when the average
    exceeds 60, the content review and the culture assessment exactly when
    the trend is [declining]; the organisation-wide campaign and the
    targeted program for high-risk users are never recommended. *)
Theorem X17_cohort_recommendations (data : Request.t) (w w' : world)
    (cohort_id : string) (average_risk_score : Q) (high_risk_users total_users : nat)
    (risk_trend : string) (recommendations : list string) :
  calculate_cohort_risk data w
  = (Return (CohortSuccess cohort_id average_risk_score high_risk_users total_users
                           risk_trend recommendations), w') ->
  sublist recommendations plain_cohort_recommendations
  /\ ("Increase phishing simulation frequency"%string ∈ recommendations
      <-> 60 < average_risk_score)
  /\ ("Review and update security training content"%string ∈ recommendations
      <-> risk_trend = "declining"%string)
  /\ ("Implement organization-wide security awareness campaign"%string
      ∉ recommendations)
  /\ ("Create targeted training program for high-risk users"%string
      ∉ recommendations).
Proof.
  intros Hrun.
  destruct (cohort_success_bounds _ _ _ _ _ _ _ _ _ Hrun) as (_ & _ & _ & -> & _).
  assert (Hgt : Py.gtb average_risk_score 60 = true <-> 60 < average_risk_score)
    by apply ltb_spec.
  assert (Hsub : forall b1 b2 : bool,
             sublist
               ((if b1 then ["Increase phishing simulation frequency"%string] else [])
                ++ (if b2 then ["Review and update security training content"%string;
                                "Conduct security culture assessment"%string] else []))
               plain_cohort_recommendations).
  { intros [] []; cbn [app]; unfold plain_cohort_recommendations;
      repeat first [apply sublist_nil | apply sublist_skip | apply sublist_cons]. }
  assert (Hnot : forall (s : string) (b1 b2 : bool),
             s ∉ plain_cohort_recommendations ->
             s ∉ (if b1 then ["Increase phishing simulation frequency"%string] else [])
                 ++ (if b2 then ["Review and update security training content"%string;
                                 "Conduct security culture assessment"%string] else [])).
  { intros s b1 b2 Hs Hin. apply Hs. eapply elem_of_sublist; [exact Hin | apply Hsub]. }
  split; [apply Hsub|]. split; [|split; [|split]].
  - rewrite <- Hgt.
    destruct (Py.gtb average_risk_score 60), (String.eqb risk_trend "declining");
      cbn [app]; split; intros H; try reflexivity; try discriminate H;
      try (repeat (apply elem_of_cons in H as [H|H]; [discriminate H|]);
           now apply elem_of_nil in H);
      apply list_elem_of_here.
  - rewrite <- String.eqb_eq.
    destruct (Py.gtb average_risk_score 60), (String.eqb risk_trend "declining");
      cbn [app]; split; intros H; try reflexivity; try discriminate H;
      try (repeat (apply elem_of_cons in H as [H|H]; [discriminate H|]);
           now apply elem_of_nil in H);
      repeat first [apply list_elem_of_here | apply list_elem_of_further].
  - apply Hnot. unfold plain_cohort_recommendations. intros H.
    repeat (apply elem_of_cons in H as [H|H]; [discriminate H|]).
    now apply elem_of_nil in H.
  - apply Hnot. unfold plain_cohort_recommendations. intros H.
    repeat (apply elem_of_cons in H as [H|H]; [discriminate H|]).
    now apply elem_of_nil in H.
Qed.

(** The cohort of [alice] and [bob] gets no organisation-wide campaign. *)
Lemma X17_cohort_recommendations_witness :
  exists cohort_id average_risk_score high_risk_users total_users risk_trend
         recommendations,
    (calculate_cohort_risk (cohort_request "c1" "acme" ["alice"; "bob"]%string)
                           busy_world).1
    = Return (CohortSuccess cohort_id average_risk_score high_risk_users total_users
                            risk_trend recommendations)
    /\ sublist recommendations plain_cohort_recommendations.
Proof.
  assert (Hrun : exists c a h t tr rs,
             (calculate_cohort_risk (cohort_request "c1" "acme" ["alice"; "bob"]%string)
                                    busy_world).1
             = Return (CohortSuccess c a h t tr rs)).
  { do 6 eexists. vm_compute. reflexivity. }
  destruct Hrun as (c & a & h & t & tr & rs & Hr).
  exists c, a, h, t, tr, rs. split; [exact Hr|].
  apply run_pair in Hr.
  destruct (X17_cohort_recommendations _ _ _ _ _ _ _ _ _ Hr) as (Hs & _).
  exact Hs.
Defined.

(** X18: the trend of a successful cohort result is computed from the
    history as stored before the call, the user evaluations of the call not
    touching it, and from the average taken as a double; with fewer than
    two stored averages, or none, the trend is [stable] and the only
    recommendation possible is the more frequent simulation. *)
Theorem X18_cohort_trend_from_stored_history (data : Request.t) (w w' : world)
    (cohort_id : string) (average_risk_score : Q) (high_risk_users total_users : nat)
    (risk_trend : string) (recommendations : list string) :
  calculate_cohort_risk data w
  = (Return (CohortSuccess cohort_id average_risk_score high_risk_users total_users
                           risk_trend recommendations), w') ->
  trend_read (history_read cohort_id w) (Binary64.of_Q average_risk_score)
  = Return risk_trend
  /\ ((length (history_read cohort_id w) < 2)%nat ->
      risk_trend = "stable"%string
      /\ sublist recommendations ["Increase phishing simulation frequency"%string]).
Proof.
  intros Hrun.
  destruct (cohort_success_bounds _ _ _ _ _ _ _ _ _ Hrun) as (_ & _ & _ & -> & Htrend).
  split; [exact Htrend|]. intros Hlen.
  assert (Hstable : risk_trend = "stable"%string).
  { unfold trend_read in Htrend. apply Nat.ltb_lt in Hlen. rewrite Hlen in Htrend.
    now injection Htrend as <-. }
  split; [exact Hstable|]. rewrite Hstable.
  change (String.eqb "stable" "declining") with false.
  rewrite app_nil_r. destruct (Py.gtb average_risk_score 60).
  - reflexivity.
  - apply sublist_nil_l.
Qed.

(** The busy world stores no history for [c1]: the trend is [stable]. *)
Lemma X18_cohort_trend_witness :
  exists cohort_id average_risk_score high_risk_users total_users risk_trend
         recommendations,
    (calculate_cohort_risk (cohort_request "c1" "acme" ["alice"; "bob"]%string)
                           busy_world).1
    = Return (CohortSuccess cohort_id average_risk_score high_risk_users total_users
                            risk_trend recommendations)
    /\ trend_read (history_read cohort_id busy_world)
                  (Binary64.of_Q average_risk_score)
       = Return risk_trend.
Proof.
  assert (Hrun : exists c a h t tr rs,
             (calculate_cohort_risk (cohort_request "c1" "acme" ["alice"; "bob"]%string)
                                    busy_world).1
             = Return (CohortSuccess c a h t tr rs)).
  { do 6 eexists. vm_compute. reflexivity. }
  destruct Hrun as (c & a & h & t & tr & rs & Hr).
  exists c, a, h, t, tr, rs. split; [exact Hr|].
  apply run_pair in Hr.
  destruct (X18_cohort_trend_from_stored_history _ _ _ _ _ _ _ _ _ Hr) as (Ht & _).
  exact Ht.
Defined.

(** X19: a successful cohort computation leaves under [cohort_risk:<id>] a
    snapshot with a time to live of 86400 seconds that carries exactly the
    fields of the returned result together with the organisation of the
    request, and it publishes nothing on the message bus. *)
Theorem X19_cohort_snapshot_stored (data : Request.t) (w w' : world)
    (cohort_id : string) (average_risk_score : Q) (high_risk_users total_users : nat)
    (risk_trend : string) (recommendations : list string) :
  calculate_cohort_risk data w
  = (Return (CohortSuccess cohort_id average_risk_score high_risk_users total_users
                           risk_trend recommendations), w') ->
  exists org_id last_updated,
    Request.cohort_id data = Some cohort_id /\ Request.org_id data = Some org_id
    /\ redis_db w' !! ("cohort_risk:" +:+ cohort_id)%string
       = Some (RString 86400
                 (cohort_risk_doc
                    (CohortRisk.mk cohort_id org_id average_risk_score high_risk_users
                                   total_users risk_trend recommendations last_updated)))
    /\ nats_published w' = nats_published w.
Proof.
  intros Hrun.
  destruct (cohort_success_form _ _ _ _ _ _ _ _ _ Hrun)
    as (o & scores & wl & Ec & Eo & _ & Hwl & _ & _ & _ & _ & _ & _ & _ & Hw').
  exists o, (utcnow_at wl (ticks wl)).
  split; [exact Ec|]. split; [exact Eo|].
  rewrite Hw'. cbn [redis_db nats_published set_redis_db set_ticks].
  split; [apply lookup_insert_eq|].
  rewrite Hwl. apply after_loop_clients.
Qed.

(** The snapshot of the cohort of [alice] and [bob]. *)
Lemma X19_cohort_snapshot_witness :
  exists doc,
    redis_db (calculate_cohort_risk (cohort_request "c1" "acme" ["alice"; "bob"]%string)
                                    busy_world).2
    !! "cohort_risk:c1"%string = Some (RString 86400 (cohort_risk_doc doc))
    /\ CohortRisk.total_users doc = 2%nat.
Proof.
  assert (Hrun : exists c a h tr rs,
             (calculate_cohort_risk (cohort_request "c1" "acme" ["alice"; "bob"]%string)
                                    busy_world).1
             = Return (CohortSuccess c a h 2 tr rs)).
  { do 5 eexists. vm_compute. reflexivity. }
  destruct Hrun as (c & a & h & tr & rs & Hr).
  apply run_pair in Hr.
  destruct (X19_cohort_snapshot_stored _ _ _ _ _ _ _ _ _ Hr)
    as (o & t & Ec & _ & Hdb & _).
  injection Ec as <-.
  eexists. split; [exact Hdb | reflexivity].
Defined.

Lemma trend_read_returns (history : list entry) (current_avg : float) :
  (exists trend, trend_read history current_avg = Return trend)
  <-> (length history <? 2)%nat
      || match floats history with
         | Return _ => true
         | Raise _ => false
         end = true.
Proof.
  unfold trend_read. destruct (length history <? 2)%nat; cbn [orb].
  - split; eauto.
  - destruct (floats history) as [scores|e]; split; eauto.
    + intros [trend H]. discriminate H.
    + discriminate.
Qed.

(** The run of [calculate_cohort_risk] once some user has a score. *)
Lemma calculate_cohort_risk_scored (data : Request.t) (w : world)
    (cohort_id org_id : string) (score : Q) (scores : list Q) :
  not_ (Request.cohort_id data) || not_ (Request.org_id data) = false ->
  Request.cohort_id data = Some cohort_id -> Request.org_id data = Some org_id ->
  succeeded_scores org_id (Request.user_ids data) w = score :: scores ->
  (history_readable cohort_id w = false ->
   calculate_cohort_risk data w
   = (Raise redis.wrongtype, after_loop org_id (Request.user_ids data) w))
  /\ (history_readable cohort_id w = true ->
      match trend_read (history_read cohort_id w)
                       (Binary64.of_Q (Py.mean (score :: scores))) with
      | Return _ =>
          exists r w', calculate_cohort_risk data w = (Return r, w') /\ success r = true
      | Raise e =>
          calculate_cohort_risk data w
          = (Raise e, after_loop org_id (Request.user_ids data) w)
      end).
Proof.
  intros Hids Ec Eo Hs.
  assert (Hredis : redis_client (after_loop org_id (Request.user_ids data) w) = true).
  { rewrite (proj1 (after_loop_clients _ _ _)).
    apply (succeeded_scores_redis org_id (Request.user_ids data)). rewrite Hs. discriminate. }
  assert (Hrun : calculate_cohort_risk data w
                 = match _calculate_risk_trend cohort_id org_id
                           (Binary64.of_Q (Py.mean (score :: scores)))
                           (after_loop org_id (Request.user_ids data) w) with
                   | (Return risk_trend, w1) =>
                       (Return (CohortSuccess cohort_id (Py.mean (score :: scores))
                                  (count_high_risk (score :: scores))
                                  (length (Request.user_ids data)) risk_trend
                                  (_generate_cohort_recommendations
                                     (Py.mean (score :: scores))
                                     (count_high_risk (score :: scores))
                                     (length (Request.user_ids data)) risk_trend)),
                        (_store_cohort_risk
                           (CohortRisk.mk cohort_id org_id (Py.mean (score :: scores))
                              (count_high_risk (score :: scores))
                              (length (Request.user_ids data)) risk_trend
                              (_generate_cohort_recommendations
                                 (Py.mean (score :: scores))
                                 (count_high_risk (score :: scores))
                                 (length (Request.user_ids data)) risk_trend)
                              (utcnow_at w1 (ticks w1)))
                           (set_ticks (S (ticks w1)) w1)).2)
                   | (Raise e, w1) => (Raise e, w1)
                   end).
  { unfold calculate_cohort_risk. rewrite Hids, Ec, Eo. cbn [default from_option id].
    unfold mbind at 1, M_bind at 1. rewrite cohort_loop_run. cbn [app]. rewrite Hs.
    unfold mbind at 1, M_bind at 1.
    rewrite (calculate_risk_trend_run _ _ _ _ Hredis).
    destruct (history_of cohort_id (after_loop org_id (Request.user_ids data) w))
      as [[|l|]|]; try reflexivity.
    - destruct (trend_read (take 5 l) _); [|reflexivity].
      unfold _store_cohort_risk, utcnow, mbind, M_bind, get_redis_client, redis.setex,
        mret, M_ret. cbn [redis_client set_ticks]. now rewrite Hredis.
    - destruct (trend_read [] _); [|reflexivity].
      unfold _store_cohort_risk, utcnow, mbind, M_bind, get_redis_client, redis.setex,
        mret, M_ret. cbn [redis_client set_ticks]. now rewrite Hredis. }
  rewrite Hrun, (calculate_risk_trend_run _ _ _ _ Hredis), after_loop_history.
  unfold history_readable, history_read.
  destruct (history_of cohort_id w) as [[|l|]|]; (split; intros H; try discriminate H);
    try reflexivity;
    match goal with
    | |- context [trend_read ?h ?a] => destruct (trend_read h a); [eauto | reflexivity]
    end.
Qed.

(** X20: a cohort computation returns (rather than raises) exactly when
    both identifiers are given and either no user yields a score or the
    trend step can read and use the history of the cohort: the key is free
    or holds a list, and of its first five entries there are fewer than two
    or all are numbers. Missing clients and failing queries make users
    fail but never make the cohort call raise. *)
Theorem X20_cohort_risk_returns_iff (data : Request.t) (w : world) :
  (exists r w', calculate_cohort_risk data w = (Return r, w'))
  <-> (not_ (Request.cohort_id data) || not_ (Request.org_id data) = false
       /\ (succeeded_scores (default ""%string (Request.org_id data))
                            (Request.user_ids data) w = []
           \/ (history_readable (default ""%string (Request.cohort_id data)) w = true
               /\ history_usable (default ""%string (Request.cohort_id data)) w = true))).
Proof.
  destruct (not_ (Request.cohort_id data) || not_ (Request.org_id data)) eqn:Hids.
  { split.
    - intros (r & w' & Hrun). unfold calculate_cohort_risk in Hrun.
      rewrite Hids in Hrun. discriminate Hrun.
    - intros [H _]. discriminate H. }
  pose proof Hids as Hids'. apply orb_false_iff in Hids' as [Hc Ho].
  apply not_false_inv in Hc as (c & Ec & _). apply not_false_inv in Ho as (o & Eo & _).
  rewrite Ec, Eo. cbn [default from_option id].
  destruct (succeeded_scores o (Request.user_ids data) w) as [|score scores] eqn:Hs.
  - split; [auto|]. intros _.
    unfold calculate_cohort_risk. rewrite Hids, Eo. cbn [default from_option id].
    unfold mbind at 1, M_bind at 1. rewrite cohort_loop_run, Hs. cbn [app]. eauto.
  - destruct (calculate_cohort_risk_scored data w c o score scores Hids Ec Eo Hs)
      as [Hbad Hok].
    pose proof (trend_read_returns (history_read c w)
                  (Binary64.of_Q (Py.mean (score :: scores)))) as Huse.
    fold (history_usable c w) in Huse.
    split.
    + intros (r & w' & Hrun). split; [reflexivity|]. right.
      destruct (history_readable c w).
      2:{ rewrite (Hbad eq_refl) in Hrun. discriminate Hrun. }
      split; [reflexivity|]. apply Huse. specialize (Hok eq_refl).
      destruct (trend_read _ _) as [trend|e]; [eauto|].
      rewrite Hok in Hrun. discriminate Hrun.
    + intros [_ [H|[Hr Hu]]]; [discriminate H|].
      specialize (Hok Hr). apply Huse in Hu as [trend Hu]. rewrite Hu in Hok.
      destruct Hok as (r & w' & Hrun & _). eauto.
Qed.

(** X21: when some user got a score and the history key of the cohort
    holds something other than a list, the cohort computation raises the
    WRONGTYPE error of the store after the loop over the users: the user
    scores of the call stay stored, no cohort snapshot is written. *)
Theorem X21_cohort_history_wrong_type (data : Request.t) (w : world) :
  not_ (Request.cohort_id data) || not_ (Request.org_id data) = false ->
  succeeded_scores (default ""%string (Request.org_id data)) (Request.user_ids data) w
  <> [] ->
  history_readable (default ""%string (Request.cohort_id data)) w = false ->
  calculate_cohort_risk data w
  = (Raise redis.wrongtype,
     after_loop (default ""%string (Request.org_id data)) (Request.user_ids data) w).
Proof.
  intros Hids Hs Hbad.
  pose proof Hids as Hids'. apply orb_false_iff in Hids' as [Hc Ho].
  apply not_false_inv in Hc as (c & Ec & _). apply not_false_inv in Ho as (o & Eo & _).
  rewrite Eo in Hs |- *. rewrite Ec in Hbad.
  cbn [default from_option id] in Hs, Hbad |- *.
  destruct (succeeded_scores o (Request.user_ids data) w) as [|score scores] eqn:Hs';
    [congruence|].
  apply (calculate_cohort_risk_scored data w c o score scores Hids Ec Eo Hs'), Hbad.
Qed.

(** A cohort whose history key holds a snapshot instead of a list. *)
Lemma X21_cohort_history_witness :
  (calculate_cohort_risk (cohort_request "c1" "acme" ["alice"]%string)
                         world_with_bad_history).1
  = Raise redis.wrongtype.
Proof.
  assert (H1 : not_ (Request.cohort_id (cohort_request "c1" "acme" ["alice"]%string))
               || not_ (Request.org_id (cohort_request "c1" "acme" ["alice"]%string))
               = false) by reflexivity.
  assert (H2 : succeeded_scores
                 (default ""%string
                    (Request.org_id (cohort_request "c1" "acme" ["alice"]%string)))
                 (Request.user_ids (cohort_request "c1" "acme" ["alice"]%string))
                 world_with_bad_history <> []).
  { intros H. apply (f_equal (@length Q)) in H. vm_compute in H. discriminate H. }
  assert (H3 : history_readable
                 (default ""%string
                    (Request.cohort_id (cohort_request "c1" "acme" ["alice"]%string)))
                 world_with_bad_history = false) by (vm_compute; reflexivity).
  rewrite (X21_cohort_history_wrong_type _ _ H1 H2 H3). reflexivity.
Defined.

(** ** Recommendations from a stored snapshot *)

Lemma geb_spec (a b : Q) : Py.geb a b = true <-> b <= a.
Proof. unfold Py.geb. apply Qle_bool_iff. Qed.

Lemma geb_false (a b : Q) : Py.geb a b = false <-> a < b.
Proof.
  unfold Py.geb. split.
  - apply Qle_bool_false.
  - intros H. destruct (Qle_bool b a) eqn:E; [|reflexivity].
    apply Qle_bool_iff in E. lra.
Qed.

Lemma get_risk_recommendations_run (data : Request.t) (w : world) :
  get_risk_recommendations data w
  = if redis_client w then
      match redis_db w !! ("cohort_risk:" +:+ fstr (Request.cohort_id data))%string with
      | None | Some (RString _ empty_text) =>
          (Return (RecommendationsFailure "Cohort risk data not found"), w)
      | Some (RString _ (not_json message)) => (Raise (ValueError message), w)
      | Some (RString _ cohort_risk) =>
          (Return (RecommendationsSuccess
                     (Recommendations.mk (_recommend_campaign_frequency cohort_risk)
                                         (_recommend_difficulty_level cohort_risk)
                                         (_recommend_target_users cohort_risk)
                                         (_recommend_training_focus cohort_risk))
                     cohort_risk), w)
      | Some _ => (Raise redis.wrongtype, w)
      end
    else (Raise (RuntimeError "Redis client not initialized"), w).
Proof.
  unfold get_risk_recommendations, mbind, M_bind, get_redis_client, redis_get, mret, M_ret,
    raise.
  destruct (redis_client w); [|reflexivity].
  now destruct (redis_db w !! _) as [[ttl [| | | |]| |]|].
Qed.

(** X22: [get_risk_recommendations] only reads: whatever the request and
    the store, the world is left as it was. It validates nothing: the
    snapshot key is built from the printed [cohort_id] ([None] when
    missing). It returns the failure [Cohort risk data not found] exactly
    when the Redis client exists and the key is free or holds the empty
    string; a text that [json.loads] rejects makes it raise that error; a
    success hands back what the key holds as the summary, and every
    document the worker stores gives a success. *)
Theorem X22_recommendations_read_only (data : Request.t) (w : world) :
  (get_risk_recommendations data w).2 = w
  /\ ((get_risk_recommendations data w).1
      = Return (RecommendationsFailure "Cohort risk data not found")
      <-> redis_client w = true
          /\ (redis_db w !! ("cohort_risk:" +:+ fstr (Request.cohort_id data))%string
              = None
              \/ exists ttl,
                  redis_db w !! ("cohort_risk:" +:+ fstr (Request.cohort_id data))%string
                  = Some (RString ttl empty_text)))
  /\ (forall recommendations summary,
         (get_risk_recommendations data w).1
         = Return (RecommendationsSuccess recommendations summary)
         -> exists ttl,
           redis_db w !! ("cohort_risk:" +:+ fstr (Request.cohort_id data))%string
           = Some (RString ttl summary))
  /\ (forall ttl message,
         redis_client w = true ->
         redis_db w !! ("cohort_risk:" +:+ fstr (Request.cohort_id data))%string
         = Some (RString ttl (not_json message)) ->
         (get_risk_recommendations data w).1 = Raise (ValueError message))
  /\ (forall ttl summary,
         redis_client w = true ->
         redis_db w !! ("cohort_risk:" +:+ fstr (Request.cohort_id data))%string
         = Some (RString ttl summary) ->
         summary <> empty_text -> (forall message, summary <> not_json message) ->
         exists recommendations,
           (get_risk_recommendations data w).1
           = Return (RecommendationsSuccess recommendations summary)).
Proof.
  rewrite get_risk_recommendations_run.
  destruct (redis_client w).
  - destruct (redis_db w !! _) as [[ttl doc|l|z]|]; cbn [fst snd].
    + destruct doc as [rd|cd|ad| |message]; cbn [fst snd];
        (split; [reflexivity|]);
        (split; [split; [first [discriminate | intros _; split; eauto]
                        | intros [_ [Hk|[t Hk]]];
                          first [discriminate Hk | reflexivity]]|]);
        (split; [intros r sm Hs; first [discriminate Hs | injection Hs as _ <-; eauto]|]);
        (split; [intros t m _ Hk; first [discriminate Hk | now injection Hk as _ <-]|]);
        intros t sm _ Hk Hne Hnj; injection Hk as _ <-;
        first [congruence | eauto | now destruct (Hnj message)].
    + split; [reflexivity|].
      split; [split; [discriminate | intros [_ [Hk|[t Hk]]]; discriminate Hk]|].
      split; [discriminate|]. split; intros; discriminate.
    + split; [reflexivity|].
      split; [split; [discriminate | intros [_ [Hk|[t Hk]]]; discriminate Hk]|].
      split; [discriminate|]. split; intros; discriminate.
    + split; [reflexivity|]. split; [split; auto|].
      split; [discriminate|]. split; intros; discriminate.
  - cbn [fst snd]. split; [reflexivity|].
    split; [split; [discriminate | intros [H _]; discriminate H]|].
    split; [discriminate|]. split; intros; discriminate.
Qed.

Lemma frequency_cases (cohort_risk : document) :
  (70 <= Loaded.average_risk_score cohort_risk
   /\ _recommend_campaign_frequency cohort_risk = "weekly"%string)
  \/ (50 <= Loaded.average_risk_score cohort_risk < 70
      /\ _recommend_campaign_frequency cohort_risk = "bi-weekly"%string)
  \/ (30 <= Loaded.average_risk_score cohort_risk < 50
      /\ _recommend_campaign_frequency cohort_risk = "monthly"%string)
  \/ (Loaded.average_risk_score cohort_risk < 30
      /\ _recommend_campaign_frequency cohort_risk = "quarterly"%string).
Proof.
  unfold _recommend_campaign_frequency, Py.geb. cbv zeta. case_cmp; auto 10.
Qed.

Lemma difficulty_cases (cohort_risk : document) :
  (60 <= Loaded.average_risk_score cohort_risk
   /\ _recommend_difficulty_level cohort_risk = "beginner"%string)
  \/ (40 <= Loaded.average_risk_score cohort_risk < 60
      /\ _recommend_difficulty_level cohort_risk = "intermediate"%string)
  \/ (Loaded.average_risk_score cohort_risk < 40
      /\ _recommend_difficulty_level cohort_risk = "advanced"%string).
Proof.
  unfold _recommend_difficulty_level, Py.geb. cbv zeta. case_cmp; auto 10.
Qed.

(** X23: the two recommenders that read the average agree with each other
    and are monotone: a higher stored average never gets a rarer campaign
    frequency nor a harder difficulty; [weekly] campaigns always come with
    the [beginner] difficulty and the [advanced] difficulty only with
    [monthly] or [quarterly] campaigns. *)
Theorem X23_frequency_and_difficulty (snapshot1 snapshot2 : document) :
  Loaded.average_risk_score snapshot1 <= Loaded.average_risk_score snapshot2 ->
  (frequency_rank (_recommend_campaign_frequency snapshot1)
   <= frequency_rank (_recommend_campaign_frequency snapshot2))%nat
  /\ (difficulty_rank (_recommend_difficulty_level snapshot1)
      <= difficulty_rank (_recommend_difficulty_level snapshot2))%nat
  /\ (_recommend_campaign_frequency snapshot1 = "weekly"%string ->
      _recommend_difficulty_level snapshot1 = "beginner"%string)
  /\ (_recommend_difficulty_level snapshot1 = "advanced"%string ->
      _recommend_campaign_frequency snapshot1 = "monthly"%string
      \/ _recommend_campaign_frequency snapshot1 = "quarterly"%string).
Proof.
  intros Hle.
  destruct (frequency_cases snapshot1) as [[? ->] | [[? ->] | [[? ->] | [? ->]]]];
    destruct (frequency_cases snapshot2) as [[? ->] | [[? ->] | [[? ->] | [? ->]]]];
    try lra;
    destruct (difficulty_cases snapshot1) as [[? ->] | [[? ->] | [? ->]]];
    try lra;
    destruct (difficulty_cases snapshot2) as [[? ->] | [[? ->] | [? ->]]];
    try lra;
    (split; [vm_compute; lia|]); (split; [vm_compute; lia|]);
    (split; [intros Heq; first [reflexivity | discriminate Heq]|]);
    intros Heq; first [discriminate Heq | left; reflexivity | right; reflexivity].
Qed.

(** A snapshot with average 35 and one with average 65. *)
Lemma X23_frequency_and_difficulty_witness :
  (frequency_rank
     (_recommend_campaign_frequency
        (cohort_risk_doc (CohortRisk.mk "c1" "acme" 35 0 4 "stable" [] 1700000000)))
   <= frequency_rank
        (_recommend_campaign_frequency
           (cohort_risk_doc (CohortRisk.mk "c1" "acme" 65 0 4 "stable" [] 1700000000))))%nat.
Proof.
  assert (H : Loaded.average_risk_score
                (cohort_risk_doc (CohortRisk.mk "c1" "acme" 35 0 4 "stable" [] 1700000000))
              <= Loaded.average_risk_score
                   (cohort_risk_doc
                      (CohortRisk.mk "c1" "acme" 65 0 4 "stable" [] 1700000000))).
  { cbn [Loaded.average_risk_score CohortRisk.average_risk_score]. lra. }
  destruct (X23_frequency_and_difficulty _ _ H) as [Hf _]. exact Hf.
Defined.

Lemma focus_step_cases (focus_areas : list string) (rec : string) :
  focus_step focus_areas rec = focus_areas
  \/ exists name, name ∈ focus_names /\ focus_step focus_areas rec = focus_areas ++ [name].
Proof.
  unfold focus_step, focus_names.
  destruct (contains "training" (lower rec)); [|now left].
  right. destruct (contains "phishing" (lower rec)).
  { eexists. split; [|reflexivity]. apply list_elem_of_here. }
  destruct (contains "reporting" (lower rec)).
  { eexists. split; [|reflexivity]. apply list_elem_of_further, list_elem_of_here. }
  eexists. split; [|reflexivity].
  apply list_elem_of_further, list_elem_of_further, list_elem_of_here.
Qed.

Lemma fold_focus_step (recommendations : list string) (focus_areas : list string) :
  Forall (fun name => name ∈ focus_names) focus_areas ->
  Forall (fun name => name ∈ focus_names) (fold_left focus_step recommendations focus_areas)
  /\ (length (fold_left focus_step recommendations focus_areas)
      <= length focus_areas + length recommendations)%nat.
Proof.
  revert focus_areas.
  induction recommendations as [|rec rest IH]; intros focus_areas Hall; cbn [fold_left].
  - split; [exact Hall | cbn [length]; lia].
  - destruct (focus_step_cases focus_areas rec) as [-> | (name & Hname & ->)].
    + destruct (IH focus_areas Hall) as [H1 H2]. split; [exact H1 | cbn [length]; lia].
    + assert (Hall' : Forall (fun name => name ∈ focus_names) (focus_areas ++ [name])).
      { apply Forall_app. split; [exact Hall|]. apply Forall_cons. split; [exact Hname|].
        apply Forall_nil. exact I. }
      destruct (IH _ Hall') as [H1 H2]. split; [exact H1|].
      rewrite length_app in H2. cbn [length] in *. lia.
Qed.

(** X24: whatever document the snapshot key holds, the training focus is
    never empty, names only the three focus areas, and has at most one
    entry per stored recommendation (one entry when there is none). *)
Theorem X24_training_focus_names (cohort_risk : document) :
  _recommend_training_focus cohort_risk <> []
  /\ Forall (fun name => name ∈ focus_names) (_recommend_training_focus cohort_risk)
  /\ (length (_recommend_training_focus cohort_risk)
      <= Nat.max 1 (length (Loaded.recommended_actions cohort_risk)))%nat.
Proof.
  unfold _recommend_training_focus. cbv zeta.
  destruct (fold_focus_step (Loaded.recommended_actions cohort_risk) [])
    as [Hall Hlen]; [apply Forall_nil; exact I|].
  destruct (fold_left focus_step (Loaded.recommended_actions cohort_risk) [])
    as [|name names].
  - split; [discriminate|]. split.
    + apply Forall_cons. split; [|apply Forall_nil; exact I].
      unfold focus_names. apply list_elem_of_further, list_elem_of_further, list_elem_of_here.
    + cbn [length]. lia.
  - split; [discriminate|]. split; [exact Hall|]. cbn [length] in *. lia.
Qed.

(** ** From a cohort computation to its recommendations *)

Lemma target_users_no_high (c : CohortRisk.t) :
  CohortRisk.high_risk_users c = 0%nat ->
  _recommend_target_users (cohort_risk_doc c) = ["all_users"%string].
Proof.
  intros H. unfold _recommend_target_users.
  cbn [Loaded.high_risk_users Loaded.total_users]. rewrite H.
  change (inject_Z (Z.of_nat 0)) with 0.
  assert (Hn : 0 <= inject_Z (Z.of_nat (CohortRisk.total_users c))).
  { change 0 with (inject_Z 0). rewrite <- Zle_Qle. lia. }
  assert (H3 : Py.gtb 0 (inject_Z (Z.of_nat (CohortRisk.total_users c)) * (3 # 10)) = false).
  { apply not_true_iff_false. intros E. apply ltb_spec in E. lra. }
  assert (H1 : Py.gtb 0 (inject_Z (Z.of_nat (CohortRisk.total_users c)) * (1 # 10)) = false).
  { apply not_true_iff_false. intros E. apply ltb_spec in E. lra. }
  cbv zeta. now rewrite H3, H1.
Qed.

Lemma training_focus_plain (c : CohortRisk.t) (b1 b2 : bool) :
  CohortRisk.recommended_actions c
  = (if b1 then ["Increase phishing simulation frequency"%string] else [])
    ++ (if b2 then ["Review and update security training content"%string;
                    "Conduct security culture assessment"%string] else []) ->
  _recommend_training_focus (cohort_risk_doc c) = ["general_security_awareness"%string].
Proof.
  intros H. unfold _recommend_training_focus. cbn [Loaded.recommended_actions].
  rewrite H. destruct b1, b2; vm_compute; reflexivity.
Qed.

(** X25: the recommendations read back for a cohort that has just been
    computed successfully: the summary is the stored snapshot with the
    fields of the result, the campaign frequency is never [weekly], the
    users to target are always [all_users] and the training focus is always
    [general_security_awareness] alone. *)
Theorem X25_recommendations_after_cohort (data : Request.t) (w w' : world)
    (cohort_id : string) (average_risk_score : Q) (high_risk_users total_users : nat)
    (risk_trend : string) (recommendations : list string) :
  calculate_cohort_risk data w
  = (Return (CohortSuccess cohort_id average_risk_score high_risk_users total_users
                           risk_trend recommendations), w') ->
  exists advice summary,
    get_risk_recommendations data w'
    = (Return (RecommendationsSuccess advice (cohort_risk_doc summary)), w')
    /\ CohortRisk.cohort_id summary = cohort_id
    /\ CohortRisk.average_risk_score summary = average_risk_score
    /\ CohortRisk.high_risk_users summary = high_risk_users
    /\ CohortRisk.total_users summary = total_users
    /\ CohortRisk.risk_trend summary = risk_trend
    /\ CohortRisk.recommended_actions summary = recommendations
    /\ Recommendations.campaign_frequency advice <> "weekly"%string
    /\ Recommendations.target_users advice = ["all_users"%string]
    /\ Recommendations.training_focus advice = ["general_security_awareness"%string].
Proof.
  intros Hrun.
  destruct (cohort_success_bounds _ _ _ _ _ _ _ _ _ Hrun)
    as ([_ Havg] & Hhigh & _ & Hrecs & _).
  destruct (cohort_success_form _ _ _ _ _ _ _ _ _ Hrun)
    as (o & scores & wl & Ec & _ & _ & _ & _ & _ & _ & _ & _ & Hredis & _ & Hw').
  set (summary := CohortRisk.mk cohort_id o average_risk_score high_risk_users
                                total_users risk_trend recommendations
                                (utcnow_at wl (ticks wl))) in *.
  assert (Hclient : redis_client w' = true).
  { rewrite Hw'. cbn [redis_client set_redis_db set_ticks]. exact Hredis. }
  assert (Hkey : redis_db w' !! ("cohort_risk:" +:+ fstr (Request.cohort_id data))%string
                 = Some (RString 86400 (cohort_risk_doc summary))).
  { rewrite Ec. cbn [fstr default from_option id]. rewrite Hw'.
    cbn [redis_db set_redis_db]. apply lookup_insert_eq. }
  exists (Recommendations.mk (_recommend_campaign_frequency (cohort_risk_doc summary))
                             (_recommend_difficulty_level (cohort_risk_doc summary))
                             (_recommend_target_users (cohort_risk_doc summary))
                             (_recommend_training_focus (cohort_risk_doc summary))),
    summary.
  split; [rewrite get_risk_recommendations_run, Hclient, Hkey; reflexivity|].
  do 6 (split; [reflexivity|]).
  cbn [Recommendations.campaign_frequency Recommendations.target_users
       Recommendations.training_focus].
  split; [|split].
  - destruct (frequency_cases (cohort_risk_doc summary))
      as [[H _] | [[_ ->] | [[_ ->] | [_ ->]]]]; try discriminate.
    cbn [Loaded.average_risk_score summary CohortRisk.average_risk_score] in H. lra.
  - apply target_users_no_high. exact Hhigh.
  - apply (training_focus_plain summary (Py.gtb average_risk_score 60)
                                (String.eqb risk_trend "declining")).
    exact Hrecs.
Qed.

(** The recommendations for the cohort of [alice] and [bob]. *)
Lemma X25_recommendations_after_cohort_witness :
  exists advice summary,
    (get_risk_recommendations
       (cohort_request "c1" "acme" ["alice"; "bob"]%string)
       (calculate_cohort_risk (cohort_request "c1" "acme" ["alice"; "bob"]%string)
                              busy_world).2).1
    = Return (RecommendationsSuccess advice summary)
    /\ Recommendations.target_users advice = ["all_users"%string].
Proof.
  assert (Hrun : exists c a h t tr rs,
             (calculate_cohort_risk (cohort_request "c1" "acme" ["alice"; "bob"]%string)
                                    busy_world).1
             = Return (CohortSuccess c a h t tr rs)).
  { do 6 eexists. vm_compute. reflexivity. }
  destruct Hrun as (c & a & h & t & tr & rs & Hr).
  apply run_pair in Hr.
  destruct (X25_recommendations_after_cohort _ _ _ _ _ _ _ _ _ Hr)
    as (advice & summary & Hget & _ & _ & _ & _ & _ & _ & _ & Ht & _).
  exists advice, (cohort_risk_doc summary).
  split; [rewrite Hget; reflexivity | exact Ht].
Defined.

(** ** The campaign trigger *)

Lemma rank_insert_perm (a : string * Q) (l : list (string * Q)) :
  rank_insert a l ≡ₚ a :: l.
Proof.
  induction l as [|b rest IH]; cbn [rank_insert]; [reflexivity|].
  destruct (ranks_before a b); [reflexivity|].
  rewrite IH. apply Permutation_swap.
Qed.

Lemma ranked_perm (z : gmap string Q) : ranked z ≡ₚ map_to_list z.
Proof.
  unfold ranked. induction (map_to_list z) as [|a l IH]; cbn [foldr]; [reflexivity|].
  now rewrite rank_insert_perm, IH.
Qed.

Lemma in_score_range_spec (min max : Q) (entry : string * Q) :
  in_score_range min max entry = true <-> min <= entry.2 <= max.
Proof.
  unfold in_score_range. rewrite andb_true_iff, geb_spec, Qle_bool_iff. reflexivity.
Qed.

Lemma members_in_range_spec (z : gmap string Q) (max min : Q) (member : string) :
  member ∈ members_in_range z max min
  <-> exists score, z !! member = Some score /\ min <= score <= max.
Proof.
  unfold members_in_range. rewrite list_elem_of_In, in_map_iff. split.
  - intros ([m score] & <- & Hin). apply filter_In in Hin as [Hin Hr].
    apply list_elem_of_In in Hin. rewrite ranked_perm in Hin.
    apply elem_of_map_to_list in Hin. apply in_score_range_spec in Hr.
    exists score. split; [exact Hin | exact Hr].
  - intros (score & Hz & Hr). exists (member, score). split; [reflexivity|].
    apply filter_In. split; [|now apply in_score_range_spec].
    apply list_elem_of_In. rewrite ranked_perm. now apply elem_of_map_to_list.
Qed.

Lemma filter_fst_sublist (f : string * Q -> bool) (l : list (string * Q)) :
  sublist (map fst (List.filter f l)) (map fst l).
Proof.
  induction l as [|a l IH]; cbn [List.filter map]; [apply sublist_nil|].
  destruct (f a); cbn [map]; [now apply sublist_skip | now apply sublist_cons].
Qed.

Lemma members_in_range_NoDup (z : gmap string Q) (max min : Q) :
  NoDup (members_in_range z max min).
Proof.
  unfold members_in_range.
  assert (H : map fst (ranked z) ≡ₚ map fst (map_to_list z)).
  { apply Permutation_map, ranked_perm. }
  assert (Hnd : NoDup (map fst (ranked z))).
  { rewrite H. apply (NoDup_fst_map_to_list z). }
  pose proof (filter_fst_sublist (in_score_range min max) (ranked z)) as Hsub.
  exact (sublist_NoDup _ _ Hnd Hsub).
Qed.

Lemma trigger_adaptive_campaign_run (data : RiskRequest.t) (s : service) :
  accepts_scores (fstr (Request.org_id (RiskRequest.body data))) (base s) = true ->
  trigger_adaptive_campaign data s
  = match high_risk_members (Request.org_id (RiskRequest.body data)) (base s) with
    | [] => (Return (CampaignNotTriggered "No high-risk users found"), s)
    | user :: users =>
        let campaign_data :=
          CampaignData.mk "create_adaptive_campaign"
                          (Request.org_id (RiskRequest.body data))
                          (user :: users) "email" "beginner" "high"
                          (default "high_risk_detected"%string
                                   (RiskRequest.trigger_reason data))
                          true in
        if nats_client (base s) then
          match nats_publish_error (base s) "campaign.schedule" with
          | None =>
              (Return (CampaignTriggered
                         ("Adaptive campaign triggered for "
                          +:+ fnat (length (user :: users)) +:+ " high-risk users")
                         (length (user :: users)) "email"),
               mk_service
                 (set_bus_log (bus_log (base s)
                               ++ [published_campaign "campaign.schedule" campaign_data])
                              (base s))
                 (campaigns_published s ++ [("campaign.schedule"%string, campaign_data)])
                 (replies s) (processed_count s) (error_count s))
          | Some e =>
              (Raise e,
               set_base (set_bus_log (bus_log (base s)
                                      ++ [publish_failed "campaign.schedule" e])
                                     (base s)) s)
          end
        else (Raise (RuntimeError "NATS client not initialized"), s)
    end.
Proof.
  intros Ha. unfold accepts_scores in Ha. apply andb_true_iff in Ha as [Hc Hk].
  unfold trigger_adaptive_campaign, high_risk_members, org_scores.
  unfold mbind, SM_bind, lift, get_redis_client, zrevrangebyscore.
  rewrite Hc. destruct s as [w cp rp pc ec]. cbn [base set_base] in *.
  destruct (redis_db w !! _) as [[| |z]|]; try discriminate Hk; cbn [base set_base].
  - destruct (members_in_range z 100 75) as [|user users]; [reflexivity|].
    unfold publish_campaign.
    cbn [base set_base campaigns_published replies processed_count error_count].
    destruct (nats_client w); [|reflexivity].
    change (Py.get TOPICS "campaign_schedule" "") with "campaign.schedule"%string.
    destruct (nats_publish_error w "campaign.schedule"); reflexivity.
  - assert (E : members_in_range ∅ 100 75 = []) by reflexivity.
    rewrite E. reflexivity.
Qed.

(** X26: the campaign trigger on a readable ranking. The users it finds
    are exactly the members whose stored score lies between 75 and 100,
    each once: a score above 100 is not targeted. With no such member it
    returns [No high-risk users found] and changes nothing. Otherwise it
    asks the NATS client to publish one [create_adaptive_campaign] body for
    those users on [campaign.schedule]: when that works it reports their
    number and leaves the store alone; when the client raises, the trigger
    raises the same exception and nothing is published; without the client
    it raises. *)
Theorem X26_adaptive_campaign_targets (data : RiskRequest.t) (s : service) :
  accepts_scores (fstr (Request.org_id (RiskRequest.body data))) (base s) = true ->
  let org_id := Request.org_id (RiskRequest.body data) in
  let found := high_risk_members org_id (base s) in
  let campaign_data :=
    CampaignData.mk "create_adaptive_campaign" org_id found "email" "beginner" "high"
                    (default "high_risk_detected"%string
                             (RiskRequest.trigger_reason data))
                    true in
  (forall member,
      member ∈ found
      <-> exists score,
          org_scores (fstr org_id) (base s) !! member = Some score /\ 75 <= score <= 100)
  /\ NoDup found
  /\ (found = [] ->
      trigger_adaptive_campaign data s
      = (Return (CampaignNotTriggered "No high-risk users found"), s))
  /\ (found <> [] -> nats_client (base s) = true ->
      nats_publish_error (base s) "campaign.schedule" = None ->
      exists s',
        trigger_adaptive_campaign data s
        = (Return (CampaignTriggered
                     ("Adaptive campaign triggered for " +:+ fnat (length found)
                      +:+ " high-risk users")
                     (length found) "email"), s')
        /\ campaigns_published s'
           = campaigns_published s ++ [("campaign.schedule"%string, campaign_data)]
        /\ bus_log (base s')
           = bus_log (base s) ++ [published_campaign "campaign.schedule" campaign_data]
        /\ redis_db (base s') = redis_db (base s)
        /\ nats_published (base s') = nats_published (base s))
  /\ (found <> [] -> nats_client (base s) = true ->
      forall e,
        nats_publish_error (base s) "campaign.schedule" = Some e ->
        exists s',
          trigger_adaptive_campaign data s = (Raise e, s')
          /\ campaigns_published s' = campaigns_published s
          /\ bus_log (base s')
             = bus_log (base s) ++ [publish_failed "campaign.schedule" e]
          /\ redis_db (base s') = redis_db (base s)
          /\ nats_published (base s') = nats_published (base s))
  /\ (found <> [] -> nats_client (base s) = false ->
      trigger_adaptive_campaign data s
      = (Raise (RuntimeError "NATS client not initialized"), s)).
Proof.
  intros Ha org_id found campaign_data.
  pose proof (trigger_adaptive_campaign_run data s Ha) as Hrun.
  fold org_id in Hrun. fold found in Hrun. subst campaign_data.
  split; [intros member; apply members_in_range_spec|].
  split; [apply members_in_range_NoDup|].
  destruct found as [|user users].
  - split; [intros _; exact Hrun|]. repeat split; intros H; congruence.
  - cbv zeta in Hrun. split; [discriminate|]. split; [|split].
    + intros _ Hn He. rewrite Hn, He in Hrun. eexists. split; [exact Hrun|].
      cbn [campaigns_published base bus_log redis_db nats_published set_bus_log]. auto.
    + intros _ Hn e He. rewrite Hn, He in Hrun. eexists. split; [exact Hrun|].
      destruct s as [w cp rp pc ec].
      cbn [campaigns_published base set_base bus_log redis_db nats_published
           set_bus_log]. auto.
    + intros _ Hn. rewrite Hn in Hrun. exact Hrun.
Qed.

(** In the mixed ranking [alice] (80) and [dave] (75) are found; [bob] (40)
    and [carol] (120) are not. *)
Lemma X26_adaptive_campaign_witness :
  high_risk_members (Some "acme"%string) world_with_ranking = ["alice"; "dave"]%string
  /\ NoDup (high_risk_members (Some "acme"%string) world_with_ranking).
Proof.
  split; [vm_compute; reflexivity|].
  assert (Ha : accepts_scores
                 (fstr (Request.org_id
                          (RiskRequest.body
                             (RiskRequest.mk (Some "trigger_adaptive_campaign"%string) None
                                             (Request.mk None (Some "acme"%string) None [])))))
                 (base (fresh_service world_with_ranking)) = true)
    by (vm_compute; reflexivity).
  destruct (X26_adaptive_campaign_targets _ _ Ha) as (_ & Hnd & _).
  exact Hnd.
Defined.

(** ** The scores the worker stores never start a campaign *)

Lemma scores_capped_same_db (bound : Q) (w w' : world) :
  redis_db w' = redis_db w -> scores_capped bound w -> scores_capped bound w'.
Proof. unfold scores_capped. intros ->. auto. Qed.

Lemma scores_capped_string (bound : Q) (w w' : world) (key : string) (ttl : Z)
    (doc : document) :
  redis_db w' = <[key := RString ttl doc]> (redis_db w) ->
  scores_capped bound w -> scores_capped bound w'.
Proof.
  unfold scores_capped. intros -> H key' z member score Hk Hz.
  destruct (decide (key' = key)) as [->|Hne].
  - rewrite lookup_insert_eq in Hk. discriminate Hk.
  - rewrite lookup_insert_ne in Hk by congruence. eauto.
Qed.

Lemma scores_capped_zset (bound : Q) (w w' : world) (key : string) (z : gmap string Q) :
  redis_db w' = <[key := RZSet z]> (redis_db w) ->
  (forall member score, z !! member = Some score -> score <= bound) ->
  scores_capped bound w -> scores_capped bound w'.
Proof.
  unfold scores_capped. intros -> Hz H key' z' member score Hk Hm.
  destruct (decide (key' = key)) as [->|Hne].
  - rewrite lookup_insert_eq in Hk. injection Hk as <-. eauto.
  - rewrite lookup_insert_ne in Hk by congruence. eauto.
Qed.

Lemma store_user_risk_score_capped (bound : Q) (risk_score : RiskScore.t) (w : world) :
  RiskScore.overall_score risk_score <= bound ->
  scores_capped bound w ->
  scores_capped bound (_store_user_risk_score risk_score w).2.
Proof.
  intros Hs Hw.
  unfold _store_user_risk_score, mbind, M_bind, get_redis_client, redis.setex, redis.zadd.
  destruct (redis_client w); [|exact Hw].
  set (w1 := set_redis_db _ w).
  assert (H1 : scores_capped bound w1).
  { eapply scores_capped_string; [|exact Hw]. reflexivity. }
  destruct (redis_db w1 !! _) as [[| |z]|] eqn:Hk; cbn [snd]; try exact H1.
  - eapply scores_capped_zset; [reflexivity| |exact H1].
    intros member score Hm.
    destruct (decide (member = RiskScore.user_id risk_score)) as [->|Hne].
    + rewrite lookup_insert_eq in Hm. now injection Hm as <-.
    + rewrite lookup_insert_ne in Hm by congruence. eapply H1; eauto.
  - eapply scores_capped_zset; [reflexivity| |exact H1].
    intros member score Hm. apply lookup_singleton_Some in Hm as [_ <-]. exact Hs.
Qed.

Lemma risk_score_in_le_65 (user_id org_id : string) (w : world) :
  RiskScore.overall_score (risk_score_in user_id org_id w) <= 65.
Proof.
  rewrite risk_score_in_eq, scored_eq. cbn [RiskScore.overall_score].
  apply risk_factors_score_le_65.
Qed.

Lemma calculate_user_risk_capped (data : Request.t) (w : world) :
  scores_capped 65 w -> scores_capped 65 (calculate_user_risk data w).2.
Proof.
  intros Hw.
  destruct (not_ (Request.user_id data) || not_ (Request.org_id data)) eqn:Hids.
  { now rewrite (calculate_user_risk_invalid _ _ Hids). }
  destruct (clickhouse_client w) eqn:Hc.
  2:{ now rewrite (calculate_user_risk_no_clickhouse _ _ Hids Hc). }
  destruct (calculate_user_risk_valid _ _ Hids Hc) as (u & o & Eu & Eo & Hv).
  rewrite Hv.
  destruct (redis_client_at_store u o (S (S (S (ticks w)))) w) as (_ & Hdb & _).
  pose proof (store_user_risk_score_capped 65 (risk_score_in u o w)
                (set_ticks (S (S (S (ticks w)))) (after_metrics u o w))
                (risk_score_in_le_65 u o w)
                (scores_capped_same_db _ _ _ Hdb Hw)) as Hs.
  destruct (_store_user_risk_score _ _) as [[[]|e1] w1]; exact Hs.
Qed.

Lemma after_loop_capped (org_id : string) (user_ids : list string) (w : world) :
  scores_capped 65 w -> scores_capped 65 (after_loop org_id user_ids w).
Proof.
  revert w. induction user_ids as [|user_id rest IH]; intros w Hw; cbn [after_loop].
  - exact Hw.
  - pose proof (calculate_user_risk_capped
                  (Request.mk (Some user_id) (Some org_id) None []) w Hw) as H1.
    destruct (calculate_user_risk _ w) as [[r|e] w1]; cbn [snd] in H1.
    + now apply IH.
    + apply IH. eapply scores_capped_same_db; [|exact H1]. reflexivity.
Qed.

Lemma calculate_cohort_risk_capped (data : Request.t) (w : world) :
  scores_capped 65 w -> scores_capped 65 (calculate_cohort_risk data w).2.
Proof.
  intros Hw.
  destruct (not_ (Request.cohort_id data) || not_ (Request.org_id data)) eqn:Hids.
  { unfold calculate_cohort_risk. now rewrite Hids. }
  pose proof Hids as Hids'. apply orb_false_iff in Hids' as [Hc Ho].
  apply not_false_inv in Hc as (c & Ec & _). apply not_false_inv in Ho as (o & Eo & _).
  pose proof (after_loop_capped o (Request.user_ids data) w Hw) as Hl.
  destruct (succeeded_scores o (Request.user_ids data) w) as [|score scores] eqn:Hs.
  - unfold calculate_cohort_risk. rewrite Hids, Eo. cbn [default from_option id].
    unfold mbind at 1, M_bind at 1. rewrite cohort_loop_run, Hs. exact Hl.
  - destruct (calculate_cohort_risk_scored data w c o score scores Hids Ec Eo Hs)
      as [Hbad Hok].
    destruct (history_readable c w); [|now rewrite (Hbad eq_refl)].
    specialize (Hok eq_refl).
    destruct (trend_read _ _) as [trend|e]; [|now rewrite Hok].
    destruct Hok as (r & w' & Hrun & Hsucc).
    rewrite Hrun. cbn [snd]. destruct r as [c' a h t tr rs|]; [|discriminate Hsucc].
    destruct (cohort_success_form _ _ _ _ _ _ _ _ _ Hrun)
      as (o' & scores' & wl & _ & Eo' & _ & Hwl & _ & _ & _ & _ & _ & _ & _ & Hw').
    rewrite Eo in Eo'. injection Eo' as <-. subst wl.
    eapply scores_capped_string; [|exact Hl]. rewrite Hw'. reflexivity.
Qed.

Lemma capped_no_members (w : world) (org_id : option string) :
  scores_capped 65 w -> high_risk_members org_id w = [].
Proof.
  intros Hw. destruct (high_risk_members org_id w) as [|member rest] eqn:E;
    [reflexivity|].
  assert (Hin : member ∈ high_risk_members org_id w)
    by (rewrite E; apply list_elem_of_here).
  apply members_in_range_spec in Hin as (score & Hz & Hr).
  unfold org_scores in Hz.
  destruct (redis_db w !! ("org_risk_scores:" +:+ fstr org_id)%string)
    as [[| |z]|] eqn:Hk; try (rewrite lookup_empty in Hz; discriminate Hz).
  pose proof (Hw _ _ _ _ Hk Hz). lra.
Qed.

Lemma trigger_no_members (data : RiskRequest.t) (s : service) :
  high_risk_members (Request.org_id (RiskRequest.body data)) (base s) = [] ->
  (trigger_adaptive_campaign data s).2 = s
  /\ forall result,
      (trigger_adaptive_campaign data s).1 = Return result ->
      result = CampaignNotTriggered "No high-risk users found".
Proof.
  intros Hnone.
  destruct (accepts_scores (fstr (Request.org_id (RiskRequest.body data))) (base s))
    eqn:Ha.
  - rewrite (trigger_adaptive_campaign_run data s Ha), Hnone. cbn [fst snd].
    split; [reflexivity|]. now intros result [= <-].
  - unfold accepts_scores in Ha.
    unfold trigger_adaptive_campaign, mbind, SM_bind, lift, get_redis_client,
      zrevrangebyscore.
    destruct s as [w cp rp pc ec]. cbn [base set_base] in *.
    destruct (redis_client w); cbn [andb] in Ha; cbn [base set_base fst snd];
      [|split; [reflexivity | discriminate]].
    destruct (redis_db w !! _) as [[| |z]|]; try discriminate Ha;
      cbn [base set_base fst snd]; (split; [reflexivity | discriminate]).
Qed.

(** X27: that every score stored in a sorted set is at most 65 is an
    invariant of the calculations: it holds of the empty store and a user
    evaluation and a cohort computation keep it, returning or raising. As
    long as it holds, the campaign trigger finds no user between 75 and
    100: it changes nothing, publishes no campaign, and when it returns it
    answers [No high-risk users found]. *)
Theorem X27_worker_scores_start_no_campaign (w : world) :
  scores_capped 65 w ->
  (forall data, scores_capped 65 (calculate_user_risk data w).2)
  /\ (forall data, scores_capped 65 (calculate_cohort_risk data w).2)
  /\ (forall data s,
         base s = w ->
         (trigger_adaptive_campaign data s).2 = s
         /\ forall result,
             (trigger_adaptive_campaign data s).1 = Return result ->
             result = CampaignNotTriggered "No high-risk users found").
Proof.
  intros Hw.
  split; [intros data; now apply calculate_user_risk_capped|].
  split; [intros data; now apply calculate_cohort_risk_capped|].
  intros data s Hs. apply trigger_no_members, capped_no_members. now rewrite Hs.
Qed.

(** After the evaluation of [alice] in the empty store the trigger for
    [acme] finds nobody. *)
Lemma X27_worker_scores_witness :
  (trigger_adaptive_campaign
     (RiskRequest.mk (Some "trigger_adaptive_campaign"%string) None
                     (Request.mk None (Some "acme"%string) None []))
     (fresh_service
        (calculate_user_risk (user_request "alice" "acme") (fresh_world one_click)).2)).1
  = Return (CampaignNotTriggered "No high-risk users found").
Proof.
  assert (H0 : scores_capped 65 (fresh_world one_click)).
  { intros key z member score Hk. vm_compute in Hk. discriminate Hk. }
  destruct (X27_worker_scores_start_no_campaign _ H0) as (Hu & _ & _).
  destruct (X27_worker_scores_start_no_campaign _ (Hu (user_request "alice" "acme")))
    as (_ & _ & Ht).
  destruct (Ht (RiskRequest.mk (Some "trigger_adaptive_campaign"%string) None
                               (Request.mk None (Some "acme"%string) None []))
               (fresh_service
                  (calculate_user_risk (user_request "alice" "acme")
                                       (fresh_world one_click)).2) eq_refl)
    as [_ Hr].
  assert (Hrun : exists result,
             (trigger_adaptive_campaign
                (RiskRequest.mk (Some "trigger_adaptive_campaign"%string) None
                                (Request.mk None (Some "acme"%string) None []))
                (fresh_service
                   (calculate_user_risk (user_request "alice" "acme")
                                        (fresh_world one_click)).2)).1
             = Return result).
  { eexists. vm_compute. reflexivity. }
  destruct Hrun as [result Hrun]. rewrite Hrun. f_equal. apply Hr, Hrun.
Defined.

(** ** The request handler *)

(** The replies and the two counters of a service. *)
Lemma lift_counters {A : Type} (m : M A) (s : service) :
  replies (lift m s).2 = replies s
  /\ processed_count (lift m s).2 = processed_count s
  /\ error_count (lift m s).2 = error_count s.
Proof. unfold lift. destruct (m (base s)) as [o w']. cbn [snd set_base replies
  processed_count error_count]. auto. Qed.

Lemma lift_then_counters {A B : Type} (m : M A) (f : A -> B) (s : service) :
  replies ((a ← lift m ; mret (f a)) s).2 = replies s
  /\ processed_count ((a ← lift m ; mret (f a)) s).2 = processed_count s
  /\ error_count ((a ← lift m ; mret (f a)) s).2 = error_count s.
Proof.
  pose proof (lift_counters m s) as H. unfold mbind, SM_bind, mret, SM_ret.
  destruct (lift m s) as [[a|e] s1]; exact H.
Qed.

Lemma trigger_adaptive_campaign_counters (data : RiskRequest.t) (s : service) :
  replies (trigger_adaptive_campaign data s).2 = replies s
  /\ processed_count (trigger_adaptive_campaign data s).2 = processed_count s
  /\ error_count (trigger_adaptive_campaign data s).2 = error_count s.
Proof.
  unfold trigger_adaptive_campaign, mbind, SM_bind, lift, get_redis_client,
    zrevrangebyscore, publish_campaign, mret, SM_ret.
  destruct s as [w cp rp pc ec]. cbn [base set_base].
  destruct (redis_client w); cbn [base set_base snd replies processed_count error_count];
    [|auto].
  destruct (redis_db w !! _) as [[| |z]|];
    cbn [base set_base snd replies processed_count error_count]; auto.
  destruct (members_in_range z 100 75) as [|user users];
    cbn [base set_base snd replies processed_count error_count campaigns_published]; auto.
  destruct (nats_client w);
    cbn [base set_base snd replies processed_count error_count]; auto.
  destruct (nats_publish_error w _);
    cbn [base set_base snd replies processed_count error_count]; auto.
Qed.

Lemma dispatch_counters (data : RiskRequest.t) (s : service) :
  replies (dispatch data s).2 = replies s
  /\ processed_count (dispatch data s).2 = processed_count s
  /\ error_count (dispatch data s).2 = error_count s.
Proof.
  unfold dispatch. cbv zeta.
  repeat (case_bool_decide; [apply lift_then_counters|]).
  case_bool_decide; [|apply lift_counters].
  pose proof (trigger_adaptive_campaign_counters data s) as Hc.
  unfold mbind, SM_bind, mret, SM_ret.
  destruct (trigger_adaptive_campaign data s) as [[a|e] s1]; exact Hc.
Qed.

(** The handler in closed form. *)
Lemma handle_risk_request_run (data : RiskRequest.t) (msg : Msg.t) (s : service) :
  handle_risk_request data msg s
  = match dispatch data s with
    | (Return result, s1) =>
        if truthy (Msg.reply msg) then
          match Msg.respond_raises msg with
          | None =>
              (Return tt,
               mk_service (base s1) (campaigns_published s1)
                          (replies s1 ++ [(Msg.reply msg, result)])
                          (S (processed_count s1)) (error_count s1))
          | Some e =>
              (Raise e,
               mk_service
                 (set_log (log (base s1)
                           ++ [("error", "Error handling risk request: " +:+ str e)])
                          (base s1))
                 (campaigns_published s1) (replies s1)
                 (processed_count s1) (S (error_count s1)))
          end
        else
          (Return tt,
           mk_service (base s1) (campaigns_published s1) (replies s1)
                      (S (processed_count s1)) (error_count s1))
    | (Raise e0, s1) =>
        if truthy (Msg.reply msg) then
          match Msg.respond_raises msg with
          | None =>
              (Return tt,
               mk_service
                 (set_log (log (base s1)
                           ++ [("error", "Error handling risk request: " +:+ str e0)])
                          (base s1))
                 (campaigns_published s1)
                 (replies s1 ++ [(Msg.reply msg, ErrorResponse (str e0))])
                 (processed_count s1) (S (error_count s1)))
          | Some e =>
              (Raise e,
               mk_service
                 (set_log (log (base s1)
                           ++ [("error", "Error handling risk request: " +:+ str e0)])
                          (base s1))
                 (campaigns_published s1) (replies s1)
                 (processed_count s1) (S (error_count s1)))
          end
        else
          (Return tt,
           mk_service
             (set_log (log (base s1)
                       ++ [("error", "Error handling risk request: " +:+ str e0)])
                      (base s1))
             (campaigns_published s1) (replies s1)
             (processed_count s1) (S (error_count s1)))
    end.
Proof.
  unfold handle_risk_request, try_except_service.
  unfold mbind at 1, SM_bind at 1.
  destruct (dispatch data s) as [[result|e0] s1];
    destruct msg as [reply [e|]]; cbn [Msg.reply Msg.respond_raises];
    destruct (truthy reply); reflexivity.
Qed.

(** X28: the accounting of [handle_risk_request]. Whatever the request,
    exactly one of the two counters grows by one, also when the handler
    itself raises. The handler raises only when an answer is expected and
    [msg.respond] raises; a request whose calculation returned but whose
    answer could not be sent is counted as an error, not as processed.
    Without a reply subject nothing is answered; with one, and a working
    [respond], exactly one answer is sent to it. *)
Theorem X28_handler_accounting (data : RiskRequest.t) (msg : Msg.t) (s : service) :
  (processed_count (handle_risk_request data msg s).2
   + error_count (handle_risk_request data msg s).2
   = processed_count s + error_count s + 1)%nat
  /\ (processed_count (handle_risk_request data msg s).2 = S (processed_count s)
      <-> (exists result, (dispatch data s).1 = Return result)
          /\ (truthy (Msg.reply msg) = false \/ Msg.respond_raises msg = None))
  /\ ((handle_risk_request data msg s).1 = Return tt
      \/ exists e,
          truthy (Msg.reply msg) = true /\ Msg.respond_raises msg = Some e
          /\ (handle_risk_request data msg s).1 = Raise e)
  /\ (truthy (Msg.reply msg) = false ->
      (handle_risk_request data msg s).1 = Return tt
      /\ replies (handle_risk_request data msg s).2 = replies s)
  /\ (truthy (Msg.reply msg) = true -> Msg.respond_raises msg = None ->
      (handle_risk_request data msg s).1 = Return tt
      /\ exists answer,
          replies (handle_risk_request data msg s).2
          = replies s ++ [(Msg.reply msg, answer)]
          /\ match (dispatch data s).1 with
             | Return result => answer = result
             | Raise e => answer = ErrorResponse (str e)
             end).
Proof.
  rewrite handle_risk_request_run.
  destruct (dispatch_counters data s) as (Hr & Hp & He).
  destruct msg as [reply raises]. cbn [Msg.reply Msg.respond_raises].
  destruct (dispatch data s) as [[result|e0] s1]; cbn [fst snd] in *;
    destruct (truthy reply); destruct raises as [e|];
    cbn [fst snd replies processed_count error_count];
    rewrite ?Hr, ?Hp, ?He;
    (split; [lia|]);
    (split; [split; [intros Hx; first [lia | split; eauto]
                    | intros [[x Hx] [Hy|Hy]]; first [lia | discriminate]]|]);
    (split; [first [left; reflexivity | right; eauto]|]);
    (split; [intros Hx; first [discriminate Hx | split; reflexivity]|]);
    intros H1 H2; try discriminate H1; try discriminate H2;
    (split; [reflexivity|]); eexists; split; reflexivity.
Qed.

(** X29: a request whose [type] is missing or none of the four the worker
    knows runs no calculation: the store, the published bodies and the
    clock stay as they were, one error line is logged, the error counter
    grows by one and, when an answer is expected, it is the error
    [Unknown risk request type: <type>], the type printing as [None] when
    missing. *)
Theorem X29_unknown_request_type (data : RiskRequest.t) (reply : string) (s : service) :
  RiskRequest.type data <> Some "calculate_user_risk"%string ->
  RiskRequest.type data <> Some "calculate_cohort_risk"%string ->
  RiskRequest.type data <> Some "get_risk_recommendations"%string ->
  RiskRequest.type data <> Some "trigger_adaptive_campaign"%string ->
  let error := ("Unknown risk request type: " +:+ fstr (RiskRequest.type data))%string in
  handle_risk_request data (Msg.mk reply None) s
  = (Return tt,
     mk_service
       (set_log (log (base s) ++ [("error"%string,
                                   ("Error handling risk request: " +:+ error)%string)])
                (base s))
       (campaigns_published s)
       (if truthy reply then replies s ++ [(reply, ErrorResponse error)] else replies s)
       (processed_count s) (S (error_count s))).
Proof.
  intros H1 H2 H3 H4 error. rewrite handle_risk_request_run.
  assert (Hd : dispatch data s = (Raise (ValueError error), s)).
  { unfold dispatch. cbv zeta. rewrite !bool_decide_eq_false_2 by assumption.
    unfold lift, raise. destruct s; reflexivity. }
  rewrite Hd. cbn [Msg.reply Msg.respond_raises str].
  destruct (truthy reply); reflexivity.
Qed.

(** A request without a type, answered on [inbox.1]. *)
Lemma X29_unknown_request_witness :
  replies (handle_risk_request
             (RiskRequest.mk None None (Request.mk None (Some "acme"%string) None []))
             (Msg.mk "inbox.1" None) (fresh_service (fresh_world one_click))).2
  = [("inbox.1"%string, ErrorResponse "Unknown risk request type: None")].
Proof.
  rewrite (X29_unknown_request_type
             (RiskRequest.mk None None (Request.mk None (Some "acme"%string) None []))
             "inbox.1" (fresh_service (fresh_world one_click)));
    [reflexivity | discriminate | discriminate | discriminate | discriminate].
Defined.

(** ** A history that is not made of numbers *)

(** X30: when some user got a score and, of the at least two entries the
    trend step reads from the history list, one is not a number, the cohort
    computation raises the [ValueError] of the conversion after the loop
    over the users: the user scores of the call stay stored, no cohort
    snapshot is written. *)
Theorem X30_cohort_history_not_numeric (data : Request.t) (w : world)
    (stored : list entry) (e : exc) :
  not_ (Request.cohort_id data) || not_ (Request.org_id data) = false ->
  succeeded_scores (default ""%string (Request.org_id data)) (Request.user_ids data) w
  <> [] ->
  history_of (default ""%string (Request.cohort_id data)) w = Some (RList stored) ->
  (2 <= length (take 5 stored))%nat ->
  floats (take 5 stored) = Raise e ->
  calculate_cohort_risk data w
  = (Raise e,
     after_loop (default ""%string (Request.org_id data)) (Request.user_ids data) w).
Proof.
  intros Hids Hs Hk Hlen Hf.
  pose proof Hids as Hids'. apply orb_false_iff in Hids' as [Hc Ho].
  apply not_false_inv in Hc as (c & Ec & _). apply not_false_inv in Ho as (o & Eo & _).
  rewrite Eo in Hs |- *. rewrite Ec in Hk.
  cbn [default from_option id] in Hs, Hk |- *.
  destruct (succeeded_scores o (Request.user_ids data) w) as [|score scores] eqn:Hs';
    [congruence|].
  destruct (calculate_cohort_risk_scored data w c o score scores Hids Ec Eo Hs')
    as [_ Hok].
  unfold history_readable, history_read in Hok. rewrite Hk in Hok.
  specialize (Hok eq_refl). unfold trend_read in Hok.
  destruct (Nat.ltb_spec (length (take 5 stored)) 2) as [Hlt|_]; [lia|].
  rewrite Hf in Hok. exact Hok.
Qed.

(** The cohort of [alice] with a history whose second entry is [n/a]. *)
Lemma X30_cohort_history_witness :
  (calculate_cohort_risk (cohort_request "c1" "acme" ["alice"]%string)
                         world_with_text_history).1
  = Raise (ValueError "could not convert string to float: 'n/a'").
Proof.
  assert (H1 : not_ (Request.cohort_id (cohort_request "c1" "acme" ["alice"]%string))
               || not_ (Request.org_id (cohort_request "c1" "acme" ["alice"]%string))
               = false) by reflexivity.
  assert (H2 : succeeded_scores
                 (default ""%string
                    (Request.org_id (cohort_request "c1" "acme" ["alice"]%string)))
                 (Request.user_ids (cohort_request "c1" "acme" ["alice"]%string))
                 world_with_text_history <> []).
  { intros H. apply (f_equal (@length Q)) in H. vm_compute in H. discriminate H. }
  assert (H3 : history_of
                 (default ""%string
                    (Request.cohort_id (cohort_request "c1" "acme" ["alice"]%string)))
                 world_with_text_history
               = Some (RList [numeric 60;
                              not_numeric "could not convert string to float: 'n/a'";
                              numeric 55])) by (vm_compute; reflexivity).
  assert (H4 : (2 <= length (take 5 [numeric 60;
                                     not_numeric "could not convert string to float: 'n/a'";
                                     numeric 55]))%nat) by (cbn [take length]; lia).
  rewrite (X30_cohort_history_not_numeric _ _ _ _ H1 H2 H3 H4 eq_refl). reflexivity.
Defined.
